(** * The leak-detection result pipeline of [backend/utils/gemini.js]

    A shallow embedding of [analyzeWithGemini] and [drawLeakAnnotations]:
    the pressure context, the cleaning and interpretation of the service's
    reply, the confidence filter, the overlay geometry and the base64 text
    form of the result.

    What belongs to the host (Node, axios, sharp) and not to the repository
    is gathered in the record [Host]: the model is a function of it, and the
    theorems hold for every host. *)

From Stdlib Require Import List String Ascii NArith ZArith Lia Bool Arith.
From Stdlib Require Import Strings.Byte DecimalString.
From Stdlib Require Import Floats.SpecFloat.
Import ListNotations.

Set Implicit Arguments.
Set Warnings "-register-all".

(* ===================================================================== *)
(** * JavaScript strings                                                  *)
(* ===================================================================== *)

(** A JavaScript string is a sequence of UTF-16 code units. *)
Definition char16 := N.
Definition jsstring := list char16.

(** An ASCII literal of the source, as code units. *)
Definition js (s : string) : jsstring :=
  List.map N_of_ascii (list_ascii_of_string s).

Fixpoint jsstring_eqb (s t : jsstring) : bool :=
  match s, t with
  | [], [] => true
  | a :: s', b :: t' => N.eqb a b && jsstring_eqb s' t'
  | _, _ => false
  end.

(** The double quote, [U+0022]. *)
Definition dquote : jsstring := [34%N].

(** Decimal digits of a natural number, as a template literal prints an
    array index or a length. *)
Definition dec_of_N (n : N) : jsstring :=
  js (DecimalString.NilZero.string_of_uint (N.to_uint n)).
Definition dec_of_nat (n : nat) : jsstring := dec_of_N (N.of_nat n).

Module JsString.

(** [starts_with p s]: what follows [p] when [s] begins with [p]. *)
Fixpoint starts_with (p s : jsstring) : option jsstring :=
  match p, s with
  | [], _ => Some s
  | a :: p', b :: s' => if N.eqb a b then starts_with p' s' else None
  | _ :: _, [] => None
  end.

(** [s.replace(/p\n?/g, "")] for a literal [p]: every match of [p],
    taken from the left and followed by at most one line feed, is
    removed.  [skip] counts the code units of the current match that are
    still to be dropped. *)
Fixpoint remove_matches (p : jsstring) (skip : nat) (s : jsstring) : jsstring :=
  match s with
  | [] => []
  | c :: s' =>
      match skip with
      | S k => remove_matches p k s'
      | O =>
          match starts_with p s with
          | Some (10%N :: _) => remove_matches p (List.length p) s'
          | Some _ => remove_matches p (List.length p - 1) s'
          | None => c :: remove_matches p 0 s'
          end
      end
  end.

Definition replace_fence (p : jsstring) (s : jsstring) : jsstring :=
  match p with
  | [] => s
  | _ :: _ => remove_matches p 0 s
  end.

(** White space and line terminators of ECMAScript, the code units that
    [String.prototype.trim] removes. *)
Definition is_space (c : char16) : bool :=
  ((9 <=? c) && (c <=? 13) || (c =? 32) || (c =? 160) || (c =? 5760)
   || (8192 <=? c) && (c <=? 8202) || (c =? 8232) || (c =? 8233)
   || (c =? 8239) || (c =? 8287) || (c =? 12288) || (c =? 65279))%N.

Fixpoint trim_start (s : jsstring) : jsstring :=
  match s with
  | c :: s' => if is_space c then trim_start s' else s
  | [] => []
  end.

Definition trim (s : jsstring) : jsstring :=
  List.rev (trim_start (List.rev (trim_start s))).

(** [arr.join(sep)] on strings. *)
Fixpoint join (sep : jsstring) (l : list jsstring) : jsstring :=
  match l with
  | [] => []
  | [s] => s
  | s :: l' => s ++ sep ++ join sep l'
  end.

End JsString.

(** The cleaning of the reply text, lines 143-146:
    [.replace(/```json\n?/g, "").replace(/```\n?/g, "").trim()]. *)
Definition clean_response (responseText : jsstring) : jsstring :=
  JsString.trim
    (JsString.replace_fence (js "```")
       (JsString.replace_fence (js "```json") responseText)).

(* ===================================================================== *)
(** * Numbers and JSON values                                             *)
(* ===================================================================== *)

(** A JavaScript number is an IEEE 754 binary64 value. *)
Definition number := spec_float.

Module Num.
Definition prec : Z := 53.
Definition emax : Z := 1024.
Definition of_Z (z : Z) : number := binary_normalize prec emax z 0 false.
(** [m * 2^e], rounded to the nearest binary64 value. *)
Definition of_dyadic (m e : Z) : number := binary_normalize prec emax m e false.
Definition nan : number := S754_nan.
Definition zero : number := S754_zero false.
Definition add : number -> number -> number := SFadd prec emax.
Definition sub : number -> number -> number := SFsub prec emax.
Definition div : number -> number -> number := SFdiv prec emax.
Definition abs : number -> number := SFabs.
(** [ltb a b] is the JavaScript [a < b]; [b > a] is the same test. *)
Definition ltb : number -> number -> bool := SFltb.
Definition leb : number -> number -> bool := SFleb.
Definition gtb (a b : number) : bool := ltb b a.
Definition is_nan (a : number) : bool :=
  match a with S754_nan => true | _ => false end.
Definition is_zero (a : number) : bool :=
  match a with S754_zero _ => true | _ => false end.
End Num.

(** What [JSON.parse] returns. An object keeps its own properties as an
    association list (one binding per key, as [JSON.parse] leaves them). *)
Inductive json : Type :=
| JNull
| JBool (b : bool)
| JNum (n : number)
| JStr (s : jsstring)
| JArr (items : list json)
| JObj (props : list (jsstring * json)).

(** A JavaScript value read from such data: [None] is [undefined]. *)
Definition jsval := option json.

Fixpoint assoc (k : jsstring) (props : list (jsstring * json)) : jsval :=
  match props with
  | [] => None
  | (k', v) :: rest => if jsstring_eqb k k' then Some v else assoc k rest
  end.

(** [v.name] for the property names the source uses ([candidates],
    [content], [parts], [text], [leaks], [confidence], [x], ...), none of
    which is found on a prototype: only an object's own property answers. *)
Definition get_named (v : json) (name : jsstring) : jsval :=
  match v with
  | JObj props => assoc name props
  | _ => None
  end.

(** [v[0]]: the first element of an array, the first code unit of a string,
    the own property ["0"] of an object. *)
Definition get_index0 (v : json) : jsval :=
  match v with
  | JArr items => List.nth_error items 0
  | JStr (c :: _) => Some (JStr [c])
  | JObj props => assoc (js "0") props
  | _ => None
  end.

(** [a?.name] and [a?.[0]]: [undefined] when [a] is [null] or [undefined]. *)
Definition opt_named (a : jsval) (name : jsstring) : jsval :=
  match a with
  | None | Some JNull => None
  | Some v => get_named v name
  end.

Definition opt_index0 (a : jsval) : jsval :=
  match a with
  | None | Some JNull => None
  | Some v => get_index0 v
  end.

(** Truthiness, as [!v] and [v || w] test it. *)
Definition truthy (a : jsval) : bool :=
  match a with
  | None | Some JNull => false
  | Some (JBool b) => b
  | Some (JNum n) => negb (Num.is_zero n || Num.is_nan n)
  | Some (JStr s) => match s with [] => false | _ => true end
  | Some (JArr _) | Some (JObj _) => true
  end.

Definition js_or (a b : jsval) : jsval := if truthy a then a else b.

(* ===================================================================== *)
(** * Exceptions and effects                                              *)
(* ===================================================================== *)

Inductive exn : Type :=
| InputError      (* [new Error("No image buffer provided!")] *)
| TypeError       (* raised by the language: property of null, call of a non-function *)
| ServiceError    (* the promise of [axios.post] rejects *)
| RenderError.    (* a promise of sharp rejects *)

Inductive result (A : Type) : Type :=
| Return (a : A)
| Throw (e : exn).
Arguments Return {A} a.
Arguments Throw {A} e.

Module Res.
Definition bind {A B} (r : result A) (f : A -> result B) : result B :=
  match r with
  | Return a => f a
  | Throw e => Throw e
  end.
End Res.

(* ===================================================================== *)
(** * Buffers and their base64 text                                       *)
(* ===================================================================== *)

(** A [Buffer] is a sequence of bytes. *)
Definition buffer := list byte.

(** [buf.toString("base64")] and [Buffer.from(text, "base64")] of Node:
    the alphabet of RFC 4648 with [=] padding on the way out; on the way
    in, the decoder also takes the URL-safe alphabet, skips every character
    that is in neither and stops at the first [=]. *)
Module Base64.

Definition byte_of_N (n : N) : byte :=
  match Byte.of_N (n mod 256) with
  | Some b => b
  | None => Byte.x00
  end.

Definition char_of_sextet (n : N) : char16 :=
  (if n <? 26 then 65 + n
   else if n <? 52 then 97 + (n - 26)
   else if n <? 62 then 48 + (n - 52)
   else if n =? 62 then 43
   else 47)%N.

Definition pad : char16 := 61%N.

Fixpoint encode (b : buffer) : jsstring :=
  match b with
  | [] => []
  | [b1] =>
      let n1 := Byte.to_N b1 in
      [char_of_sextet (n1 / 4); char_of_sextet ((n1 mod 4) * 16); pad; pad]%N
  | [b1; b2] =>
      let n1 := Byte.to_N b1 in
      let n2 := Byte.to_N b2 in
      [char_of_sextet (n1 / 4);
       char_of_sextet ((n1 mod 4) * 16 + n2 / 16);
       char_of_sextet ((n2 mod 16) * 4); pad]%N
  | b1 :: b2 :: b3 :: rest =>
      let n1 := Byte.to_N b1 in
      let n2 := Byte.to_N b2 in
      let n3 := Byte.to_N b3 in
      (char_of_sextet (n1 / 4)
       :: char_of_sextet ((n1 mod 4) * 16 + n2 / 16)
       :: char_of_sextet ((n2 mod 16) * 4 + n3 / 64)
       :: char_of_sextet (n3 mod 64)
       :: encode rest)%N
  end.

Definition sextet_of_char (c : char16) : option N :=
  (if (65 <=? c) && (c <=? 90) then Some (c - 65)
   else if (97 <=? c) && (c <=? 122) then Some (c - 97 + 26)
   else if (48 <=? c) && (c <=? 57) then Some (c - 48 + 52)
   else if (c =? 43) || (c =? 45) then Some 62
   else if (c =? 47) || (c =? 95) then Some 63
   else None)%N.

(** The legal characters before the first [=], as 6-bit values. *)
Fixpoint sextets (s : jsstring) : list N :=
  match s with
  | [] => []
  | c :: s' =>
      if N.eqb c pad then []
      else match sextet_of_char c with
           | Some v => v :: sextets s'
           | None => sextets s'
           end
  end.

(** A byte is written as soon as the second, third and fourth value of a
    group has been read. *)
Fixpoint bytes_of_sextets (l : list N) : buffer :=
  match l with
  | a :: b :: c :: d :: rest =>
      (byte_of_N (a * 4 + b / 16)
       :: byte_of_N ((b mod 16) * 16 + c / 4)
       :: byte_of_N ((c mod 4) * 64 + d)
       :: bytes_of_sextets rest)%N
  | [a; b; c] =>
      [byte_of_N (a * 4 + b / 16); byte_of_N ((b mod 16) * 16 + c / 4)]%N
  | [a; b] => [byte_of_N (a * 4 + b / 16)]%N
  | _ => []
  end.

Definition decode (s : jsstring) : buffer := bytes_of_sextets (sextets s).

End Base64.

(* ===================================================================== *)
(** * The host                                                            *)
(* ===================================================================== *)

(** [process.env], as far as the pipeline reads it. *)
Record Env : Type := {
  GEMINI_API_KEY : option jsstring;
  GEMINI_API_URL : option jsstring
}.

(** The request of lines 97-130: the address, the instruction text, and
    the image with the type it is declared to have. The generation settings
    (temperature 0.1, topK 20, topP 0.8), the header and the timeout of
    90 s are the same in every request and are left out. *)
Record Request : Type := {
  req_url : jsstring;
  req_text : jsstring;
  req_mime_type : jsstring;
  req_data : jsstring
}.

(** [metadata.width] and [metadata.height] of sharp: a pixel count, or
    [undefined]. *)
Record Metadata : Type := {
  md_width : option N;
  md_height : option N
}.

(** The functions of Node, axios and sharp that the pipeline calls. A
    promise that rejects, or a call that throws, answers [None]. *)
Record Host : Type := {
  (** [JSON.parse(text)]; [None] is a [SyntaxError]. *)
  JSON_parse : jsstring -> option json;
  (** [axios.post(url, body, config)]: [response.data] when the service
      answers 2xx within the timeout. *)
  axios_post : Request -> option jsval;
  (** [sharp(buf).metadata()]. *)
  sharp_metadata : buffer -> option Metadata;
  (** [sharp(buf).composite([{input: svg, top: 0, left: 0}])
      .jpeg({quality: 95}).toBuffer()]. *)
  sharp_composite_jpeg : buffer -> jsstring -> option buffer;
  (** [String(n)] for a number. *)
  NumberToString : number -> jsstring;
  (** [n.toFixed(2)]. *)
  Number_toFixed2 : number -> jsstring;
  (** [Number(s)] for a string. *)
  StringToNumber : jsstring -> number
}.

(* ===================================================================== *)
(** * Coercions of the language on parsed data                            *)
(* ===================================================================== *)

Definition nl : jsstring := [10%N].

(** A primitive value, what [ToPrimitive] leaves. *)
Inductive prim : Type :=
| PUndefined
| PNull
| PBool (b : bool)
| PNum (n : number)
| PStr (s : jsstring).

Section Coercions.
Variable h : Host.

(** [String(v)] on parsed data. An array joins its elements with a comma,
    [null] elements printing as nothing; a plain object prints as
    [[object Object]] unless an own property hides [toString], in which
    case no conversion is left and a [TypeError] is raised. *)
Fixpoint to_string (v : json) : result jsstring :=
  match v with
  | JNull => Return (js "null")
  | JBool true => Return (js "true")
  | JBool false => Return (js "false")
  | JNum n => Return (NumberToString h n)
  | JStr s => Return s
  | JArr items =>
      Res.bind
        ((fix elements (l : list json) : result (list jsstring) :=
            match l with
            | [] => Return []
            | e :: l' =>
                Res.bind
                  (match e with JNull => Return [] | _ => to_string e end)
                  (fun s => Res.bind (elements l') (fun ss => Return (s :: ss)))
            end) items)
        (fun ss => Return (JsString.join (js ",") ss))
  | JObj props =>
      match assoc (js "toString") props with
      | Some _ => Throw TypeError
      | None => Return (js "[object Object]")
      end
  end.

(** A template literal's [${v}]. *)
Definition interpolate (a : jsval) : result jsstring :=
  match a with
  | None => Return (js "undefined")
  | Some v => to_string v
  end.

Definition to_primitive (a : jsval) : result prim :=
  match a with
  | None => Return PUndefined
  | Some JNull => Return PNull
  | Some (JBool b) => Return (PBool b)
  | Some (JNum n) => Return (PNum n)
  | Some (JStr s) => Return (PStr s)
  | Some v => Res.bind (to_string v) (fun s => Return (PStr s))
  end.

Definition prim_to_number (p : prim) : number :=
  match p with
  | PUndefined => Num.nan
  | PNull => Num.zero
  | PBool true => Num.of_Z 1
  | PBool false => Num.zero
  | PNum n => n
  | PStr s => StringToNumber h s
  end.

Definition prim_to_string (p : prim) : jsstring :=
  match p with
  | PUndefined => js "undefined"
  | PNull => js "null"
  | PBool true => js "true"
  | PBool false => js "false"
  | PNum n => NumberToString h n
  | PStr s => s
  end.

Definition to_number (a : jsval) : result number :=
  Res.bind (to_primitive a) (fun p => Return (prim_to_number p)).

(** [a > k] and [a - k] for a number [k]. *)
Definition js_gt (a : jsval) (k : number) : result bool :=
  Res.bind (to_number a) (fun n => Return (Num.gtb n k)).

Definition js_sub (a : jsval) (k : number) : result number :=
  Res.bind (to_number a) (fun n => Return (Num.sub n k)).

(** [a + b]: concatenation as soon as one side is a string. *)
Definition js_add (a b : jsval) : result json :=
  Res.bind (to_primitive a) (fun pa =>
  Res.bind (to_primitive b) (fun pb =>
    match pa, pb with
    | PStr _, _ | _, PStr _ =>
        Return (JStr (prim_to_string pa ++ prim_to_string pb))
    | _, _ => Return (JNum (Num.add (prim_to_number pa) (prim_to_number pb)))
    end)).

End Coercions.

(* ===================================================================== *)
(** * The pressure context (lines 28-43)                                  *)
(* ===================================================================== *)

Inductive tier : Type := Significant | Moderate | Normal.

(** The thresholds [3] and [1.5]. *)
Definition psi_3 : number := Num.of_Z 3.
Definition psi_1_5 : number := Num.of_dyadic 3 (-1).

(** The nested conditional of lines 37-41. *)
Definition pressure_tier (pressureDiff : number) : tier :=
  if Num.gtb pressureDiff psi_3 then Significant
  else if Num.gtb pressureDiff psi_1_5 then Moderate
  else Normal.

(** The warning sign [U+26A0 U+FE0F] and the check mark [U+2713]. *)
Definition warning_sign : jsstring := [9888%N; 65039%N].
Definition check_mark : jsstring := [10003%N].

Definition tier_text (t : tier) : jsstring :=
  match t with
  | Significant =>
      warning_sign ++ js " ALERT: Significant pressure drop detected (>3 PSI) - Actively search for visible leak evidence!"
  | Moderate =>
      warning_sign ++ js " WARNING: Moderate pressure drop detected (>1.5 PSI) - Examine carefully for leaks."
  | Normal =>
      check_mark ++ js " Normal pressure difference (<1.5 PSI) - Only flag OBVIOUS visible damage."
  end.

Definition pressureDiff (end1Pressure end2Pressure : number) : number :=
  Num.abs (Num.sub end1Pressure end2Pressure).

(** A reading that is [null] (or left out, which the default turns into
    [null]) is [None]. *)
Definition pressureContext (h : Host) (end1Pressure end2Pressure : option number)
  : jsstring :=
  match end1Pressure, end2Pressure with
  | Some e1, Some e2 =>
      nl ++ js "SYSTEM PRESSURE DATA:" ++ nl
      ++ js "- End 1 Pressure: " ++ NumberToString h e1 ++ js " PSI" ++ nl
      ++ js "- End 2 Pressure: " ++ NumberToString h e2 ++ js " PSI" ++ nl
      ++ js "- Pressure Difference: "
      ++ Number_toFixed2 h (pressureDiff e1 e2) ++ js " PSI" ++ nl
      ++ nl
      ++ tier_text (pressure_tier (pressureDiff e1 e2)) ++ nl
  | _, _ => []
  end.

(* ===================================================================== *)
(** * Computations: a trace of host calls and a result                    *)
(* ===================================================================== *)

Inductive event : Type :=
| EvPost (r : Request)                          (* [axios.post] is called *)
| EvRender (image : buffer) (leaks : list json) (* [drawLeakAnnotations] is entered *)
| EvComposite (image : buffer) (svg : jsstring). (* sharp composites the overlay *)

(** An [async] function body: the host calls it made, in order, and how it
    ended. *)
Definition M (A : Type) : Type := (list event * result A)%type.

Module Run.
Definition ret {A} (a : A) : M A := ([], Return a).
Definition throw {A} (e : exn) : M A := ([], Throw e).
Definition emit (ev : event) : M unit := ([ev], Return tt).
Definition lift {A} (r : result A) : M A := ([], r).

Definition bind {A B} (m : M A) (f : A -> M B) : M B :=
  match m with
  | (t, Return a) => let (t', r) := f a in (t ++ t', r)
  | (t, Throw e) => (t, Throw e)
  end.

(** [try { m } catch (err) { handler }]. *)
Definition try_catch {A} (m : M A) (handler : exn -> M A) : M A :=
  match m with
  | (t, Throw e) => let (t', r) := handler e in (t ++ t', r)
  | (t, Return a) => (t, Return a)
  end.

(** A host call that may reject. *)
Definition await {A} (e : exn) (o : option A) : M A :=
  match o with
  | Some a => ret a
  | None => throw e
  end.
End Run.

Definition trace {A} (m : M A) : list event := fst m.
Definition outcome {A} (m : M A) : result A := snd m.

Declare Scope run_scope.
Delimit Scope run_scope with run.
Notation "x <- m ;; k" := (Run.bind m (fun x => k))
  (at level 61, m at next level, right associativity) : run_scope.
Notation "m ;; k" := (Run.bind m (fun _ => k))
  (at level 61, right associativity) : run_scope.

Declare Scope res_scope.
Delimit Scope res_scope with res.
Notation "x <- r ;; k" := (Res.bind r (fun x => k))
  (at level 61, r at next level, right associativity) : res_scope.
Notation "r ;; k" := (Res.bind r (fun _ => k))
  (at level 61, right associativity) : res_scope.

Definition is_post (ev : event) : bool :=
  match ev with EvPost _ => true | _ => false end.

Definition is_render (ev : event) : bool :=
  match ev with EvRender _ _ | EvComposite _ _ => true | _ => false end.

(* ===================================================================== *)
(** * The annotation renderer (lines 201-274)                             *)
(* ===================================================================== *)

(** The attributes of a [<rect>] and of a [<text>] of the overlay, as the
    template prints them. *)
Record Rect : Type := {
  rect_x : jsstring;
  rect_y : jsstring;
  rect_width : jsstring;
  rect_height : jsstring;
  rect_fill : jsstring;
  rect_stroke : option jsstring;
  rect_stroke_width : option jsstring;
  rect_opacity : option jsstring
}.

Record Text : Type := {
  text_x : jsstring;
  text_y : jsstring;
  text_font_family : jsstring;
  text_font_size : jsstring;
  text_fill : jsstring;
  text_font_weight : jsstring;
  text_content : jsstring
}.

(** What one detection adds to the overlay. *)
Record LeakMark : Type := {
  mark_box : Rect;
  mark_label_bg : Rect;
  mark_label : Text
}.

(** [`LEAK #${index + 1}`]. *)
Definition labelText (index : nat) : jsstring :=
  js "LEAK #" ++ dec_of_nat (index + 1).

(** [labelText.length * 10 + 10]. *)
Definition label_bg_width (text : jsstring) : nat := List.length text * 10 + 10.

Section Renderer.
Variable h : Host.
Local Open Scope res_scope.

(** [y > 30 ? y - 10 : y + height + 20] (line 216). *)
Definition labelY (y height : jsval) : result json :=
  above <- js_gt h y (Num.of_Z 30) ;;
  if above then
    n <- js_sub h y (Num.of_Z 10) ;; Return (JNum n)
  else
    s <- js_add h y height ;;
    js_add h (Some s) (Some (JNum (Num.of_Z 20))).

(** The body of the callback of [leaks.map] (lines 211-248) on the
    destructured fields, before the text is laid out. The [console.log]
    lines are kept for the conversions they make, which may raise. *)
Definition mark_of_fields (x y width height confidence description : jsval)
  (index : nat) : result LeakMark :=
  sx <- interpolate h x ;;
  sy <- interpolate h y ;;
  sw <- interpolate h width ;;
  sh <- interpolate h height ;;
  interpolate h confidence ;;
  interpolate h (js_or description (Some (JStr (js "no description")))) ;;
  ly <- labelY y height ;;
  let text := labelText index in
  bx <- js_sub h x (Num.of_Z 5) ;;
  by_ <- js_sub h (Some ly) (Num.of_Z 18) ;;
  ty <- js_sub h (Some ly) (Num.of_Z 3) ;;
  Return
    {| mark_box :=
         {| rect_x := sx; rect_y := sy; rect_width := sw; rect_height := sh;
            rect_fill := js "rgba(255, 0, 0, 0.15)";
            rect_stroke := Some (js "red");
            rect_stroke_width := Some (js "5");
            rect_opacity := None |};
       mark_label_bg :=
         {| rect_x := NumberToString h bx;
            rect_y := NumberToString h by_;
            rect_width := dec_of_nat (label_bg_width text);
            rect_height := js "22";
            rect_fill := js "red";
            rect_stroke := None;
            rect_stroke_width := None;
            rect_opacity := Some (js "0.9") |};
       mark_label :=
         {| text_x := sx;
            text_y := NumberToString h ty;
            text_font_family := js "Arial, sans-serif";
            text_font_size := js "16";
            text_fill := js "white";
            text_font_weight := js "bold";
            text_content := text |} |}.

(** The callback itself: [const { x, y, width, height, confidence,
    description } = leak] raises on [null]. *)
Definition leak_mark (leak : json) (index : nat) : result LeakMark :=
  match leak with
  | JNull => Throw TypeError
  | _ =>
      mark_of_fields
        (get_named leak (js "x")) (get_named leak (js "y"))
        (get_named leak (js "width")) (get_named leak (js "height"))
        (get_named leak (js "confidence")) (get_named leak (js "description"))
        index
  end.

(** [leaks.map((leak, index) => ...)], from [index] on. *)
Fixpoint leak_marks_from (index : nat) (leaks : list json) : result (list LeakMark) :=
  match leaks with
  | [] => Return []
  | leak :: rest =>
      m <- leak_mark leak index ;;
      ms <- leak_marks_from (S index) rest ;;
      Return (m :: ms)
  end.

Definition leak_marks (leaks : list json) : result (list LeakMark) :=
  leak_marks_from 0 leaks.

End Renderer.

(** ** The overlay as text *)

Module Svg.
Definition indent (n : nat) : jsstring := List.repeat 32%N n.

(** One attribute line; every line but the last of an element ends in a
    blank. *)
Definition attribute (last : bool) (name value : jsstring) : jsstring :=
  indent 10 ++ name ++ js "=" ++ dquote ++ value ++ dquote
  ++ (if last then [] else js " ") ++ nl.

Fixpoint attributes (l : list (jsstring * jsstring)) : jsstring :=
  match l with
  | [] => []
  | [(n, v)] => attribute true n v
  | (n, v) :: rest => attribute false n v ++ attributes rest
  end.

Definition optional (name : jsstring) (v : option jsstring)
  : list (jsstring * jsstring) :=
  match v with
  | Some s => [(name, s)]
  | None => []
  end.

Definition rect (r : Rect) : jsstring :=
  indent 8 ++ js "<rect " ++ nl
  ++ attributes
       ([(js "x", rect_x r); (js "y", rect_y r);
         (js "width", rect_width r); (js "height", rect_height r);
         (js "fill", rect_fill r)]
        ++ optional (js "stroke") (rect_stroke r)
        ++ optional (js "stroke-width") (rect_stroke_width r)
        ++ optional (js "opacity") (rect_opacity r))
  ++ indent 8 ++ js "/>" ++ nl.

Definition text (t : Text) : jsstring :=
  indent 8 ++ js "<text " ++ nl
  ++ attributes
       [(js "x", text_x t); (js "y", text_y t);
        (js "font-family", text_font_family t);
        (js "font-size", text_font_size t);
        (js "fill", text_fill t);
        (js "font-weight", text_font_weight t)]
  ++ indent 8 ++ js ">" ++ text_content t ++ js "</text>" ++ nl.

(** The template of lines 219-248. *)
Definition mark (m : LeakMark) : jsstring :=
  nl
  ++ indent 8 ++ js "<!-- Red rectangle around leak -->" ++ nl
  ++ rect (mark_box m)
  ++ indent 8 ++ js "<!-- Label background -->" ++ nl
  ++ rect (mark_label_bg m)
  ++ indent 8 ++ js "<!-- Label text -->" ++ nl
  ++ text (mark_label m)
  ++ indent 6.

Definition dimension (d : option N) : jsstring :=
  match d with
  | Some n => dec_of_N n
  | None => js "undefined"
  end.

(** [svgElements] (the marks joined by the empty string) inside the
    template of lines 251-255. *)
Definition overlay (metadata : Metadata) (marks : list LeakMark) : jsstring :=
  nl
  ++ indent 6 ++ js "<svg width=" ++ dquote ++ dimension (md_width metadata) ++ dquote
  ++ js " height=" ++ dquote ++ dimension (md_height metadata) ++ dquote ++ js ">" ++ nl
  ++ indent 8 ++ List.concat (List.map mark marks) ++ nl
  ++ indent 6 ++ js "</svg>" ++ nl
  ++ indent 4.
End Svg.

(** [drawLeakAnnotations(imageBuffer, leaks)]: whatever goes wrong inside,
    the original buffer is returned. *)
Definition drawLeakAnnotations (h : Host) (imageBuffer : buffer) (leaks : list json)
  : M buffer :=
  (Run.emit (EvRender imageBuffer leaks) ;;
   Run.try_catch
     (metadata <- Run.await RenderError (sharp_metadata h imageBuffer) ;;
      marks <- Run.lift (leak_marks h leaks) ;;
      let svgOverlay := Svg.overlay metadata marks in
      Run.emit (EvComposite imageBuffer svgOverlay) ;;
      annotatedBuffer <-
        Run.await RenderError (sharp_composite_jpeg h imageBuffer svgOverlay) ;;
      Run.ret annotatedBuffer)
     (fun _ => Run.ret imageBuffer))%run.

(* ===================================================================== *)
(** * The pipeline (lines 11-193)                                         *)
(* ===================================================================== *)

(** [a.name] where [a] may be [null] or [undefined]. *)
Definition prop (a : jsval) (name : jsstring) : result jsval :=
  match a with
  | None | Some JNull => Throw TypeError
  | Some v => Return (get_named v name)
  end.

(** [a === "..."]. *)
Definition strict_eq_string (a : jsval) (s : jsstring) : bool :=
  match a with
  | Some (JStr t) => jsstring_eqb t s
  | _ => false
  end.

(** The callback of the filter (lines 158-160). *)
Definition is_high_confidence (leak : json) : result bool :=
  (c <- prop (Some leak) (js "confidence") ;;
   Return (strict_eq_string c (js "high") || strict_eq_string c (js "very high")))%res.

(** [items.filter(callback)] with a callback that may raise. *)
Fixpoint array_filter (callback : json -> result bool) (items : list json)
  : result (list json) :=
  match items with
  | [] => Return []
  | v :: rest =>
      (keep <- callback v ;;
       kept <- array_filter callback rest ;;
       Return (if keep then v :: kept else kept))%res
  end.

(** [leakData.leaks?.filter(...) || []]: no filter is called on [null] or
    [undefined]; only an array has one to call. *)
Definition highConfidenceLeaks (leakData : json) : result (list json) :=
  (leaks <- prop (Some leakData) (js "leaks") ;;
   match leaks with
   | None | Some JNull => Return []
   | Some (JArr items) => array_filter is_high_confidence items
   | Some _ => Throw TypeError
   end)%res.

(** Lines 143-146 on a truthy [responseText]: only a string has the
    [replace] that is called. *)
Definition cleaned (responseText : jsval) : result jsstring :=
  match responseText with
  | Some (JStr s) => Return (clean_response s)
  | _ => Throw TypeError
  end.

(** The conversions of the [forEach] of lines 180-183. *)
Fixpoint log_leaks (h : Host) (leaks : list json) : result unit :=
  match leaks with
  | [] => Return tt
  | leak :: rest =>
      (d <- prop (Some leak) (js "description") ;;
       interpolate h d ;;
       e <- prop (Some leak) (js "evidence") ;;
       interpolate h (js_or e (Some (JStr (js "N/A")))) ;;
       log_leaks h rest)%res
  end.

Definition key_absent (env : Env) : bool :=
  match GEMINI_API_KEY env with
  | None | Some [] => true
  | Some _ => false
  end.

(** [`${GEMINI_API_URL}?key=${GEMINI_API_KEY}`]. *)
Definition request_url (env : Env) : jsstring :=
  match GEMINI_API_URL env with Some u => u | None => js "undefined" end
  ++ js "?key="
  ++ match GEMINI_API_KEY env with Some k => k | None => js "undefined" end.

(** [candidates?.[0]?.content?.parts?.[0]?.text] of [response.data]. *)
Definition response_text (data : jsval) : jsval :=
  let candidates := opt_named data (js "candidates") in
  opt_named
    (opt_index0 (opt_named (opt_named (opt_index0 candidates) (js "content")) (js "parts")))
    (js "text").

(** The instruction text of lines 46-95, up to the pressure context. *)
Definition prompt_head : jsstring :=
  nl
  ++ js "You are an EXPERT water leak detection specialist with 20 years of experience. Your reputation depends on accuracy - false positives damage your credibility." ++ nl
  ++ nl.

(** The instruction text after the pressure context. *)
Definition prompt_tail : jsstring :=
  nl
  ++ nl
  ++ js "TASK: Analyze this image with EXTREME scrutiny. ONLY flag areas with UNMISTAKABLE evidence of active or recent water damage." ++ nl
  ++ nl
  ++ [9989%N] ++ js " ONLY DETECT IF YOU SEE:" ++ nl
  ++ js "1. **Active water**: Visible dripping, pooling, or wet surfaces with clear moisture" ++ nl
  ++ js "2. **Water stains**: Brown, yellow, or dark discoloration patches (NOT shadows or dirt)" ++ nl
  ++ js "3. **Structural damage**: Warped drywall, peeling paint, bubbling surfaces caused by water" ++ nl
  ++ js "4. **Mold/mildew**: Visible black, green, or white fuzzy growth in damp areas" ++ nl
  ++ js "5. **Ceiling damage**: Sagging, rings, or clear water damage patterns" ++ nl
  ++ nl
  ++ [10060%N] ++ js " DO NOT FLAG:" ++ nl
  ++ js "- Normal shadows, lighting variations, or camera artifacts" ++ nl
  ++ js "- Clean, dry surfaces even if oddly colored" ++ nl
  ++ js "- Normal wear and tear, cracks, or aging (unless clearly water-related)" ++ nl
  ++ js "- Dust, dirt, or stains that are clearly NOT water damage" ++ nl
  ++ js "- Reflections, glare, or image compression artifacts" ++ nl
  ++ js "- Construction materials or intentional design elements" ++ nl
  ++ nl
  ++ [55356%N; 57263%N] ++ js " ACCURACY RULES:" ++ nl
  ++ js "- Set confidence to " ++ dquote ++ js "high" ++ dquote ++ js " ONLY if you are 90%+ certain it's a real leak" ++ nl
  ++ js "- Set confidence to " ++ dquote ++ js "medium" ++ dquote ++ js " if 70-89% certain (will be filtered out)" ++ nl
  ++ js "- If you're less than 70% certain, DO NOT include it" ++ nl
  ++ js "- Describe EXACTLY what you see that indicates water damage" ++ nl
  ++ js "- Be conservative - when in doubt, leave it out" ++ nl
  ++ nl
  ++ js "RESPONSE FORMAT:" ++ nl
  ++ js "Return ONLY valid JSON (no markdown, no code blocks, no explanations):" ++ nl
  ++ js "{" ++ nl
  ++ js "  " ++ dquote ++ js "leaks" ++ dquote ++ js ": [" ++ nl
  ++ js "    {" ++ nl
  ++ js "      " ++ dquote ++ js "x" ++ dquote ++ js ": 150," ++ nl
  ++ js "      " ++ dquote ++ js "y" ++ dquote ++ js ": 200," ++ nl
  ++ js "      " ++ dquote ++ js "width" ++ dquote ++ js ": 80," ++ nl
  ++ js "      " ++ dquote ++ js "height" ++ dquote ++ js ": 60," ++ nl
  ++ js "      " ++ dquote ++ js "confidence" ++ dquote ++ js ": " ++ dquote ++ js "high" ++ dquote ++ js "," ++ nl
  ++ js "      " ++ dquote ++ js "description" ++ dquote ++ js ": " ++ dquote ++ js "brown water stain with visible drip marks on white ceiling" ++ dquote ++ js "," ++ nl
  ++ js "      " ++ dquote ++ js "evidence" ++ dquote ++ js ": " ++ dquote ++ js "discoloration, staining pattern, structural damage" ++ dquote ++ nl
  ++ js "    }" ++ nl
  ++ js "  ]" ++ nl
  ++ js "}" ++ nl
  ++ nl
  ++ js "If NO clear leaks are visible, return: {" ++ dquote ++ js "leaks" ++ dquote ++ js ": []}" ++ nl
  ++ nl
  ++ js "Coordinates must be in pixels from top-left corner (0,0)." ++ nl
  ++ js "Be an expert. Your accuracy matters." ++ nl.

(** The template of lines 46-95. *)
Definition prompt (pressureContext : jsstring) : jsstring :=
  prompt_head ++ pressureContext ++ prompt_tail.

(** The request of lines 97-130. *)
Definition build_request (h : Host) (env : Env) (base64Image : jsstring)
  (end1Pressure end2Pressure : option number) : Request :=
  {| req_url := request_url env;
     req_text := prompt (pressureContext h end1Pressure end2Pressure);
     req_mime_type := js "image/jpeg";
     req_data := base64Image |}.

(** The body of the [try] (lines 25-187). *)
Definition analyze_try (h : Host) (env : Env) (imageBuffer : buffer)
  (end1Pressure end2Pressure : option number) : M jsstring :=
  (let base64Image := Base64.encode imageBuffer in
   let request := build_request h env base64Image end1Pressure end2Pressure in
   Run.emit (EvPost request) ;;
   data <- Run.await ServiceError (axios_post h request) ;;
   let responseText := response_text data in
   if negb (truthy responseText) then Run.ret base64Image
   else
     text <- Run.lift (cleaned responseText) ;;
     match JSON_parse h text with
     | None => Run.ret base64Image
     | Some leakData =>
         high <- Run.lift (highConfidenceLeaks leakData) ;;
         match high with
         | [] => Run.ret base64Image
         | _ :: _ =>
             Run.lift (log_leaks h high) ;;
             annotatedImage <- drawLeakAnnotations h imageBuffer high ;;
             Run.ret (Base64.encode annotatedImage)
         end
     end)%run.

(** [analyzeWithGemini(imageBuffer, end1Pressure, end2Pressure)]; a buffer
    that is [null] or [undefined] is [None]. *)
Definition analyzeWithGemini (h : Host) (env : Env) (imageBuffer : option buffer)
  (end1Pressure end2Pressure : option number) : M jsstring :=
  match imageBuffer with
  | None | Some [] => Run.throw InputError
  | Some buf =>
      if key_absent env then Run.ret (Base64.encode buf)
      else
        Run.try_catch
          (analyze_try h env buf end1Pressure end2Pressure)
          (fun _ => Run.ret (Base64.encode buf))
  end.

(* ===================================================================== *)
(** * A host to run the pipeline on                                       *)
(* ===================================================================== *)

(** A scripted host: [JSON.parse] knows the texts of a table, the service
    gives one fixed answer, sharp either works or rejects. Its conversions
    between numbers and text are those of integers, which is all the runs
    below print. *)
Module Scenario.

Definition quoted (s : string) : jsstring := dquote ++ js s ++ dquote.

Definition num (z : Z) : json := JNum (Num.of_Z z).
Definition str (s : string) : json := JStr (js s).

(** The integer part of a number. *)
Definition to_Z (x : number) : Z :=
  match x with
  | S754_finite s m e =>
      let a := Z.shiftl (Zpos m) e in if s then (- a)%Z else a
  | _ => 0%Z
  end.

Definition integer_text (x : number) : jsstring :=
  match x with
  | S754_nan => js "NaN"
  | S754_infinity s => js (if s then "-Infinity" else "Infinity")
  | _ =>
      let z := to_Z x in
      (if (z <? 0)%Z then js "-" else []) ++ dec_of_N (Z.abs_N z)
  end.

(** Hundredths, rounded half up. *)
Definition hundredths (x : number) : N :=
  match x with
  | S754_finite _ m e => Z.to_N (Z.shiftl (Z.shiftl (Zpos m * 200) e + 1) (-1))
  | _ => 0%N
  end.

Definition two_digits (n : N) : jsstring :=
  (if (n <? 10)%N then js "0" else []) ++ dec_of_N n.

Definition fixed2_text (x : number) : jsstring :=
  match x with
  | S754_nan => js "NaN"
  | S754_infinity s => js (if s then "-Infinity" else "Infinity")
  | _ =>
      let c := hundredths x in
      (match x with S754_finite true _ _ => js "-" | _ => [] end)
      ++ dec_of_N (c / 100) ++ js "." ++ two_digits (c mod 100)
  end.

Fixpoint digits_value (acc : Z) (s : jsstring) : option Z :=
  match s with
  | [] => Some acc
  | c :: s' =>
      if ((48 <=? c) && (c <=? 57))%N
      then digits_value (acc * 10 + Z.of_N (c - 48)) s'
      else None
  end.

Definition digits_number (s : jsstring) : number :=
  match digits_value 0 s with
  | Some z => Num.of_Z z
  | None => Num.nan
  end.

(** The bytes sharp answers with when it works. *)
Definition annotated_jpeg : buffer := [Byte.xff; Byte.xd8; Byte.xff; Byte.xe0].

Definition host (table : list (jsstring * json)) (reply : option jsval)
  (sharp_works : bool) : Host :=
  {| JSON_parse := fun text => assoc text table;
     axios_post := fun _ => reply;
     sharp_metadata := fun _ =>
       if sharp_works
       then Some {| md_width := Some 640%N; md_height := Some 480%N |}
       else None;
     sharp_composite_jpeg := fun _ _ =>
       if sharp_works then Some annotated_jpeg else None;
     NumberToString := integer_text;
     Number_toFixed2 := fixed2_text;
     StringToNumber := digits_number |}.

(** [{candidates: [{content: {parts: [{text}]}}]}]. *)
Definition reply_with (text : json) : jsval :=
  Some (JObj [(js "candidates",
    JArr [JObj [(js "content",
      JObj [(js "parts", JArr [JObj [(js "text", text)]])])]])]).

Definition env : Env :=
  {| GEMINI_API_KEY := Some (js "k3y");
     GEMINI_API_URL := Some (js "https://service.example/v1/generate") |}.

Definition no_key : Env :=
  {| GEMINI_API_KEY := None;
     GEMINI_API_URL := Some (js "https://service.example/v1/generate") |}.

(** A picture of three bytes. *)
Definition picture : buffer := [Byte.x89; Byte.x50; Byte.x4e].

(** The detections of the scenarios. *)
Definition stain : json :=
  JObj [(js "x", num 10); (js "y", num 10); (js "width", num 50);
        (js "height", num 40); (js "confidence", str "high");
        (js "description", str "stain")].

Definition faint : json :=
  JObj [(js "x", num 10); (js "y", num 10); (js "width", num 50);
        (js "height", num 40); (js "confidence", str "medium")].

Definition drip : json :=
  JObj [(js "x", num 150); (js "y", num 200); (js "width", num 80);
        (js "height", num 60); (js "confidence", str "very high");
        (js "description", str "drip marks"); (js "evidence", str "staining")].

(** What the service sends back in the scenarios. *)
Definition stain_reply : json := JObj [(js "leaks", JArr [stain])].
Definition faint_reply : json := JObj [(js "leaks", JArr [faint])].
Definition mixed_reply : json := JObj [(js "leaks", JArr [faint; stain; faint; drip])].
Definition leaks_5 : json := JObj [(js "leaks", num 5)].
Definition leaks_null : json := JObj [(js "leaks", JNull)].

(** The JSON text of such a value: integers, and strings that need no
    escape. *)
Fixpoint text_of (v : json) : jsstring :=
  match v with
  | JNull => js "null"
  | JBool true => js "true"
  | JBool false => js "false"
  | JNum n => integer_text n
  | JStr s => dquote ++ s ++ dquote
  | JArr items => js "[" ++ JsString.join (js ",") (List.map text_of items) ++ js "]"
  | JObj props =>
      js "{"
      ++ JsString.join (js ",")
           (List.map (fun kv => let '(k, w) := kv in
                                dquote ++ k ++ dquote ++ js ":" ++ text_of w)
              props)
      ++ js "}"
  end.

(** The texts [JSON.parse] knows, each with the value it is the text of. *)
Definition table : list (jsstring * json) :=
  List.map (fun v => (text_of v, v))
    [stain_reply; faint_reply; mixed_reply; leaks_5; leaks_null;
     JNull; num 5; JObj []].

(** A text cut short, which is no JSON. *)
Definition truncated : jsstring := js "{" ++ quoted "leaks" ++ js ": [".

(** A text as the service wraps it. *)
Definition fenced (text : jsstring) : jsstring :=
  js "```json" ++ nl ++ text ++ nl ++ js "```".

(** The readings of the scenarios: 20.0, 16.5, 12.0 and the binary64 value
    nearest to 12.8. *)
Definition psi_20 : number := Num.of_Z 20.
Definition psi_16_5 : number := Num.of_dyadic 33 (-1).
Definition psi_12 : number := Num.of_Z 12.
Definition psi_12_8 : number := Num.div (Num.of_Z 128) (Num.of_Z 10).

(** A host whose service answers [text] inside a code fence. *)
Definition answering (text : jsstring) (sharp_works : bool) : Host :=
  host table (Some (reply_with (JStr (fenced text)))) sharp_works.

(** A host whose service answers the text of [v]. *)
Definition serving (v : json) (sharp_works : bool) : Host :=
  answering (text_of v) sharp_works.

End Scenario.

(* ===================================================================== *)
(** * Vocabulary of the statements                                        *)
(* ===================================================================== *)

(** The entry's confidence is the top tier or its higher synonym. *)
Definition top_confidence (leak : json) : Prop :=
  get_named leak (js "confidence") = Some (JStr (js "high"))
  \/ get_named leak (js "confidence") = Some (JStr (js "very high")).

(** The test of the filter's callback on an entry that is not [null]. *)
Definition keeps (leak : json) : bool :=
  strict_eq_string (get_named leak (js "confidence")) (js "high")
  || strict_eq_string (get_named leak (js "confidence")) (js "very high").

(** A detection as the data model has it: numbers for the box, text (or
    nothing) for the words. *)
Definition is_number (a : jsval) : bool :=
  match a with Some (JNum _) => true | _ => false end.

Definition is_text_or_missing (a : jsval) : bool :=
  match a with None | Some (JStr _) => true | _ => false end.

Definition plain_detection (leak : json) : bool :=
  is_number (get_named leak (js "x"))
  && is_number (get_named leak (js "y"))
  && is_number (get_named leak (js "width"))
  && is_number (get_named leak (js "height"))
  && is_text_or_missing (get_named leak (js "confidence"))
  && is_text_or_missing (get_named leak (js "description")).

Definition number_of (a : jsval) : number :=
  match a with Some (JNum n) => n | _ => Num.nan end.

(** Where the label goes, and the anchor that goes with it. *)
Inductive placement : Type := Above | Below.

Definition label_threshold : number := Num.of_Z 30.

Definition label_placement (y : number) : placement :=
  if Num.gtb y label_threshold then Above else Below.

Definition anchor (y height : number) : number :=
  match label_placement y with
  | Above => Num.sub y (Num.of_Z 10)
  | Below => Num.add (Num.add y height) (Num.of_Z 20)
  end.

(** The mark whose box prints as [sx], [sy], [sw], [sh], whose label
    background is at [bx], [by_] and whose label text is at [sx], [ty]. *)
Definition assembled (sx sy sw sh bx by_ ty : jsstring) (index : nat) : LeakMark :=
  {| mark_box :=
       {| rect_x := sx; rect_y := sy; rect_width := sw; rect_height := sh;
          rect_fill := js "rgba(255, 0, 0, 0.15)";
          rect_stroke := Some (js "red");
          rect_stroke_width := Some (js "5");
          rect_opacity := None |};
     mark_label_bg :=
       {| rect_x := bx;
          rect_y := by_;
          rect_width := dec_of_nat (label_bg_width (labelText index));
          rect_height := js "22";
          rect_fill := js "red";
          rect_stroke := None;
          rect_stroke_width := None;
          rect_opacity := Some (js "0.9") |};
     mark_label :=
       {| text_x := sx;
          text_y := ty;
          text_font_family := js "Arial, sans-serif";
          text_font_size := js "16";
          text_fill := js "white";
          text_font_weight := js "bold";
          text_content := labelText index |} |}.

(** The mark of a detection whose box is made of numbers. *)
Definition plain_mark (h : Host) (x y width height : number) (index : nat) : LeakMark :=
  assembled
    (NumberToString h x) (NumberToString h y)
    (NumberToString h width) (NumberToString h height)
    (NumberToString h (Num.sub x (Num.of_Z 5)))
    (NumberToString h (Num.sub (anchor y height) (Num.of_Z 18)))
    (NumberToString h (Num.sub (anchor y height) (Num.of_Z 3)))
    index.

(** A detection whose [y] came as text. *)
Definition text_ordinate : json :=
  JObj [(js "x", Scenario.num 10); (js "y", Scenario.str "5");
        (js "width", Scenario.num 50); (js "height", Scenario.num 40);
        (js "confidence", Scenario.str "high")].

(** The label text starts at [x] and its background at [x - 5]. *)
Definition label_margin : nat := 5.

(** A text set at [advance] units per character, beginning [margin] units
    right of the left edge of its background, ends inside a background
    that is [width] units wide: none of it is cut off. *)
Definition not_truncated (advance margin : nat) (text : jsstring) (width : nat)
  : Prop :=
  margin + advance * List.length text <= width.

(** ** Reading an overlay *)








(** No [>], and no [<]. *)
Definition no_close (s : jsstring) : bool :=
  List.forallb (fun c => negb (N.eqb c 62)) s.








(** An SVG element is opaque when it sets no [opacity] or sets it to 1. *)
Definition opaque (r : Rect) : Prop :=
  rect_opacity r = None
  \/ rect_opacity r = Some (js "1")
  \/ rect_opacity r = Some (js "1.0").

(** The run made no request to the service. *)
Definition no_network_call {A} (m : M A) : Prop :=
  List.existsb is_post (trace m) = false.

(** The run neither entered the renderer nor composited anything. *)
Definition renderer_not_invoked {A} (m : M A) : Prop :=
  List.existsb is_render (trace m) = false.

(** What [drawLeakAnnotations] returns, by what the host does. *)
Definition drawn (h : Host) (imageBuffer : buffer) (leaks : list json) : buffer :=
  match sharp_metadata h imageBuffer with
  | None => imageBuffer
  | Some metadata =>
      match leak_marks h leaks with
      | Throw _ => imageBuffer
      | Return marks =>
          match sharp_composite_jpeg h imageBuffer (Svg.overlay metadata marks) with
          | Some annotated => annotated
          | None => imageBuffer
          end
      end
  end.

(* ===================================================================== *)
(** * Further vocabulary                                                  *)
(* ===================================================================== *)

From Stdlib Require DecimalPos DecimalN.

(** The two wrappers the cleaning removes. *)
Definition fence : jsstring := js "```".
Definition json_fence : jsstring := js "```json".

(** [p] occurs in [t]. *)
Definition occurs (p t : jsstring) : Prop := exists a b, t = a ++ p ++ b.

(** No white space at either end. *)
Definition trimmed (t : jsstring) : Prop :=
  JsString.trim_start t = t /\ JsString.trim_start (List.rev t) = List.rev t.

(** No backtick anywhere. *)
Definition no_backtick (t : jsstring) : Prop := Forall (fun c => c <> 96%N) t.

(** What follows a match once its optional line feed is taken. *)
Definition after_match (r : jsstring) : jsstring :=
  match r with
  | c :: r' => if N.eqb c 10 then r' else r
  | [] => r
  end.


(** No suffix begins with the wrapper. *)
Fixpoint fence_free (t : jsstring) : bool :=
  match t with
  | [] => true
  | _ :: t' =>
      match JsString.starts_with fence t with
      | Some _ => false
      | None => fence_free t'
      end
  end.


(** A reply in which a [null] stands beside a detection of the top tier. *)
Definition stain_and_null : json := JObj [(js "leaks", JArr [Scenario.stain; JNull])].

(** The scripted host of the scenarios, with one more text in its table. *)
Definition host_knowing (v : json) (sharp_works : bool) : Host :=
  Scenario.host ((Scenario.text_of v, v) :: Scenario.table)
    (Some (Scenario.reply_with (JStr (Scenario.fenced (Scenario.text_of v)))))
    sharp_works.

(** A key and no address. *)
Definition no_address : Env :=
  {| GEMINI_API_KEY := Some (js "k3y"); GEMINI_API_URL := None |}.

(** A reply whose one detection is of the top tier and has no box. *)
Definition boxless : json := JObj [(js "confidence", JStr (js "high"))].
Definition boxless_reply : json := JObj [(js "leaks", JArr [boxless])].

(* ===================================================================== *)
(** * Readings of any type                                                *)
(* ===================================================================== *)

(** [index.js] hands the pipeline what the request body holds for the two
    readings: text when they are fields of a form, any parsed value when
    the body is JSON. The pipeline converts them where it uses them. *)

(** [a - b]: both sides are converted, the left one first. *)
Definition js_minus (h : Host) (a b : jsval) : result number :=
  (x <- to_number h a ;;
   y <- to_number h b ;;
   Return (Num.sub x y))%res.

(** The default [= null] of a parameter applies to [undefined] only. *)
Definition or_null (a : jsval) : json :=
  match a with
  | Some v => v
  | None => JNull
  end.

Definition is_null (v : json) : bool :=
  match v with
  | JNull => true
  | _ => false
  end.

(** The template of lines 31-42 around its four interpolations. *)
Definition pressure_text (end1 end2 difference advice : jsstring) : jsstring :=
  nl ++ js "SYSTEM PRESSURE DATA:" ++ nl
  ++ js "- End 1 Pressure: " ++ end1 ++ js " PSI" ++ nl
  ++ js "- End 2 Pressure: " ++ end2 ++ js " PSI" ++ nl
  ++ js "- Pressure Difference: "
  ++ difference ++ js " PSI" ++ nl
  ++ nl
  ++ advice ++ nl.

(** The body of the [try] from the request on (lines 97-187), for a
    pressure context already built. *)
Definition analyze_from_context (h : Host) (env : Env) (imageBuffer : buffer)
  (pressureContext : jsstring) : M jsstring :=
  (let base64Image := Base64.encode imageBuffer in
   let request :=
     {| req_url := request_url env;
        req_text := prompt pressureContext;
        req_mime_type := js "image/jpeg";
        req_data := base64Image |} in
   Run.emit (EvPost request) ;;
   data <- Run.await ServiceError (axios_post h request) ;;
   let responseText := response_text data in
   if negb (truthy responseText) then Run.ret base64Image
   else
     text <- Run.lift (cleaned responseText) ;;
     match JSON_parse h text with
     | None => Run.ret base64Image
     | Some leakData =>
         high <- Run.lift (highConfidenceLeaks leakData) ;;
         match high with
         | [] => Run.ret base64Image
         | _ :: _ =>
             Run.lift (log_leaks h high) ;;
             annotatedImage <- drawLeakAnnotations h imageBuffer high ;;
             Run.ret (Base64.encode annotatedImage)
         end
     end)%run.

Module Untyped.

(** Lines 28-43 on readings of any type. The difference is computed first
    (line 30), then the two readings are printed (lines 33-34). The
    template of line 120 prints them once more, which adds nothing. *)
Definition pressureContext (h : Host) (end1Pressure end2Pressure : json)
  : result jsstring :=
  if is_null end1Pressure || is_null end2Pressure then Return []
  else
    (difference <- js_minus h (Some end1Pressure) (Some end2Pressure) ;;
     let pressureDiff := Num.abs difference in
     end1 <- to_string h end1Pressure ;;
     end2 <- to_string h end2Pressure ;;
     Return (pressure_text end1 end2 (Number_toFixed2 h pressureDiff)
               (tier_text (pressure_tier pressureDiff))))%res.

(** [analyzeWithGemini(imageBuffer, end1Pressure, end2Pressure)] on readings
    of any type, [None] being [undefined]. *)
Definition analyzeWithGemini (h : Host) (env : Env) (imageBuffer : option buffer)
  (end1Pressure end2Pressure : jsval) : M jsstring :=
  match imageBuffer with
  | None | Some [] => Run.throw InputError
  | Some buf =>
      if key_absent env then Run.ret (Base64.encode buf)
      else
        Run.try_catch
          (context <- Run.lift
             (pressureContext h (or_null end1Pressure) (or_null end2Pressure)) ;;
           analyze_from_context h env buf context)%run
          (fun _ => Run.ret (Base64.encode buf))
  end.

End Untyped.

(** A reading of the typed interface as a value: [null] where it is
    absent. *)
Definition reading (r : option number) : jsval :=
  match r with
  | Some n => Some (JNum n)
  | None => Some JNull
  end.

(* ===================================================================== *)
(** * The server of [backend/index.js]                                    *)
(* ===================================================================== *)

(** What a handler reads of a request: [req.body] and, when a file came
    with it, [req.file.buffer] (multer keeps uploads in memory). *)
Record Req : Type := {
  body : jsval;
  file : option buffer
}.

(** [res.status(code).send(value)]. *)
Record Response : Type := {
  status : N;
  sent : json
}.

(** The argument of [transporter.sendMail] (lines 74-94). *)
Record Mail : Type := {
  mail_from : option jsstring;
  mail_to : jsval;
  mail_subject : jsstring;
  mail_html : jsstring;
  attachment_filename : jsstring;
  attachment_content : buffer;
  attachment_contentType : jsstring
}.

(** What may end a handler early: an exception of the language or of the
    pipeline, [fs.readFileSync] throwing, the promise of [sendMail]
    rejecting. *)
Inductive error : Type :=
| Raised (e : exn)
| ReadFailed
| MailFailed.

(** The functions of Node, nodemailer and ws that the handlers call. *)
Record Server : Type := {
  (** [fs.readFileSync(path)]; [None] when it throws. *)
  fs_readFileSync : jsstring -> option buffer;
  (** [new Date().toISOString()] at the time of the call. *)
  toISOString_now : jsstring;
  (** [JSON.stringify(data)]. *)
  JSON_stringify : json -> jsstring;
  (** [transporter.sendMail(mail)]: whether the promise resolves. *)
  transporter_sendMail : Mail -> bool;
  (** [process.env.EMAIL_USER]. *)
  EMAIL_USER : option jsstring;
  (** [client.readyState] of a socket. *)
  readyState : N -> N;
  (** [err.message] of an error the host made. *)
  host_message : error -> jsstring
}.

(** [WebSocket.OPEN]. *)
Definition OPEN : N := 1.

(** What a handler does to the world, in order. *)
Inductive action : Type :=
| Read (path : jsstring)                   (* [fs.readFileSync] is called *)
| Pipeline (ev : event)                    (* a host call of the pipeline *)
| Send (client : N) (message : jsstring)   (* [client.send(message)] *)
| SendMail (mail : Mail).                  (* [transporter.sendMail] is called *)

(** A handler body: what it did, and how it ended. *)
Definition Served (A : Type) : Type := (list action * (A + error))%type.

Module Srv.
Definition ret {A} (a : A) : Served A := ([], inl a).
Definition throw {A} (e : error) : Served A := ([], inr e).
Definition emit (a : action) : Served unit := ([a], inl tt).

Definition lift {A} (r : result A) : Served A :=
  match r with
  | Return a => ret a
  | Throw e => throw (Raised e)
  end.

(** A call of the pipeline: its host calls, and its result or exception. *)
Definition run {A} (m : M A) : Served A :=
  (List.map Pipeline (trace m),
   match outcome m with
   | Return a => inl a
   | Throw e => inr (Raised e)
   end).

Definition bind {A B} (m : Served A) (f : A -> Served B) : Served B :=
  match m with
  | (t, inl a) => let (t', r) := f a in (t ++ t', r)
  | (t, inr e) => (t, inr e)
  end.

Definition try_catch {A} (m : Served A) (handler : error -> Served A) : Served A :=
  match m with
  | (t, inr e) => let (t', r) := handler e in (t ++ t', r)
  | (t, inl a) => (t, inl a)
  end.
End Srv.

Definition done {A} (m : Served A) : list action := fst m.
Definition answer {A} (m : Served A) : A + error := snd m.

Declare Scope srv_scope.
Delimit Scope srv_scope with srv.
Notation "x <- m ;; k" := (Srv.bind m (fun x => k))
  (at level 61, m at next level, right associativity) : srv_scope.
Notation "m ;; k" := (Srv.bind m (fun _ => k))
  (at level 61, right associativity) : srv_scope.

(** [err.message]: the text of line 13 for the one error the pipeline
    lets out, the host's text otherwise. *)
Definition message_of (srv : Server) (err : error) : jsstring :=
  match err with
  | Raised InputError => js "No image buffer provided!"
  | _ => host_message srv err
  end.

(** ** The registry of sockets (lines 33-40) *)

(** [clients] is a [Set]: it keeps the order of insertion and holds a
    socket once. *)
Definition clients_add (ws : N) (clients : list N) : list N :=
  if List.existsb (N.eqb ws) clients then clients else clients ++ [ws].

Definition clients_delete (ws : N) (clients : list N) : list N :=
  List.filter (fun c => negb (N.eqb c ws)) clients.

Inductive socket_event : Type :=
| Connection (ws : N)   (* [wss.on("connection")] *)
| Close (ws : N)        (* [ws.on("close")] *)
| SocketError (ws : N). (* [ws.on("error")]: logged only *)

Definition on_socket_event (clients : list N) (e : socket_event) : list N :=
  match e with
  | Connection ws => clients_add ws clients
  | Close ws => clients_delete ws clients
  | SocketError _ => clients
  end.

Definition clients_after (events : list socket_event) : list N :=
  List.fold_left on_socket_event events [].

(** ** [broadcast] (lines 42-47) *)

Fixpoint send_each (srv : Server) (message : jsstring) (clients : list N)
  : list action :=
  match clients with
  | [] => []
  | client :: rest =>
      (if N.eqb (readyState srv client) OPEN then [Send client message] else [])
      ++ send_each srv message rest
  end.

Definition broadcast (srv : Server) (clients : list N) (data : json) : Served unit :=
  let message := JSON_stringify srv data in
  (send_each srv message clients, inl tt).

(** A property of an object literal; [JSON.stringify] leaves out the ones
    that are [undefined]. *)
Definition field (name : string) (a : jsval) : list (jsstring * json) :=
  match a with
  | Some v => [(js name, v)]
  | None => []
  end.

(** ** [POST /api/analyze-leak] (lines 50-101) *)

Definition test_image : jsstring := js "./test_images/test2.png".

(** The template of lines 78-86. *)
Definition mail_body (end1 end2 : jsstring) : jsstring :=
  nl
  ++ js "        <h2>Leak Analysis Complete </h2>" ++ nl
  ++ js "        <p>Pressure readings:</p>" ++ nl
  ++ js "        <ul>" ++ nl
  ++ js "          <li>End1: " ++ end1 ++ js "</li>" ++ nl
  ++ js "          <li>End2: " ++ end2 ++ js "</li>" ++ nl
  ++ js "        </ul>" ++ nl
  ++ js "        <p>Annotated image attached below.</p>" ++ nl
  ++ js "      ".

Definition respond (code : N) (value : json) : Response :=
  {| status := code; sent := value |}.

Definition message_only (text : string) : json :=
  JObj [(js "message", JStr (js text))].

(** The object of lines 65-71. *)
Definition gemini_update (srv : Server) (editedBase64 : jsstring)
  (end1Pressure end2Pressure : jsval) : json :=
  JObj ([(js "type", JStr (js "gemini"));
         (js "editedImage", JStr editedBase64)]
        ++ field "end1Pressure" end1Pressure
        ++ field "end2Pressure" end2Pressure
        ++ [(js "dateTime", JStr (toISOString_now srv))]).

(** The object of lines 74-94, the two readings already printed. *)
Definition analysis_mail (srv : Server) (editedBase64 end1 end2 : jsstring)
  (userEmail : jsval) : Mail :=
  {| mail_from := EMAIL_USER srv;
     mail_to := userEmail;
     mail_subject := js "FlowGuardian Leak Analysis";
     mail_html := mail_body end1 end2;
     attachment_filename := js "leak_analysis.png";
     attachment_content := Base64.decode editedBase64;
     attachment_contentType := js "image/png" |}.

(** Lines 61-96: the analysis, the broadcast and the mail of a request
    that passed the check of line 57. *)
Definition analyze_leak_deliver (srv : Server) (h : Host) (env : Env)
  (clients : list N) (imageBuffer : buffer)
  (end1Pressure end2Pressure userEmail : jsval) : Served Response :=
  (editedBase64 <-
     Srv.run (Untyped.analyzeWithGemini h env (Some imageBuffer)
                end1Pressure end2Pressure) ;;
   broadcast srv clients
     (gemini_update srv editedBase64 end1Pressure end2Pressure) ;;
   end1 <- Srv.lift (interpolate h end1Pressure) ;;
   end2 <- Srv.lift (interpolate h end2Pressure) ;;
   let mail := analysis_mail srv editedBase64 end1 end2 userEmail in
   Srv.emit (SendMail mail) ;;
   if transporter_sendMail srv mail
   then Srv.ret (respond 200 (message_only "Analysis complete, email sent!"))
   else Srv.throw MailFailed)%srv.

(** [req.file?.buffer || fs.readFileSync("./test_images/test2.png")]: a
    buffer is truthy also when it is empty. *)
Definition analyze_leak_image (srv : Server) (req : Req) : Served buffer :=
  match file req with
  | Some buffer => Srv.ret buffer
  | None =>
      (Srv.emit (Read test_image) ;;
       match fs_readFileSync srv test_image with
       | Some buffer => Srv.ret buffer
       | None => Srv.throw ReadFailed
       end)%srv
  end.

(** The body of the [try] (lines 52-96). *)
Definition analyze_leak_try (srv : Server) (h : Host) (env : Env)
  (clients : list N) (req : Req) : Served Response :=
  (end1Pressure <- Srv.lift (prop (body req) (js "end1Pressure")) ;;
   end2Pressure <- Srv.lift (prop (body req) (js "end2Pressure")) ;;
   userEmail <- Srv.lift (prop (body req) (js "userEmail")) ;;
   imageBuffer <- analyze_leak_image srv req ;;
   if negb (truthy end1Pressure) || negb (truthy end2Pressure)
      || negb (truthy userEmail)
   then
     Srv.ret (respond 400
                (message_only "Provide end1Pressure, end2Pressure, and userEmail"))
   else
     analyze_leak_deliver srv h env clients imageBuffer
       end1Pressure end2Pressure userEmail)%srv.

Definition analyze_leak (srv : Server) (h : Host) (env : Env)
  (clients : list N) (req : Req) : Served Response :=
  Srv.try_catch
    (analyze_leak_try srv h env clients req)
    (fun err =>
       Srv.ret (respond 500
                  (JObj [(js "message", JStr (js "Leak analysis failed"));
                         (js "error", JStr (message_of srv err))]))).

(** ** [POST /api/pressure] (lines 104-113) *)

(** [a == null]. *)
Definition is_nullish (a : jsval) : bool :=
  match a with
  | None | Some JNull => true
  | _ => false
  end.

(** The object of line 110. *)
Definition pressure_update (srv : Server) (end1Pressure end2Pressure : jsval)
  : json :=
  JObj ([(js "type", JStr (js "pressure"))]
        ++ field "end1Pressure" end1Pressure
        ++ field "end2Pressure" end2Pressure
        ++ [(js "dateTime", JStr (toISOString_now srv))]).

(** The handler has no [try]: what it raises goes to the framework. *)
Definition pressure (srv : Server) (h : Host) (clients : list N) (req : Req)
  : Served Response :=
  (end1Pressure <- Srv.lift (prop (body req) (js "end1Pressure")) ;;
   end2Pressure <- Srv.lift (prop (body req) (js "end2Pressure")) ;;
   if is_nullish end1Pressure || is_nullish end2Pressure
   then Srv.ret (respond 400 (message_only "Provide end1Pressure and end2Pressure"))
   else
     difference <- Srv.lift (js_minus h end1Pressure end2Pressure) ;;
     let pressureDiff := Num.abs difference in
     broadcast srv clients (pressure_update srv end1Pressure end2Pressure) ;;
     Srv.ret (respond 200
                (JObj [(js "message", JStr (js "Pressure received"));
                       (js "pressureDiff", JNum pressureDiff)])))%srv.

(** ** A server to run the handlers on *)

Module Office.

(** Three sockets, the second of which is closing. *)
Definition sockets : list N := [7; 8; 9]%N.

Definition server (disk mail_works : bool) : Server :=
  {| fs_readFileSync := fun path =>
       if disk && jsstring_eqb path test_image then Some Scenario.picture else None;
     toISOString_now := js "2025-03-01T10:00:00.000Z";
     JSON_stringify := Scenario.text_of;
     transporter_sendMail := fun _ => mail_works;
     EMAIL_USER := Some (js "alerts@example.org");
     readyState := fun ws => if N.eqb ws 8 then 2%N else OPEN;
     host_message := fun err =>
       match err with
       | ReadFailed => js "ENOENT: no such file or directory"
       | MailFailed => js "Invalid login"
       | Raised _ => js "Cannot destructure"
       end |}.

(** A form with its fields, as multer leaves them: text. *)
Definition form (fields : list (string * string)) (upload : option buffer) : Req :=
  {| body := Some (JObj (List.map (fun kv => (js (fst kv), JStr (js (snd kv)))) fields));
     file := upload |}.

(** A JSON body. *)
Definition posted (v : json) : Req := {| body := Some v; file := None |}.

(** The form of the test script, with or without an upload. *)
Definition filled (upload : option buffer) : Req :=
  form [("end1Pressure", "20"); ("end2Pressure", "16");
        ("userEmail", "owner@example.org")]%string upload.

(** A JSON body whose first reading is the number zero. *)
Definition zero_reading : Req :=
  posted (JObj [(js "end1Pressure", Scenario.num 0);
                (js "end2Pressure", Scenario.num 12);
                (js "userEmail", Scenario.str "owner@example.org")]).

(** Nothing parsed the body. *)
Definition no_body : Req := {| body := None; file := None |}.

End Office.

(* ===================================================================== *)
(** * Vocabulary of the statements about the server                       *)
(* ===================================================================== *)

(** What the body holds under a name. *)
Definition asked (req : Req) (name : string) : jsval :=
  opt_named (body req) (js name).

(** The check of line 57 passes. *)
Definition complete (req : Req) : bool :=
  truthy (asked req "end1Pressure") && truthy (asked req "end2Pressure")
  && truthy (asked req "userEmail").

(** The picture a request is served with, when there is one. *)
Definition image_of (srv : Server) (req : Req) : option buffer :=
  match file req with
  | Some b => Some b
  | None => fs_readFileSync srv test_image
  end.

Definition reads (req : Req) : list action :=
  match file req with
  | Some _ => []
  | None => [Read test_image]
  end.

(** The three answers of the analysis endpoint. *)
Definition refused : Response :=
  respond 400 (message_only "Provide end1Pressure, end2Pressure, and userEmail").

Definition accepted : Response :=
  respond 200 (message_only "Analysis complete, email sent!").

Definition failed (text : jsstring) : Response :=
  respond 500 (JObj [(js "message", JStr (js "Leak analysis failed"));
                     (js "error", JStr text)]).

(** The two answers of the pressure endpoint. *)
Definition pressure_refused : Response :=
  respond 400 (message_only "Provide end1Pressure and end2Pressure").

Definition pressure_received (difference : number) : Response :=
  respond 200 (JObj [(js "message", JStr (js "Pressure received"));
                     (js "pressureDiff", JNum difference)]).

(** The sockets that are open among the registered ones. *)
Definition open_clients (srv : Server) (clients : list N) : list N :=
  List.filter (fun ws => N.eqb (readyState srv ws) OPEN) clients.

(** The messages a broadcast of [data] puts on the open sockets. *)
Definition told (srv : Server) (clients : list N) (data : json) : list action :=
  List.map (fun ws => Send ws (JSON_stringify srv data)) (open_clients srv clients).

Definition is_send (a : action) : bool :=
  match a with Send _ _ => true | _ => false end.

Definition is_mail (a : action) : bool :=
  match a with SendMail _ => true | _ => false end.

(** Whether the last of [connection] and [close] a socket saw was a
    [connection]. *)
Definition registered (ws : N) (events : list socket_event) : bool :=
  List.fold_left
    (fun known e =>
       match e with
       | Connection w => if N.eqb w ws then true else known
       | Close w => if N.eqb w ws then false else known
       | SocketError _ => known
       end)
    events false.

(* ===================================================================== *)
(** * Properties                                                          *)
(* ===================================================================== *)

Unset Implicit Arguments.

Ltac Zify.zify_post_hook ::= Z.to_euclidean_division_equations.

(** ** Strings *)

Lemma jsstring_eqb_eq (s t : jsstring) : jsstring_eqb s t = true <-> s = t.
Proof.
  revert t; induction s as [|a s IH]; intros [|b t]; simpl;
    try (split; [discriminate | discriminate]); try tauto.
  rewrite andb_true_iff, N.eqb_eq, IH.
  split; [intros [-> ->]; reflexivity | intros E; injection E; auto].
Qed.

(** ** The base64 text of a buffer *)

Module Base64Facts.
Import Base64.

Lemma to_N_lt (b : byte) : (Byte.to_N b < 256)%N.
Proof. pose proof (Byte.to_N_bounded b); lia. Qed.

Lemma byte_of_to_N (b : byte) : byte_of_N (Byte.to_N b) = b.
Proof.
  unfold byte_of_N.
  rewrite N.mod_small by apply to_N_lt.
  now rewrite Byte.of_to_N.
Qed.

Lemma byte_of_N_eq (n : N) (b : byte) : n = Byte.to_N b -> byte_of_N n = b.
Proof. intros ->; apply byte_of_to_N. Qed.

(** A 6-bit value survives the alphabet, and is never the padding. *)
Lemma sextet_of_char_of_sextet (n : N) :
  (n < 64)%N -> sextet_of_char (char_of_sextet n) = Some n.
Proof.
  intros Hn; unfold char_of_sextet, sextet_of_char.
  destruct (N.ltb_spec n 26).
  { replace ((65 <=? 65 + n) && (65 + n <=? 90))%N with true
      by (symmetry; apply andb_true_iff; split; apply N.leb_le; lia).
    f_equal; lia. }
  destruct (N.ltb_spec n 52).
  { replace ((65 <=? 97 + (n - 26)) && (97 + (n - 26) <=? 90))%N with false
      by (symmetry; apply andb_false_iff; right; apply N.leb_gt; lia).
    replace ((97 <=? 97 + (n - 26)) && (97 + (n - 26) <=? 122))%N with true
      by (symmetry; apply andb_true_iff; split; apply N.leb_le; lia).
    f_equal; lia. }
  destruct (N.ltb_spec n 62).
  { replace ((65 <=? 48 + (n - 52)) && (48 + (n - 52) <=? 90))%N with false
      by (symmetry; apply andb_false_iff; left; apply N.leb_gt; lia).
    replace ((97 <=? 48 + (n - 52)) && (48 + (n - 52) <=? 122))%N with false
      by (symmetry; apply andb_false_iff; left; apply N.leb_gt; lia).
    replace ((48 <=? 48 + (n - 52)) && (48 + (n - 52) <=? 57))%N with true
      by (symmetry; apply andb_true_iff; split; apply N.leb_le; lia).
    f_equal; lia. }
  destruct (N.eqb_spec n 62) as [-> | Hne]; [reflexivity|].
  assert (n = 63%N) as -> by lia.
  reflexivity.
Qed.

Lemma char_of_sextet_not_pad (n : N) : (char_of_sextet n =? pad)%N = false.
Proof.
  unfold char_of_sextet, pad; apply N.eqb_neq.
  destruct (N.ltb_spec n 26); [lia|].
  destruct (N.ltb_spec n 52); [lia|].
  destruct (N.ltb_spec n 62); [lia|].
  destruct (N.eqb_spec n 62); lia.
Qed.

Lemma sextets_cons (n : N) (s : jsstring) :
  (n < 64)%N -> sextets (char_of_sextet n :: s) = n :: sextets s.
Proof.
  intros Hn; simpl.
  now rewrite char_of_sextet_not_pad, sextet_of_char_of_sextet.
Qed.

Lemma sextets_pad (s : jsstring) : sextets (pad :: s) = [].
Proof. reflexivity. Qed.

Lemma decode_encode_bounded (n : nat) :
  forall b : buffer, (List.length b <= n)%nat -> decode (encode b) = b.
Proof.
  induction n as [n IH] using (well_founded_induction Wf_nat.lt_wf).
  intros [|b1 [|b2 [|b3 rest]]] Hlen; unfold decode.
  - reflexivity.
  - pose proof (to_N_lt b1).
    cbn [encode].
    rewrite !sextets_cons, sextets_pad by lia.
    cbn [bytes_of_sextets]; f_equal.
    apply byte_of_N_eq; lia.
  - pose proof (to_N_lt b1); pose proof (to_N_lt b2).
    cbn [encode].
    rewrite !sextets_cons, sextets_pad by lia.
    cbn [bytes_of_sextets]; repeat f_equal; apply byte_of_N_eq; lia.
  - pose proof (to_N_lt b1); pose proof (to_N_lt b2); pose proof (to_N_lt b3).
    cbn [encode].
    rewrite !sextets_cons by lia.
    cbn [bytes_of_sextets].
    simpl in Hlen.
    change (bytes_of_sextets (sextets (encode rest))) with (decode (encode rest)).
    rewrite (IH (List.length rest)) by lia.
    repeat f_equal; apply byte_of_N_eq; lia.
Qed.

End Base64Facts.

(** ** Computations *)

Lemma outcome_bind {A B} (m : M A) (f : A -> M B) :
  outcome (Run.bind m f)
  = match outcome m with
    | Return a => outcome (f a)
    | Throw e => Throw e
    end.
Proof.
  destruct m as [t [a|e]]; simpl; [|reflexivity].
  destruct (f a); reflexivity.
Qed.

Lemma trace_bind {A B} (m : M A) (f : A -> M B) :
  trace (Run.bind m f)
  = trace m ++ match outcome m with
               | Return a => trace (f a)
               | Throw _ => []
               end.
Proof.
  destruct m as [t [a|e]]; simpl; [|now rewrite app_nil_r].
  destruct (f a); reflexivity.
Qed.

Lemma outcome_try_catch {A} (m : M A) (handler : exn -> M A) :
  outcome (Run.try_catch m handler)
  = match outcome m with
    | Return a => Return a
    | Throw e => outcome (handler e)
    end.
Proof.
  destruct m as [t [a|e]]; simpl; [reflexivity|].
  destruct (handler e); reflexivity.
Qed.

Lemma trace_try_catch {A} (m : M A) (handler : exn -> M A) :
  trace (Run.try_catch m handler)
  = trace m ++ match outcome m with
               | Return _ => []
               | Throw e => trace (handler e)
               end.
Proof.
  destruct m as [t [a|e]]; simpl; [now rewrite app_nil_r|].
  destruct (handler e); reflexivity.
Qed.

Lemma bind_ret_l {A B} (a : A) (f : A -> M B) : Run.bind (Run.ret a) f = f a.
Proof. unfold Run.bind, Run.ret; destruct (f a); reflexivity. Qed.

Lemma bind_ext {A B} (m : M A) (f g : A -> M B) :
  (forall a, f a = g a) -> Run.bind m f = Run.bind m g.
Proof.
  intros E; destruct m as [t [a|e]]; simpl; [now rewrite E | reflexivity].
Qed.

Lemma M_eq {A} (m : M A) (t : list event) (r : result A) :
  trace m = t -> outcome m = r -> m = (t, r).
Proof. destruct m; simpl; intros -> ->; reflexivity. Qed.

Lemma outcome_ret {A} (a : A) : outcome (Run.ret a) = Return a.
Proof. reflexivity. Qed.

Lemma outcome_throw {A} (e : exn) : outcome (@Run.throw A e) = Throw e.
Proof. reflexivity. Qed.

Lemma outcome_emit (ev : event) : outcome (Run.emit ev) = Return tt.
Proof. reflexivity. Qed.

Lemma outcome_lift {A} (r : result A) : outcome (Run.lift r) = r.
Proof. reflexivity. Qed.

Lemma outcome_await {A} (e : exn) (o : option A) :
  outcome (Run.await e o) = match o with Some a => Return a | None => Throw e end.
Proof. destruct o; reflexivity. Qed.

Lemma trace_ret {A} (a : A) : trace (Run.ret a) = [].
Proof. reflexivity. Qed.

Lemma trace_throw {A} (e : exn) : trace (@Run.throw A e) = [].
Proof. reflexivity. Qed.

Lemma trace_emit (ev : event) : trace (Run.emit ev) = [ev].
Proof. reflexivity. Qed.

Lemma trace_lift {A} (r : result A) : trace (Run.lift r) = [].
Proof. reflexivity. Qed.

Lemma trace_await {A} (e : exn) (o : option A) : trace (Run.await e o) = [].
Proof. destruct o; reflexivity. Qed.

(** One step of a run: the laws above, then the matches they uncover. *)
Ltac run_step :=
  repeat
    (rewrite ?outcome_bind, ?outcome_try_catch, ?trace_bind, ?trace_try_catch,
       ?outcome_ret, ?outcome_throw, ?outcome_emit, ?outcome_lift, ?outcome_await,
       ?trace_ret, ?trace_throw, ?trace_emit, ?trace_lift, ?trace_await,
       ?app_nil_r;
     cbv beta iota zeta; cbn [negb]).

(** ** The renderer never fails *)

Lemma drawLeakAnnotations_outcome (h : Host) (imageBuffer : buffer) (leaks : list json) :
  outcome (drawLeakAnnotations h imageBuffer leaks) = Return (drawn h imageBuffer leaks).
Proof.
  unfold drawLeakAnnotations, drawn.
  run_step.
  destruct (sharp_metadata h imageBuffer) as [metadata|]; run_step; [|reflexivity].
  destruct (leak_marks h leaks) as [marks|e]; run_step; [|reflexivity].
  destruct (sharp_composite_jpeg h imageBuffer (Svg.overlay metadata marks));
    reflexivity.
Qed.

(** ** The confidence filter *)

Lemma strict_eq_string_spec (a : jsval) (s : jsstring) :
  strict_eq_string a s = true <-> a = Some (JStr s).
Proof.
  destruct a as [[| | |t| |]|]; simpl; try (split; discriminate).
  rewrite jsstring_eqb_eq.
  split; [intros ->; reflexivity | intros E; injection E; auto].
Qed.

Lemma keeps_spec (leak : json) : keeps leak = true <-> top_confidence leak.
Proof.
  unfold keeps, top_confidence.
  now rewrite orb_true_iff, !strict_eq_string_spec.
Qed.

Lemma is_high_confidence_keeps (leak : json) :
  leak <> JNull -> is_high_confidence leak = Return (keeps leak).
Proof. destruct leak; intros H; try reflexivity; now elim H. Qed.

(** On entries none of which is [null] the filter of the source is the
    filter of lists: same entries, same order, nothing rewritten. *)
Lemma array_filter_is_filter (items : list json) :
  Forall (fun leak => leak <> JNull) items ->
  array_filter is_high_confidence items = Return (List.filter keeps items).
Proof.
  induction 1 as [|leak rest Hleak _ IH]; [reflexivity|].
  cbn [array_filter List.filter].
  rewrite (is_high_confidence_keeps leak Hleak), IH; cbn [Res.bind].
  destruct (keeps leak); reflexivity.
Qed.

(** A [null] entry makes the callback raise, whatever stands around it. *)
Lemma array_filter_null (before after : list json) :
  Forall (fun leak => leak <> JNull) before ->
  array_filter is_high_confidence (before ++ JNull :: after) = Throw TypeError.
Proof.
  induction 1 as [|leak rest Hleak _ IH]; [reflexivity|].
  cbn [array_filter app].
  now rewrite (is_high_confidence_keeps leak Hleak), IH.
Qed.

Lemma highConfidenceLeaks_array (leakData : json) (items : list json) :
  get_named leakData (js "leaks") = Some (JArr items) ->
  Forall (fun leak => leak <> JNull) items ->
  highConfidenceLeaks leakData = Return (List.filter keeps items).
Proof.
  intros Hleaks Hitems; unfold highConfidenceLeaks, prop.
  destruct leakData; try discriminate Hleaks.
  cbn [Res.bind]; rewrite Hleaks.
  now apply array_filter_is_filter.
Qed.

Lemma array_filter_with_null (items : list json) :
  List.In JNull items -> array_filter is_high_confidence items = Throw TypeError.
Proof.
  induction items as [|leak rest IH]; intros Hin; [now elim Hin|].
  cbn [array_filter].
  destruct leak; try reflexivity;
    (destruct Hin as [C | Hin]; [discriminate C|]);
    rewrite (IH Hin); cbn [is_high_confidence prop Res.bind]; reflexivity.
Qed.

(** The filter on a parsed list: one [null] entry makes the callback
    raise, and the filter with it. *)
Lemma highConfidenceLeaks_any (leakData : json) (items : list json) :
  get_named leakData (js "leaks") = Some (JArr items) ->
  highConfidenceLeaks leakData
  = if List.existsb is_null items then Throw TypeError
    else Return (List.filter keeps items).
Proof.
  intros Hleaks.
  destruct (List.existsb is_null items) eqn:Hnull.
  - apply existsb_exists in Hnull as (leak & Hin & Hleak).
    destruct leak; try discriminate Hleak.
    unfold highConfidenceLeaks, prop.
    destruct leakData; try discriminate Hleaks.
    cbn [Res.bind]; rewrite Hleaks.
    now apply array_filter_with_null.
  - apply highConfidenceLeaks_array; [exact Hleaks|].
    apply Forall_forall; intros leak Hin ->.
    assert (List.existsb is_null items = true) as E
      by (apply existsb_exists; exists JNull; split; [exact Hin | reflexivity]).
    congruence.
Qed.

(** ** Runs of the pipeline *)

Section Runs.
Variables (h : Host) (env : Env) (buf : buffer) (end1 end2 : option number).

Let request := build_request h env (Base64.encode buf) end1 end2.
Let passed := Base64.encode buf.

Lemma analyze_no_key :
  buf <> [] -> key_absent env = true ->
  analyzeWithGemini h env (Some buf) end1 end2 = ([], Return passed).
Proof.
  intros Hbuf Hkey; unfold analyzeWithGemini.
  destruct buf; [now elim Hbuf|].
  now rewrite Hkey.
Qed.

(** With a key and a picture, the function is the [try] and its handler. *)
Lemma analyze_with_key :
  buf <> [] -> key_absent env = false ->
  analyzeWithGemini h env (Some buf) end1 end2
  = Run.try_catch (analyze_try h env buf end1 end2) (fun _ => Run.ret passed).
Proof.
  intros Hbuf Hkey; unfold analyzeWithGemini.
  destruct buf; [now elim Hbuf|].
  now rewrite Hkey.
Qed.

Lemma analyze_outcome_absorbs :
  buf <> [] -> key_absent env = false ->
  outcome (analyzeWithGemini h env (Some buf) end1 end2)
  = match outcome (analyze_try h env buf end1 end2) with
    | Return text => Return text
    | Throw _ => Return passed
    end.
Proof.
  intros Hbuf Hkey; rewrite analyze_with_key by assumption.
  now rewrite outcome_try_catch.
Qed.

Lemma analyze_trace :
  buf <> [] -> key_absent env = false ->
  trace (analyzeWithGemini h env (Some buf) end1 end2)
  = trace (analyze_try h env buf end1 end2).
Proof.
  intros Hbuf Hkey; rewrite analyze_with_key by assumption.
  rewrite trace_try_catch.
  destruct (outcome (analyze_try h env buf end1 end2)); now rewrite app_nil_r.
Qed.

(** The service does not answer. *)
Lemma analyze_try_rejected :
  axios_post h request = None ->
  analyze_try h env buf end1 end2 = ([EvPost request], Throw ServiceError).
Proof.
  intros Hpost; unfold analyze_try; fold request.
  apply M_eq; run_step; rewrite Hpost; run_step; reflexivity.
Qed.

(** The service answers, with no text to read. *)
Lemma analyze_try_no_text (data : jsval) :
  axios_post h request = Some data ->
  truthy (response_text data) = false ->
  analyze_try h env buf end1 end2 = ([EvPost request], Return passed).
Proof.
  intros Hpost Htext; unfold analyze_try; fold request.
  apply M_eq; run_step; rewrite Hpost; run_step; rewrite Htext; run_step;
    reflexivity.
Qed.

(** The text of the answer is something else than a string. *)
Lemma analyze_try_not_a_string (data : jsval) :
  axios_post h request = Some data ->
  truthy (response_text data) = true ->
  (forall t, response_text data <> Some (JStr t)) ->
  analyze_try h env buf end1 end2 = ([EvPost request], Throw TypeError).
Proof.
  intros Hpost Htext Hstr; unfold analyze_try; fold request.
  assert (cleaned (response_text data) = Throw TypeError) as Hc.
  { destruct (response_text data) as [[| | |t| |]|]; try reflexivity.
    now elim (Hstr t). }
  apply M_eq; run_step; rewrite Hpost; run_step; rewrite Htext; run_step;
    rewrite Hc; run_step; reflexivity.
Qed.

(** The text of the answer does not parse. *)
Lemma analyze_try_unparsed (data : jsval) (t : jsstring) :
  axios_post h request = Some data ->
  response_text data = Some (JStr t) ->
  JSON_parse h (clean_response t) = None ->
  analyze_try h env buf end1 end2 = ([EvPost request], Return passed).
Proof.
  intros Hpost Htext Hparse.
  destruct (truthy (response_text data)) eqn:Htruthy;
    [|now apply (analyze_try_no_text data)].
  unfold analyze_try; fold request.
  apply M_eq; run_step; rewrite Hpost; run_step; rewrite Htruthy; run_step;
    rewrite Htext; cbn [cleaned]; run_step; rewrite Hparse; run_step; reflexivity.
Qed.

(** The text parses: what is left is the filter and, on a retained entry,
    the renderer. *)
Lemma analyze_try_parsed (data : jsval) (t : jsstring) (leakData : json) :
  axios_post h request = Some data ->
  response_text data = Some (JStr t) ->
  t <> [] ->
  JSON_parse h (clean_response t) = Some leakData ->
  analyze_try h env buf end1 end2
  = (Run.emit (EvPost request) ;;
     high <- Run.lift (highConfidenceLeaks leakData) ;;
     match high with
     | [] => Run.ret passed
     | _ :: _ =>
         Run.lift (log_leaks h high) ;;
         annotatedImage <- drawLeakAnnotations h buf high ;;
         Run.ret (Base64.encode annotatedImage)
     end)%run.
Proof.
  intros Hpost Htext Ht Hparse.
  unfold analyze_try; fold request.
  apply bind_ext; intros _.
  rewrite Hpost; cbn [Run.await]; rewrite bind_ret_l; cbv zeta.
  rewrite Htext.
  destruct t; [now elim Ht|]; cbn [truthy negb cleaned].
  change (Run.lift (Return ?x)) with (Run.ret x).
  rewrite bind_ret_l, Hparse.
  reflexivity.
Qed.

End Runs.

(** ** What a run can return *)

(** With a picture to work on, a run returns the base64 text of the
    picture, or of what the renderer made of it for a retained list that
    is not empty. Nothing is raised. *)
Lemma analyze_outcome_cases (h : Host) (env : Env) (buf : buffer)
  (end1 end2 : option number) :
  buf <> [] ->
  outcome (analyzeWithGemini h env (Some buf) end1 end2) = Return (Base64.encode buf)
  \/ exists high : list json,
       high <> []
       /\ outcome (analyzeWithGemini h env (Some buf) end1 end2)
          = Return (Base64.encode (drawn h buf high)).
Proof.
  intros Hbuf.
  destruct (key_absent env) eqn:Hkey.
  { left; now rewrite (analyze_no_key h env buf end1 end2 Hbuf Hkey). }
  rewrite analyze_outcome_absorbs by assumption.
  unfold analyze_try; run_step.
  destruct (axios_post h _) as [data|]; run_step; [|now left].
  destruct (truthy (response_text data)); run_step; [|now left].
  destruct (cleaned (response_text data)) as [clean|]; run_step; [|now left].
  destruct (JSON_parse h clean) as [leakData|]; run_step; [|now left].
  destruct (highConfidenceLeaks leakData) as [[|leak high]|]; run_step;
    [now left | | now left].
  destruct (log_leaks h (leak :: high)); run_step; [|now left].
  rewrite drawLeakAnnotations_outcome.
  right; exists (leak :: high); split; [discriminate | reflexivity].
Qed.

Lemma drawn_without_metadata (h : Host) (buf : buffer) (leaks : list json) :
  sharp_metadata h buf = None -> drawn h buf leaks = buf.
Proof. intros E; unfold drawn; now rewrite E. Qed.

Lemma drawn_without_composite (h : Host) (buf : buffer) (leaks : list json) :
  (forall svg, sharp_composite_jpeg h buf svg = None) -> drawn h buf leaks = buf.
Proof.
  intros E; unfold drawn.
  destruct (sharp_metadata h buf); [|reflexivity].
  destruct (leak_marks h leaks); [|reflexivity].
  now rewrite E.
Qed.

(** ** Comparisons of binary64 values *)

Module NumFacts.

Lemma compare_antisym (a b : number) :
  SFcompare a b = option_map CompOpp (SFcompare b a).
Proof.
  destruct a as [sa|sa| |sa ma ea], b as [sb|sb| |sb mb eb]; simpl;
    try reflexivity;
    try (destruct sa; reflexivity); try (destruct sb; reflexivity);
    try (destruct sa, sb; reflexivity).
  rewrite (Z.compare_antisym ea eb).
  change (Pos.compare_cont Eq mb ma) with (Pos.compare mb ma).
  change (Pos.compare_cont Eq ma mb) with (Pos.compare ma mb).
  rewrite (Pos.compare_antisym ma mb).
  destruct sa, sb; simpl; try reflexivity;
    destruct (ea ?= eb)%Z; simpl; try reflexivity;
    destruct (ma ?= mb)%positive; reflexivity.
Qed.

Lemma compare_none (a b : number) :
  SFcompare a b = None <-> Num.is_nan a = true \/ Num.is_nan b = true.
Proof.
  destruct a as [sa|sa| |sa ma ea], b as [sb|sb| |sb mb eb]; simpl;
    split; intros H; try discriminate H; try tauto;
    try (destruct H; discriminate).
Qed.

(** [a > b] fails exactly when [a <= b] holds or one side is [NaN]. *)
Lemma gtb_false (a b : number) :
  Num.gtb a b = false
  <-> Num.leb a b = true \/ Num.is_nan a = true \/ Num.is_nan b = true.
Proof.
  unfold Num.gtb, Num.ltb, Num.leb, SFltb, SFleb.
  rewrite (compare_antisym b a), <- (compare_none a b).
  destruct (SFcompare a b) as [[| |]|]; simpl; split; intros H;
    try reflexivity; try discriminate H; try tauto;
    try (destruct H as [H|H]; discriminate H).
Qed.

Lemma gtb_true_not_nan (a b : number) :
  Num.gtb a b = true -> Num.is_nan a = false.
Proof.
  unfold Num.gtb, Num.ltb, SFltb.
  destruct a; try reflexivity.
  destruct b; discriminate.
Qed.

(** Above 3 is above 1.5. *)
Lemma gtb_3_gtb_1_5 (d : number) :
  Num.gtb d psi_3 = true -> Num.gtb d psi_1_5 = true.
Proof.
  unfold Num.gtb, Num.ltb, SFltb.
  destruct d as [s|s| |s m e]; try (destruct s; simpl; congruence); try discriminate.
  destruct s; [discriminate|].
  change psi_3 with (S754_finite false 6755399441055744 (-51)).
  change psi_1_5 with (S754_finite false 6755399441055744 (-52)).
  cbn [SFcompare].
  destruct (Z.compare_spec (-51) e) as [<-|Hlt|Hgt]; intros H.
  - reflexivity.
  - now replace (-52 ?= e)%Z with Lt by (symmetry; apply Z.compare_lt_iff; lia).
  - discriminate H.
Qed.

End NumFacts.

(** ** The overlay *)

(** Whatever the fields are, a mark that is made has this shape. *)
Lemma mark_of_fields_shape (h : Host)
  (x y width height confidence description : jsval) (index : nat) (m : LeakMark) :
  mark_of_fields h x y width height confidence description index = Return m ->
  exists (sx sy sw sh : jsstring) (ly : json) (bx by_ ty : number),
    interpolate h x = Return sx
    /\ interpolate h y = Return sy
    /\ interpolate h width = Return sw
    /\ interpolate h height = Return sh
    /\ labelY h y height = Return ly
    /\ js_sub h x (Num.of_Z 5) = Return bx
    /\ js_sub h (Some ly) (Num.of_Z 18) = Return by_
    /\ js_sub h (Some ly) (Num.of_Z 3) = Return ty
    /\ m = assembled sx sy sw sh
             (NumberToString h bx) (NumberToString h by_) (NumberToString h ty) index.
Proof.
  unfold mark_of_fields; intros H.
  destruct (interpolate h x) as [sx|] eqn:Ex; cbn [Res.bind] in H; [|discriminate H].
  destruct (interpolate h y) as [sy|] eqn:Ey; cbn [Res.bind] in H; [|discriminate H].
  destruct (interpolate h width) as [sw|] eqn:Ew; cbn [Res.bind] in H;
    [|discriminate H].
  destruct (interpolate h height) as [sh|] eqn:Eh; cbn [Res.bind] in H;
    [|discriminate H].
  destruct (interpolate h confidence); cbn [Res.bind] in H; [|discriminate H].
  destruct (interpolate h (js_or description _)); cbn [Res.bind] in H;
    [|discriminate H].
  destruct (labelY h y height) as [ly|] eqn:Ely; cbn [Res.bind] in H;
    [|discriminate H].
  cbv zeta in H.
  destruct (js_sub h x _) as [bx|] eqn:Ebx; cbn [Res.bind] in H; [|discriminate H].
  destruct (js_sub h (Some ly) (Num.of_Z 18)) as [by_|] eqn:Eby; cbn [Res.bind] in H;
    [|discriminate H].
  destruct (js_sub h (Some ly) (Num.of_Z 3)) as [ty|] eqn:Ety; cbn [Res.bind] in H;
    [|discriminate H].
  injection H as <-.
  exists sx, sy, sw, sh, ly, bx, by_, ty.
  repeat split; assumption || reflexivity.
Qed.

Lemma leak_mark_fields (h : Host) (leak : json) (index : nat) (m : LeakMark) :
  leak_mark h leak index = Return m ->
  mark_of_fields h
    (get_named leak (js "x")) (get_named leak (js "y"))
    (get_named leak (js "width")) (get_named leak (js "height"))
    (get_named leak (js "confidence")) (get_named leak (js "description"))
    index = Return m.
Proof. destruct leak; intros H; try exact H; discriminate H. Qed.

(** The anchor of a box made of numbers. *)
Lemma labelY_numbers (h : Host) (y height : number) :
  labelY h (Some (JNum y)) (Some (JNum height)) = Return (JNum (anchor y height)).
Proof.
  unfold labelY, anchor, label_placement, label_threshold.
  cbn [js_gt to_number to_primitive prim_to_number Res.bind].
  destruct (Num.gtb y (Num.of_Z 30)); reflexivity.
Qed.

(** A plain detection always gets its mark. *)
Lemma leak_mark_plain (h : Host) (leak : json) (index : nat) :
  plain_detection leak = true ->
  leak_mark h leak index
  = Return (plain_mark h
              (number_of (get_named leak (js "x")))
              (number_of (get_named leak (js "y")))
              (number_of (get_named leak (js "width")))
              (number_of (get_named leak (js "height")))
              index).
Proof.
  unfold plain_detection; intros H.
  repeat (apply andb_prop in H; destruct H as [H ?]).
  assert (leak <> JNull) as Hleak by (intros ->; discriminate H).
  assert (leak_mark h leak index
          = mark_of_fields h
              (get_named leak (js "x")) (get_named leak (js "y"))
              (get_named leak (js "width")) (get_named leak (js "height"))
              (get_named leak (js "confidence")) (get_named leak (js "description"))
              index) as ->
    by (destruct leak; try reflexivity; now elim Hleak).
  destruct (get_named leak (js "x")) as [[| | x | | |]|]; try discriminate.
  destruct (get_named leak (js "y")) as [[| | y | | |]|]; try discriminate.
  destruct (get_named leak (js "width")) as [[| | w | | |]|]; try discriminate.
  destruct (get_named leak (js "height")) as [[| | hh | | |]|]; try discriminate.
  unfold mark_of_fields.
  rewrite labelY_numbers.
  destruct (get_named leak (js "confidence")) as [[| | | c | |]|]; try discriminate;
    destruct (get_named leak (js "description")) as [[| | | [|d ds] | |]|];
    try discriminate; reflexivity.
Qed.



(** ** Reading an overlay *)

Module OverlayFacts.






Lemma no_close_app (a b : jsstring) :
  no_close (a ++ b) = no_close a && no_close b.
Proof. apply forallb_app. Qed.

(** *** What the reader does with a piece of text *)







(** *** The pieces of the template *)




(** *** Numbers in decimal *)









(** *** Marks of plain detections *)




End OverlayFacts.

(* ===================================================================== *)
(** * The claims                                                          *)
(* ===================================================================== *)

(** C1 (amended). Whenever the reply parses to data whose [leaks] is a
    list, the confidence filter does one of two things. When no entry is
    [null], it returns exactly the entries whose [confidence] is the string
    ["high"] or ["very high"], each as it was and in the order of the
    reply. When an entry is [null], it raises and no entry is retained,
    whatever the confidence of the others. And when nothing is retained,
    for either reason, the pipeline returns the base64 text of the source
    image, the renderer being neither entered nor given anything to
    composite. (When some are retained, the list the renderer is entered
    with is that same list.) *)
Theorem confidence_filter_keeps_top_tier
  (h : Host) (env : Env) (buf : buffer) (end1 end2 : option number)
  (data : jsval) (t : jsstring) (leakData : json) (items : list json) :
  buf <> [] ->
  key_absent env = false ->
  axios_post h (build_request h env (Base64.encode buf) end1 end2) = Some data ->
  response_text data = Some (JStr t) ->
  JSON_parse h (clean_response t) = Some leakData ->
  get_named leakData (js "leaks") = Some (JArr items) ->
  highConfidenceLeaks leakData
  = (if List.existsb is_null items then Throw TypeError
     else Return (List.filter keeps items))
  /\ (forall leak, keeps leak = true <-> top_confidence leak)
  /\ (List.existsb is_null items = true \/ List.filter keeps items = [] ->
      outcome (analyzeWithGemini h env (Some buf) end1 end2)
      = Return (Base64.encode buf)
      /\ renderer_not_invoked (analyzeWithGemini h env (Some buf) end1 end2))
  /\ (t <> [] ->
      List.existsb is_null items = false ->
      List.filter keeps items <> [] ->
      log_leaks h (List.filter keeps items) = Return tt ->
      List.In (EvRender buf (List.filter keeps items))
        (trace (analyzeWithGemini h env (Some buf) end1 end2))).
Proof.
  intros Hbuf Hkey Hpost Htext Hparse Hleaks.
  pose proof (highConfidenceLeaks_any leakData items Hleaks) as Hhigh.
  split; [exact Hhigh|]. split; [exact keeps_spec|]. split.
  - intros Hnone; unfold renderer_not_invoked.
    rewrite analyze_outcome_absorbs, analyze_trace by assumption.
    destruct t as [|c t'].
    + rewrite (analyze_try_no_text h env buf end1 end2 data Hpost)
        by (rewrite Htext; reflexivity).
      split; reflexivity.
    + rewrite (analyze_try_parsed h env buf end1 end2 data (c :: t') leakData)
        by (assumption || discriminate).
      rewrite Hhigh.
      destruct (List.existsb is_null items); [split; reflexivity|].
      destruct Hnone as [Hnone | Hnone]; [discriminate Hnone|].
      rewrite Hnone; split; reflexivity.
  - intros Ht Hnull Hsome Hlog.
    rewrite analyze_trace by assumption.
    rewrite (analyze_try_parsed h env buf end1 end2 data t leakData) by assumption.
    rewrite Hhigh, Hnull.
    destruct (List.filter keeps items) as [|leak rest]; [now elim Hsome|].
    run_step; rewrite Hlog; run_step.
    unfold drawLeakAnnotations; run_step.
    right; left; reflexivity.
Qed.

Lemma confidence_filter_keeps_top_tier_witness :
  highConfidenceLeaks
    (JObj [(js "leaks",
            JArr [Scenario.faint; Scenario.stain; Scenario.faint; Scenario.drip])])
  = Return [Scenario.stain; Scenario.drip]
  /\ highConfidenceLeaks (JObj [(js "leaks", JArr [Scenario.faint])]) = Return []
  /\ outcome (analyzeWithGemini (Scenario.serving Scenario.faint_reply true) Scenario.env
                (Some Scenario.picture) None None)
     = Return (Base64.encode Scenario.picture)
  /\ renderer_not_invoked
       (analyzeWithGemini (Scenario.serving Scenario.faint_reply true) Scenario.env
          (Some Scenario.picture) None None).
Proof.
  split.
  { destruct (confidence_filter_keeps_top_tier
                (Scenario.serving Scenario.mixed_reply true) Scenario.env Scenario.picture
                None None
                (Scenario.reply_with
                   (JStr (Scenario.fenced (Scenario.text_of Scenario.mixed_reply))))
                (Scenario.fenced (Scenario.text_of Scenario.mixed_reply))
                (JObj [(js "leaks",
                        JArr [Scenario.faint; Scenario.stain;
                              Scenario.faint; Scenario.drip])])
                [Scenario.faint; Scenario.stain; Scenario.faint; Scenario.drip])
      as (Hfilter & _).
    - discriminate.
    - reflexivity.
    - reflexivity.
    - reflexivity.
    - reflexivity.
    - reflexivity.
    - exact Hfilter. }
  destruct (confidence_filter_keeps_top_tier
              (Scenario.serving Scenario.faint_reply true) Scenario.env Scenario.picture None None
              (Scenario.reply_with
                 (JStr (Scenario.fenced (Scenario.text_of Scenario.faint_reply))))
              (Scenario.fenced (Scenario.text_of Scenario.faint_reply))
              (JObj [(js "leaks", JArr [Scenario.faint])])
              [Scenario.faint])
    as (Hfilter & _ & Hpass & _).
  - discriminate.
  - reflexivity.
  - reflexivity.
  - reflexivity.
  - reflexivity.
  - reflexivity.
  - split; [exact Hfilter | apply Hpass; right; reflexivity].
Defined.

(** C1, as stated, fails on a list that holds a [null]: the detection
    beside it has the top confidence and is not retained; the image comes
    back as it was and the renderer is not entered. *)
Lemma null_entry_loses_a_top_tier_detection :
  top_confidence Scenario.stain
  /\ get_named stain_and_null (js "leaks") = Some (JArr [Scenario.stain; JNull])
  /\ highConfidenceLeaks stain_and_null = Throw TypeError
  /\ outcome (analyzeWithGemini (host_knowing stain_and_null true) Scenario.env
                (Some Scenario.picture) None None)
     = Return (Base64.encode Scenario.picture)
  /\ renderer_not_invoked
       (analyzeWithGemini (host_knowing stain_and_null true) Scenario.env
          (Some Scenario.picture) None None).
Proof.
  split; [now left|]. repeat split.
Qed.

(** C2. A reply whose text, once the code fences are removed and the ends
    trimmed, is not JSON raises nothing: the pipeline returns the base64
    text of the source image, having made its one request and nothing
    else. *)
Theorem unparseable_reply_passes_through
  (h : Host) (env : Env) (buf : buffer) (end1 end2 : option number)
  (data : jsval) (t : jsstring) :
  buf <> [] ->
  key_absent env = false ->
  axios_post h (build_request h env (Base64.encode buf) end1 end2) = Some data ->
  response_text data = Some (JStr t) ->
  JSON_parse h (clean_response t) = None ->
  analyzeWithGemini h env (Some buf) end1 end2
  = ([EvPost (build_request h env (Base64.encode buf) end1 end2)],
     Return (Base64.encode buf)).
Proof.
  intros Hbuf Hkey Hpost Htext Hparse.
  apply M_eq.
  - rewrite analyze_trace by assumption.
    now rewrite (analyze_try_unparsed h env buf end1 end2 data t).
  - rewrite analyze_outcome_absorbs by assumption.
    now rewrite (analyze_try_unparsed h env buf end1 end2 data t).
Qed.

Lemma unparseable_reply_passes_through_witness :
  outcome (analyzeWithGemini (Scenario.answering Scenario.truncated true) Scenario.env
             (Some Scenario.picture) None None)
  = Return (js "iVBO").
Proof.
  rewrite (unparseable_reply_passes_through
             (Scenario.answering Scenario.truncated true) Scenario.env Scenario.picture
             None None
             (Scenario.reply_with
                (JStr (Scenario.fenced Scenario.truncated)))
             (Scenario.fenced Scenario.truncated)).
  - reflexivity.
  - discriminate.
  - reflexivity.
  - reflexivity.
  - reflexivity.
  - reflexivity.
Defined.

(** C3 (amended). The pressure context is a function of the two readings.
    When one is absent it is the empty string. When both are there it ends
    with the text of one tier, and the tier is read off
    [diff = |end1 - end2|]: significant exactly when [diff > 3], moderate
    exactly when [1.5 < diff <= 3], and normal exactly when [diff <= 1.5]
    or [diff] is [NaN] (every comparison with [NaN] fails, so the last
    branch takes it; a reading that is [NaN], or two infinite readings of
    the same sign, make it so). The pair (20.0, 16.5) has [diff = 3.5] and
    is significant; the pair (12.0, 12.8) is normal. *)
Theorem pressure_context_tiers (h : Host) :
  (forall end1 end2 : option number,
      end1 = None \/ end2 = None -> pressureContext h end1 end2 = [])
  /\ (forall e1 e2 : number,
        exists head : jsstring,
          pressureContext h (Some e1) (Some e2)
          = head ++ tier_text (pressure_tier (pressureDiff e1 e2)) ++ nl)
  /\ (forall t1 t2 : tier, tier_text t1 = tier_text t2 -> t1 = t2)
  /\ (forall d : number,
        (pressure_tier d = Significant <-> Num.gtb d psi_3 = true)
        /\ (pressure_tier d = Moderate
            <-> Num.gtb d psi_1_5 = true /\ Num.leb d psi_3 = true)
        /\ (pressure_tier d = Normal
            <-> Num.leb d psi_1_5 = true \/ Num.is_nan d = true))
  /\ (forall e : number,
        pressureDiff Num.nan e = Num.nan /\ pressureDiff e Num.nan = Num.nan)
  /\ (forall s : bool,
        pressureDiff (S754_infinity s) (S754_infinity s) = Num.nan)
  /\ pressureDiff Scenario.psi_20 Scenario.psi_16_5 = Num.of_dyadic 7 (-1)
  /\ pressure_tier (pressureDiff Scenario.psi_20 Scenario.psi_16_5) = Significant
  /\ Num.leb (pressureDiff Scenario.psi_12 Scenario.psi_12_8) psi_1_5 = true
  /\ pressure_tier (pressureDiff Scenario.psi_12 Scenario.psi_12_8) = Normal.
Proof.
  split; [|split; [|split; [|split; [|split; [|split]]]]].
  - intros [e1|] [e2|] [E|E]; try discriminate E; reflexivity.
  - intros e1 e2; unfold pressureContext.
    eexists.
    rewrite !app_assoc; reflexivity.
  - intros [ | | ] [ | | ] E; try reflexivity; vm_compute in E; discriminate E.
  - intros d; unfold pressure_tier.
    destruct (Num.gtb d psi_3) eqn:H3.
    + pose proof (NumFacts.gtb_3_gtb_1_5 d H3) as H15.
      pose proof (NumFacts.gtb_true_not_nan d psi_3 H3) as Hnan.
      assert (Num.leb d psi_3 = false) as Hle3.
      { destruct (Num.leb d psi_3) eqn:E; [|reflexivity].
        assert (Num.gtb d psi_3 = false) as C
          by (apply NumFacts.gtb_false; now left).
        congruence. }
      assert (Num.leb d psi_1_5 = false) as Hle15.
      { destruct (Num.leb d psi_1_5) eqn:E; [|reflexivity].
        assert (Num.gtb d psi_1_5 = false) as C
          by (apply NumFacts.gtb_false; now left).
        congruence. }
      rewrite Hle3, Hle15, Hnan.
      repeat split; try discriminate; try tauto.
      * intros [_ C]; discriminate C.
      * intros [C|C]; discriminate C.
    + apply NumFacts.gtb_false in H3 as Hle3.
      destruct (Num.gtb d psi_1_5) eqn:H15.
      * pose proof (NumFacts.gtb_true_not_nan d psi_1_5 H15) as Hnan.
        assert (Num.leb d psi_3 = true) as ->.
        { destruct Hle3 as [E|[E|E]]; [exact E | congruence | discriminate E]. }
        assert (Num.leb d psi_1_5 = false) as ->.
        { destruct (Num.leb d psi_1_5) eqn:E; [|reflexivity].
          assert (Num.gtb d psi_1_5 = false) as C
            by (apply NumFacts.gtb_false; now left).
          congruence. }
        rewrite Hnan.
        repeat split; try discriminate; try tauto.
        intros [C|C]; discriminate C.
      * apply NumFacts.gtb_false in H15 as Hle15.
        repeat split; try discriminate; try tauto.
        -- intros [C _]; discriminate C.
        -- intros _.
           destruct Hle15 as [E|[E|E]]; [now left | now right | discriminate E].
  - intros e; split; [reflexivity | destruct e; reflexivity].
  - intros [|]; reflexivity.
  - repeat split; vm_compute; reflexivity.
Qed.

Lemma pressure_context_tiers_witness :
  pressureContext (Scenario.serving Scenario.stain_reply true) (Some Scenario.psi_20) None = []
  /\ pressure_tier (pressureDiff Scenario.psi_20 Scenario.psi_16_5) = Significant
  /\ pressure_tier (pressureDiff Scenario.psi_12 Scenario.psi_12_8) = Normal.
Proof.
  destruct (pressure_context_tiers (Scenario.serving Scenario.stain_reply true))
    as (Habsent & _ & _ & _ & _ & _ & _ & Hsignificant & _ & Hnormal).
  split; [apply Habsent; now right|].
  split; [exact Hsignificant | exact Hnormal].
Defined.

(** C3, as stated, fails on a reading that is [NaN]: the difference is
    [NaN], the tier is normal, and [diff <= 1.5] does not hold. *)
Lemma pressure_tier_of_nan_reading :
  pressure_tier (pressureDiff Num.nan Scenario.psi_12) = Normal
  /\ Num.leb (pressureDiff Num.nan Scenario.psi_12) psi_1_5 = false.
Proof. split; reflexivity. Qed.

(** C4. With no key configured, a non-empty image comes back as its base64
    text and the run makes no host call at all, so no network call. *)
Theorem missing_key_passes_through
  (h : Host) (env : Env) (buf : buffer) (end1 end2 : option number) :
  buf <> [] ->
  key_absent env = true ->
  analyzeWithGemini h env (Some buf) end1 end2 = ([], Return (Base64.encode buf))
  /\ no_network_call (analyzeWithGemini h env (Some buf) end1 end2).
Proof.
  intros Hbuf Hkey.
  unfold no_network_call.
  rewrite (analyze_no_key h env buf end1 end2 Hbuf Hkey).
  split; reflexivity.
Qed.

Lemma missing_key_passes_through_witness :
  analyzeWithGemini (Scenario.serving Scenario.stain_reply true) Scenario.no_key
    (Some Scenario.picture) None None
  = ([], Return (js "iVBO")).
Proof.
  apply (missing_key_passes_through
           (Scenario.serving Scenario.stain_reply true) Scenario.no_key Scenario.picture None None).
  - discriminate.
  - reflexivity.
Defined.

(** C5. The call raises exactly when the image buffer is absent or empty,
    and what it raises is the input error. With a non-empty buffer nothing
    escapes: a missing key, a request that fails or times out, a reply that
    is no JSON, a reply whose text is no string, any exception raised
    inside the [try], and a renderer that cannot read or composite the
    picture each end in the base64 text of the original image. *)
Theorem only_input_error_escapes
  (h : Host) (env : Env) (image : option buffer) (end1 end2 : option number) :
  ((exists e, outcome (analyzeWithGemini h env image end1 end2) = Throw e)
   <-> image = None \/ image = Some [])
  /\ (forall e, outcome (analyzeWithGemini h env image end1 end2) = Throw e ->
                e = InputError)
  /\ (forall buf : buffer,
        image = Some buf -> buf <> [] ->
        let run := analyzeWithGemini h env (Some buf) end1 end2 in
        let passed := Return (Base64.encode buf) in
        let request := build_request h env (Base64.encode buf) end1 end2 in
        (key_absent env = true -> outcome run = passed)
        /\ (axios_post h request = None -> outcome run = passed)
        /\ (forall data t,
              axios_post h request = Some data ->
              response_text data = Some (JStr t) ->
              JSON_parse h (clean_response t) = None ->
              outcome run = passed)
        /\ (forall data,
              axios_post h request = Some data ->
              truthy (response_text data) = true ->
              (forall t, response_text data <> Some (JStr t)) ->
              outcome run = passed)
        /\ (forall e, outcome (analyze_try h env buf end1 end2) = Throw e ->
                      outcome run = passed)
        /\ (sharp_metadata h buf = None -> outcome run = passed)
        /\ ((forall svg, sharp_composite_jpeg h buf svg = None) ->
            outcome run = passed)).
Proof.
  split; [|split].
  - split.
    + intros [e He].
      destruct image as [buf|]; [|now left].
      destruct (list_eq_dec Byte.byte_eq_dec buf []) as [->|Hbuf]; [now right|].
      destruct (analyze_outcome_cases h env buf end1 end2 Hbuf)
        as [E | (high & _ & E)]; rewrite E in He; discriminate He.
    + intros [-> | ->]; exists InputError; reflexivity.
  - intros e He.
    destruct image as [buf|]; [|now injection He].
    destruct (list_eq_dec Byte.byte_eq_dec buf []) as [->|Hbuf]; [now injection He|].
    destruct (analyze_outcome_cases h env buf end1 end2 Hbuf)
      as [E | (high & _ & E)]; rewrite E in He; discriminate He.
  - intros buf _ Hbuf; cbv zeta.
    destruct (key_absent env) eqn:Hkey.
    { rewrite (analyze_no_key h env buf end1 end2 Hbuf Hkey).
      repeat split; intros; reflexivity. }
    repeat split.
    + discriminate.
    + intros Hpost.
      rewrite analyze_outcome_absorbs by assumption.
      now rewrite (analyze_try_rejected h env buf end1 end2 Hpost).
    + intros data t Hpost Htext Hparse.
      rewrite analyze_outcome_absorbs by assumption.
      now rewrite (analyze_try_unparsed h env buf end1 end2 data t).
    + intros data Hpost Htruthy Hstring.
      rewrite analyze_outcome_absorbs by assumption.
      now rewrite (analyze_try_not_a_string h env buf end1 end2 data).
    + intros e He.
      rewrite analyze_outcome_absorbs by assumption.
      now rewrite He.
    + intros Hsharp.
      destruct (analyze_outcome_cases h env buf end1 end2 Hbuf)
        as [E | (high & _ & E)]; [exact E|].
      now rewrite E, drawn_without_metadata.
    + intros Hsharp.
      destruct (analyze_outcome_cases h env buf end1 end2 Hbuf)
        as [E | (high & _ & E)]; [exact E|].
      now rewrite E, drawn_without_composite.
Qed.

Lemma only_input_error_escapes_witness :
  outcome (analyzeWithGemini (Scenario.serving Scenario.stain_reply false) Scenario.env
             (Some Scenario.picture) None None)
  = Return (js "iVBO")
  /\ outcome (analyzeWithGemini (Scenario.serving Scenario.stain_reply false) Scenario.env
                (Some []) None None)
     = Throw InputError.
Proof.
  split.
  - destruct (only_input_error_escapes
                (Scenario.serving Scenario.stain_reply false) Scenario.env
                (Some Scenario.picture) None None)
      as (_ & _ & Habsorbed).
    destruct (Habsorbed Scenario.picture eq_refl) as (_ & _ & _ & _ & _ & Hsharp & _).
    + discriminate.
    + apply Hsharp; reflexivity.
  - destruct (only_input_error_escapes
                (Scenario.serving Scenario.stain_reply false) Scenario.env (Some []) None None)
      as (Hraises & Hinput & _).
    destruct (proj2 Hraises (or_intror eq_refl)) as [e He].
    rewrite He; f_equal; exact (Hinput e He).
Defined.




(** C7 (amended). The label of a rendered detection whose [y] and
    [height] are numbers goes above its rectangle exactly when [y > 30],
    with its anchor at [y - 10], and below it otherwise, with its anchor at
    [y + height + 20]; the label background is drawn 18 above the anchor
    and the label text 3 above it. A detection whose fields are numbers
    and text is always rendered. Two rendered detections with the same [y]
    and the same [height] have their labels at the same height, whatever
    these values, their other fields and their positions in the list. *)
Theorem label_anchor_placement (h : Host) :
  label_threshold = Num.of_Z 30
  /\ (forall y height : number,
        labelY h (Some (JNum y)) (Some (JNum height)) = Return (JNum (anchor y height))
        /\ (label_placement y = Above <-> Num.gtb y label_threshold = true)
        /\ (label_placement y = Above -> anchor y height = Num.sub y (Num.of_Z 10))
        /\ (label_placement y = Below ->
            anchor y height = Num.add (Num.add y height) (Num.of_Z 20)))
  /\ (forall (leak : json) (index : nat) (m : LeakMark) (y height : number),
        get_named leak (js "y") = Some (JNum y) ->
        get_named leak (js "height") = Some (JNum height) ->
        leak_mark h leak index = Return m ->
        rect_y (mark_label_bg m)
        = NumberToString h (Num.sub (anchor y height) (Num.of_Z 18))
        /\ text_y (mark_label m)
           = NumberToString h (Num.sub (anchor y height) (Num.of_Z 3)))
  /\ (forall (leak : json) (index : nat),
        plain_detection leak = true ->
        exists m : LeakMark, leak_mark h leak index = Return m)
  /\ (forall (leak1 leak2 : json) (index1 index2 : nat) (m1 m2 : LeakMark),
        get_named leak1 (js "y") = get_named leak2 (js "y") ->
        get_named leak1 (js "height") = get_named leak2 (js "height") ->
        leak_mark h leak1 index1 = Return m1 ->
        leak_mark h leak2 index2 = Return m2 ->
        rect_y (mark_label_bg m1) = rect_y (mark_label_bg m2)
        /\ text_y (mark_label m1) = text_y (mark_label m2)).
Proof.
  split; [reflexivity|]. split; [|split; [|split]].
  - intros y height.
    split; [apply labelY_numbers|].
    unfold anchor, label_placement.
    destruct (Num.gtb y label_threshold); repeat split;
      try reflexivity; try discriminate.
  - intros leak index m y height Hy Hheight Hm.
    apply leak_mark_fields, mark_of_fields_shape in Hm.
    destruct Hm as (? & ? & ? & ? & ly & ? & by_ & ty
                    & _ & _ & _ & _ & Ely & _ & Eby & Ety & ->).
    rewrite Hy, Hheight, labelY_numbers in Ely.
    injection Ely as <-.
    injection Eby as <-; injection Ety as <-.
    split; reflexivity.
  - intros leak index Hplain.
    eexists; apply (leak_mark_plain h leak index Hplain).
  - intros leak1 leak2 index1 index2 m1 m2 Hy Hh H1 H2.
    apply leak_mark_fields, mark_of_fields_shape in H1, H2.
    destruct H1 as (? & ? & ? & ? & ly1 & ? & by1 & ty1
                    & _ & _ & _ & _ & Ely1 & _ & Eby1 & Ety1 & ->).
    destruct H2 as (? & ? & ? & ? & ly2 & ? & by2 & ty2
                    & _ & _ & _ & _ & Ely2 & _ & Eby2 & Ety2 & ->).
    rewrite Hy, Hh in Ely1.
    assert (ly1 = ly2) as -> by congruence.
    assert (by1 = by2) as -> by congruence.
    assert (ty1 = ty2) as -> by congruence.
    split; reflexivity.
Qed.

Lemma label_anchor_placement_witness :
  label_placement (Num.of_Z 10) = Below
  /\ anchor (Num.of_Z 10) (Num.of_Z 40) = Num.of_Z 70
  /\ label_placement (Num.of_Z 200) = Above
  /\ anchor (Num.of_Z 200) (Num.of_Z 60) = Num.of_Z 190
  /\ exists m : LeakMark,
       leak_mark (Scenario.serving Scenario.stain_reply true) Scenario.stain 0 = Return m
       /\ rect_y (mark_label_bg m) = js "52"
       /\ text_y (mark_label m) = js "67".
Proof.
  destruct (label_anchor_placement (Scenario.serving Scenario.stain_reply true))
    as (_ & Hanchor & Hnumbers & Hplain & _).
  destruct (Hanchor (Num.of_Z 10) (Num.of_Z 40)) as (_ & _ & _ & Hbelow).
  destruct (Hanchor (Num.of_Z 200) (Num.of_Z 60)) as (_ & _ & Habove & _).
  split; [reflexivity|].
  split; [rewrite Hbelow; reflexivity|].
  split; [reflexivity|].
  split; [rewrite Habove; reflexivity|].
  destruct (Hplain Scenario.stain 0%nat eq_refl) as (m & Hm).
  destruct (Hnumbers Scenario.stain 0%nat m (Num.of_Z 10) (Num.of_Z 40)
              eq_refl eq_refl Hm) as (Hbg & Htext).
  exists m; split; [exact Hm|].
  split; [rewrite Hbg | rewrite Htext]; reflexivity.
Defined.

(** C7, as stated, fails on a detection whose [y] is text: with [y] the
    text [5] and a height of 40 the label goes below, as [5 > 30] is
    false, but [y + height + 20] joins the three as text, [54020], and the
    label background lands at 54002 where 5 + 40 + 20 - 18 is 47. *)
Lemma text_ordinate_is_concatenated :
  leak_mark (Scenario.serving Scenario.stain_reply true) text_ordinate 0
  = Return (assembled (js "10") (js "5") (js "50") (js "40")
              (js "5") (js "54002") (js "54017") 0)
  /\ labelY (Scenario.serving Scenario.stain_reply true)
       (Some (Scenario.str "5")) (Some (Scenario.num 40))
     = Return (Scenario.str "54020")
  /\ js_gt (Scenario.serving Scenario.stain_reply true)
       (Some (Scenario.str "5")) (Num.of_Z 30)
     = Return false
  /\ NumberToString (Scenario.serving Scenario.stain_reply true)
       (Num.sub (Num.add (Num.add (Num.of_Z 5) (Num.of_Z 40)) (Num.of_Z 20))
          (Num.of_Z 18))
     = js "47".
Proof. repeat split. Qed.

(** C8 (amended). The label background of every mark is a red rectangle
    drawn at opacity 0.9, so slightly see-through, and as wide as ten times
    the number of characters of the label text plus ten: of two labels the
    one with strictly more characters has the strictly wider background,
    [LEAK #10] getting 90 where [LEAK #1] gets 80. The label is not
    truncated: the text element holds the whole of it, however many digits
    the ordinal has; it starts at [x], 5 right of the left edge of the
    background at [x - 5]; and at up to ten units a character it ends
    inside the background. *)
Theorem label_background_width (h : Host) :
  (forall (leak : json) (index : nat) (m : LeakMark),
      leak_mark h leak index = Return m ->
      rect_fill (mark_label_bg m) = js "red"
      /\ rect_opacity (mark_label_bg m) = Some (js "0.9")
      /\ rect_width (mark_label_bg m)
         = dec_of_nat (List.length (text_content (mark_label m)) * 10 + 10)
      /\ text_content (mark_label m) = labelText index
      /\ exists before : jsstring,
           Svg.text (mark_label m)
           = before ++ js ">" ++ labelText index ++ js "</text>" ++ nl)
  /\ (forall (leak : json) (index : nat) (m : LeakMark) (x : number),
        get_named leak (js "x") = Some (JNum x) ->
        leak_mark h leak index = Return m ->
        text_x (mark_label m) = NumberToString h x
        /\ rect_x (mark_label_bg m) = NumberToString h (Num.sub x (Num.of_Z 5)))
  /\ (forall text : jsstring, label_bg_width text = List.length text * 10 + 10)
  /\ (forall text1 text2 : jsstring,
        List.length text1 < List.length text2 ->
        label_bg_width text1 < label_bg_width text2)
  /\ (forall (text : jsstring) (advance : nat),
        advance <= 10 ->
        not_truncated advance label_margin text (label_bg_width text))
  /\ labelText 0 = js "LEAK #1"
  /\ labelText 9 = js "LEAK #10"
  /\ label_bg_width (labelText 0) = 80
  /\ label_bg_width (labelText 9) = 90.
Proof.
  split; [|split; [|split; [|split; [|split]]]].
  - intros leak index m Hm.
    apply leak_mark_fields, mark_of_fields_shape in Hm.
    destruct Hm as (? & ? & ? & ? & ? & ? & ? & ? & _ & _ & _ & _ & _ & _ & _ & _ & ->).
    repeat split; try reflexivity.
    eexists; unfold Svg.text; cbn [assembled mark_label text_content].
    rewrite !app_assoc; reflexivity.
  - intros leak index m x Hx Hm.
    apply leak_mark_fields, mark_of_fields_shape in Hm.
    destruct Hm as (sx & ? & ? & ? & ? & bx & ? & ?
                    & Ex & _ & _ & _ & _ & Ebx & _ & _ & ->).
    rewrite Hx in Ex, Ebx.
    injection Ex as <-; injection Ebx as <-.
    split; reflexivity.
  - reflexivity.
  - intros text1 text2 Hlen; unfold label_bg_width; lia.
  - intros text advance Hadvance; unfold not_truncated, label_bg_width, label_margin.
    pose proof (Nat.mul_le_mono_r advance 10 (List.length text) Hadvance).
    lia.
  - repeat split; reflexivity.
Qed.

Lemma label_background_width_witness :
  exists m : LeakMark,
    leak_mark (Scenario.serving Scenario.stain_reply true) Scenario.stain 0 = Return m
    /\ rect_width (mark_label_bg m) = js "80"
    /\ label_bg_width (js "LEAK #1") < label_bg_width (js "LEAK #10")
    /\ not_truncated 10 label_margin (js "LEAK #10") 90.
Proof.
  destruct (label_background_width (Scenario.serving Scenario.stain_reply true))
    as (Hbg & _ & _ & Hwider & Hfits & _).
  exists (plain_mark (Scenario.serving Scenario.stain_reply true)
            (Num.of_Z 10) (Num.of_Z 10) (Num.of_Z 50) (Num.of_Z 40) 0).
  split; [reflexivity|].
  split; [|split].
  - destruct (Hbg Scenario.stain 0%nat
                (plain_mark (Scenario.serving Scenario.stain_reply true)
                   (Num.of_Z 10) (Num.of_Z 10) (Num.of_Z 50) (Num.of_Z 40) 0)
                eq_refl) as (_ & _ & Hwidth & _).
    rewrite Hwidth; reflexivity.
  - apply Hwider; repeat constructor.
  - exact (Hfits (js "LEAK #10") 10 (le_n 10)).
Defined.

(** C8, as stated, fails on the first word: the label background carries
    an opacity of 0.9 and is not opaque. *)
Lemma label_background_is_not_opaque :
  leak_mark (Scenario.serving Scenario.stain_reply true) Scenario.stain 0
  = Return (plain_mark (Scenario.serving Scenario.stain_reply true)
              (Num.of_Z 10) (Num.of_Z 10) (Num.of_Z 50) (Num.of_Z 40) 0)
  /\ rect_opacity
       (mark_label_bg
          (plain_mark (Scenario.serving Scenario.stain_reply true)
             (Num.of_Z 10) (Num.of_Z 10) (Num.of_Z 50) (Num.of_Z 40) 0))
     = Some (js "0.9")
  /\ ~ opaque
         (mark_label_bg
            (plain_mark (Scenario.serving Scenario.stain_reply true)
               (Num.of_Z 10) (Num.of_Z 10) (Num.of_Z 50) (Num.of_Z 40) 0)).
Proof.
  split; [reflexivity|]. split; [reflexivity|].
  intros [H | [H | H]]; discriminate H.
Qed.

(** C9. Decoding the base64 text of a buffer gives the buffer back, byte
    for byte; and every text the pipeline returns is such a text: it
    decodes to the buffer, annotated or not, that was encoded. *)
Theorem base64_round_trip :
  (forall b : buffer, Base64.decode (Base64.encode b) = b)
  /\ (forall (h : Host) (env : Env) (image : option buffer)
        (end1 end2 : option number),
       match outcome (analyzeWithGemini h env image end1 end2) with
       | Return text =>
           exists out : buffer,
             text = Base64.encode out /\ Base64.decode text = out
       | Throw _ => True
       end).
Proof.
  assert (forall b : buffer, Base64.decode (Base64.encode b) = b) as RT.
  { intros b; now apply Base64Facts.decode_encode_bounded with (List.length b). }
  split; [exact RT|].
  intros h env [buf|] end1 end2; [|exact I].
  destruct (list_eq_dec Byte.byte_eq_dec buf []) as [->|Hbuf]; [exact I|].
  destruct (analyze_outcome_cases h env buf end1 end2 Hbuf) as [-> | (high & _ & ->)];
    eexists; split; try reflexivity; apply RT.
Qed.

(** C10 (amended). When the reply parses to data that is not an object
    with an array under [leaks], the pipeline makes its one request and
    returns the base64 text of the source image; nothing escapes and
    nothing is rendered. No step validates the shape: data other than
    [null] whose [leaks] is missing or [null] is read as the empty list of
    detections by the optional call of the filter; on [null] itself the
    read of [leaks] raises, and on a [leaks] that is neither [null] nor an
    array the call of the filter raises, both inside the [try], whose
    handler absorbs them. *)
Theorem schema_mismatch_passes_through
  (h : Host) (env : Env) (buf : buffer) (end1 end2 : option number)
  (data : jsval) (t : jsstring) (leakData : json) :
  buf <> [] ->
  key_absent env = false ->
  axios_post h (build_request h env (Base64.encode buf) end1 end2) = Some data ->
  response_text data = Some (JStr t) ->
  JSON_parse h (clean_response t) = Some leakData ->
  (forall items, get_named leakData (js "leaks") <> Some (JArr items)) ->
  analyzeWithGemini h env (Some buf) end1 end2
  = ([EvPost (build_request h env (Base64.encode buf) end1 end2)],
     Return (Base64.encode buf))
  /\ (leakData = JNull -> highConfidenceLeaks leakData = Throw TypeError)
  /\ (leakData <> JNull ->
      get_named leakData (js "leaks") = None
      \/ get_named leakData (js "leaks") = Some JNull ->
      highConfidenceLeaks leakData = Return [])
  /\ (forall v, get_named leakData (js "leaks") = Some v -> v <> JNull ->
                highConfidenceLeaks leakData = Throw TypeError).
Proof.
  intros Hbuf Hkey Hpost Htext Hparse Hshape.
  assert (highConfidenceLeaks leakData = Return []
          \/ highConfidenceLeaks leakData = Throw TypeError) as Hhigh.
  { unfold highConfidenceLeaks, prop.
    destruct leakData; cbn [Res.bind]; try (now right);
      destruct (get_named _ _) as [[| ? | ? | ? |arr| ?]|] eqn:E;
      try (now left); try (now right).
    now elim (Hshape arr). }
  split; [|split; [|split]].
  - destruct t as [|c t'].
    + apply M_eq.
      * rewrite analyze_trace by assumption.
        rewrite (analyze_try_no_text h env buf end1 end2 data Hpost)
          by (rewrite Htext; reflexivity).
        reflexivity.
      * rewrite analyze_outcome_absorbs by assumption.
        rewrite (analyze_try_no_text h env buf end1 end2 data Hpost)
          by (rewrite Htext; reflexivity).
        reflexivity.
    + apply M_eq.
      * rewrite analyze_trace by assumption.
        rewrite (analyze_try_parsed h env buf end1 end2 data (c :: t') leakData)
          by (assumption || discriminate).
        destruct Hhigh as [-> | ->]; reflexivity.
      * rewrite analyze_outcome_absorbs by assumption.
        rewrite (analyze_try_parsed h env buf end1 end2 data (c :: t') leakData)
          by (assumption || discriminate).
        destruct Hhigh as [-> | ->]; reflexivity.
  - intros ->; reflexivity.
  - intros Hnull Hleaks; unfold highConfidenceLeaks, prop.
    destruct leakData; try (now elim Hnull); cbn [Res.bind];
      destruct Hleaks as [-> | ->]; reflexivity.
  - intros v Hv Hvnull; unfold highConfidenceLeaks, prop.
    destruct leakData; try discriminate Hv; cbn [Res.bind].
    rewrite Hv.
    destruct v; try reflexivity; [now elim Hvnull | now elim (Hshape items)].
Qed.

Lemma schema_mismatch_passes_through_witness :
  analyzeWithGemini (Scenario.serving Scenario.leaks_5 true) Scenario.env
    (Some Scenario.picture) None None
  = ([EvPost (build_request (Scenario.serving Scenario.leaks_5 true) Scenario.env
                (js "iVBO") None None)],
     Return (js "iVBO"))
  /\ highConfidenceLeaks (JObj [(js "leaks", Scenario.num 5)]) = Throw TypeError.
Proof.
  destruct (schema_mismatch_passes_through
              (Scenario.serving Scenario.leaks_5 true) Scenario.env Scenario.picture None None
              (Scenario.reply_with
                 (JStr (Scenario.fenced (Scenario.text_of Scenario.leaks_5))))
              (Scenario.fenced (Scenario.text_of Scenario.leaks_5))
              (JObj [(js "leaks", Scenario.num 5)]))
    as (Hrun & _ & _ & Hraise).
  - discriminate.
  - reflexivity.
  - reflexivity.
  - reflexivity.
  - reflexivity.
  - intros items; discriminate.
  - split; [exact Hrun|].
    apply (Hraise (Scenario.num 5)); [reflexivity | discriminate].
Defined.

(** C10, as stated, fails on a [leaks] that is there and is [null]: it is
    no array, and yet nothing is raised inside the [try]; the optional call
    reads it as the empty list. *)
Lemma null_leaks_raises_nothing :
  get_named (JObj [(js "leaks", JNull)]) (js "leaks") = Some JNull
  /\ highConfidenceLeaks (JObj [(js "leaks", JNull)]) = Return []
  /\ analyze_try (Scenario.serving Scenario.leaks_null true) Scenario.env
       Scenario.picture None None
     = ([EvPost (build_request (Scenario.serving Scenario.leaks_null true) Scenario.env
                   (js "iVBO") None None)],
        Return (js "iVBO")).
Proof. repeat split. Qed.

(* ===================================================================== *)
(** * Further properties                                                  *)
(* ===================================================================== *)

(** ** The cleaning of the reply text *)

Module CleanFacts.
Import JsString.

Lemma starts_with_app (p t r : jsstring) :
  starts_with p t = Some r <-> t = p ++ r.
Proof.
  revert t; induction p as [|a p IH]; intros t; simpl.
  - split; [intros E; now injection E | intros ->; reflexivity].
  - destruct t as [|b t]; [split; discriminate|].
    destruct (N.eqb_spec a b) as [->|Hne].
    + rewrite IH; split; [intros ->; reflexivity | intros E; now injection E].
    + split; [discriminate | intros E; injection E; intros; now elim Hne].
Qed.

(** Dropping [k] code units and going on is skipping them. *)
Lemma remove_matches_skip (p : jsstring) (k : nat) (s : jsstring) :
  remove_matches p k s = remove_matches p 0 (List.skipn k s).
Proof.
  revert k; induction s as [|c s IH]; intros [|k]; try reflexivity.
  cbn [remove_matches List.skipn]; apply IH.
Qed.

Lemma line_feed_match {A} (c : N) (x y : A) :
  match c with 10%N => x | _ => y end = if N.eqb c 10 then x else y.
Proof.
  destruct c as [|[[[[p|p|]|[p|p|]|]|[[p|p|]|[p|p|]|]|]|[[[p|p|]|[p|p|]|]|[[p|p|]|[p|p|]|]|]|]];
    reflexivity.
Qed.

(** The scan, one step at a time. *)
Lemma remove_matches_step (p : jsstring) (c : char16) (s : jsstring) :
  p <> [] ->
  remove_matches p 0 (c :: s)
  = match starts_with p (c :: s) with
    | Some r => remove_matches p 0 (after_match r)
    | None => c :: remove_matches p 0 s
    end.
Proof.
  intros Hp; cbn [remove_matches].
  destruct (starts_with p (c :: s)) as [r|] eqn:E; [|reflexivity].
  apply starts_with_app in E.
  destruct p as [|a p]; [now elim Hp|].
  injection E as -> ->.
  assert (forall k, k = List.length p -> List.skipn k (p ++ r) = r) as Hdrop.
  { intros k ->. rewrite List.skipn_app, List.skipn_all, Nat.sub_diag; reflexivity. }
  destruct r as [|x r']; unfold after_match.
  - rewrite remove_matches_skip, Hdrop by (simpl; lia); reflexivity.
  - rewrite line_feed_match.
    destruct (N.eqb x 10).
    + rewrite remove_matches_skip.
      cbn [List.length].
      rewrite List.skipn_app, List.skipn_all2 by lia.
      replace (S (List.length p) - List.length p)%nat with 1%nat by lia.
      reflexivity.
    + rewrite remove_matches_skip, Hdrop by (simpl; lia); reflexivity.
Qed.

Lemma fence_not_nil : fence <> [].
Proof. discriminate. Qed.

Lemma json_fence_not_nil : json_fence <> [].
Proof. discriminate. Qed.

(** A match of the longer wrapper is a match of the shorter one. *)
Lemma starts_with_json_fence (t : jsstring) :
  starts_with fence t = None -> starts_with json_fence t = None.
Proof.
  intros H.
  destruct (starts_with json_fence t) as [r|] eqn:E; [|reflexivity].
  apply starts_with_app in E; subst t.
  discriminate H.
Qed.

(** The scan only ever gives a backtick it was given. *)
Lemma remove_fence_head (c : char16) (x s : jsstring) :
  remove_matches fence 0 s = c :: x -> c = 96%N -> exists y, s = 96%N :: y.
Proof.
  intros H ->.
  destruct s as [|d s]; [discriminate H|].
  rewrite (remove_matches_step fence d s fence_not_nil) in H.
  destruct (starts_with fence (d :: s)) as [r|] eqn:E.
  - apply starts_with_app in E; injection E as -> _; eauto.
  - injection H as -> _; eauto.
Qed.

Lemma remove_fence_head2 (x s : jsstring) :
  remove_matches fence 0 s = 96%N :: 96%N :: x -> exists y, s = 96%N :: 96%N :: y.
Proof.
  intros H.
  destruct s as [|d s]; [discriminate H|].
  rewrite (remove_matches_step fence d s fence_not_nil) in H.
  destruct (starts_with fence (d :: s)) as [r|] eqn:E.
  - apply starts_with_app in E; injection E as -> ->; eauto.
  - injection H as -> H.
    destruct (remove_fence_head 96%N x s H eq_refl) as [y ->]; eauto.
Qed.

Lemma fence_free_no_occurrence (t : jsstring) :
  fence_free t = true <-> ~ occurs fence t.
Proof.
  induction t as [|c t IH].
  - split; [|reflexivity].
    intros _ (a & b & E).
    destruct a; discriminate E.
  - cbn [fence_free].
    destruct (starts_with fence (c :: t)) as [r|] eqn:E.
    + split; [discriminate|].
      intros H; elim H.
      apply starts_with_app in E.
      exists [], r; exact E.
    + rewrite IH; split; intros H (a & b & Eab); apply H.
      * destruct a as [|a0 a].
        -- assert (starts_with fence (c :: t) = Some b) as C
             by (apply starts_with_app; exact Eab).
           congruence.
        -- injection Eab as _ ->; exists a, b; reflexivity.
      * exists (c :: a), b; now rewrite Eab.
Qed.

Lemma remove_fence_free_bounded (n : nat) :
  forall s, (List.length s <= n)%nat -> fence_free (remove_matches fence 0 s) = true.
Proof.
  induction n as [|n IH]; intros [|c s] Hlen; try reflexivity; [simpl in Hlen; lia|].
  simpl in Hlen.
  rewrite (remove_matches_step fence c s fence_not_nil).
  destruct (starts_with fence (c :: s)) as [r|] eqn:E.
  - apply IH.
    apply starts_with_app in E; injection E as _ ->.
    simpl in Hlen.
    destruct r as [|x r]; [simpl; lia|].
    unfold after_match; destruct (N.eqb x 10); simpl in *; lia.
  - cbn [fence_free].
    destruct (starts_with fence (c :: remove_matches fence 0 s)) as [r|] eqn:E'.
    + exfalso.
      apply starts_with_app in E'.
      change fence with [96; 96; 96]%N in E'; injection E' as -> Eu.
      destruct (remove_fence_head2 r s Eu) as [y ->].
      change fence with [96; 96; 96]%N in E; simpl in E; discriminate E.
    + apply IH; lia.
Qed.

Lemma remove_fence_free (s : jsstring) :
  fence_free (remove_matches fence 0 s) = true.
Proof. now apply remove_fence_free_bounded with (List.length s). Qed.

(** On a text with no wrapper the scans change nothing. *)
Lemma remove_matches_nothing (p t : jsstring) :
  p <> [] ->
  (forall u, starts_with fence u = None -> starts_with p u = None) ->
  fence_free t = true ->
  remove_matches p 0 t = t.
Proof.
  intros Hp Hsub; induction t as [|c t IH]; [reflexivity|].
  cbn [fence_free].
  destruct (starts_with fence (c :: t)) eqn:E; [discriminate|].
  intros Hfree.
  rewrite (remove_matches_step p c t Hp), (Hsub _ E), IH by assumption.
  reflexivity.
Qed.

(** *** Trimming *)

Lemma trim_start_suffix (t : jsstring) : exists a, t = a ++ trim_start t.
Proof.
  induction t as [|c t [a IH]]; [now exists []|].
  cbn [trim_start]; destruct (is_space c).
  - exists (c :: a); now rewrite IH at 1.
  - now exists [].
Qed.

Lemma trim_start_head (t u : jsstring) (c : char16) :
  trim_start t = c :: u -> is_space c = false.
Proof.
  induction t as [|d t IH]; [discriminate|].
  cbn [trim_start]; destruct (is_space d) eqn:E; [exact IH|].
  intros H; now injection H as <- _.
Qed.

Lemma trim_start_keeps (t : jsstring) (c : char16) :
  is_space c = false -> trim_start (c :: t) = c :: t.
Proof. intros E; cbn [trim_start]; now rewrite E. Qed.

Lemma trim_start_twice (t : jsstring) : trim_start (trim_start t) = trim_start t.
Proof.
  destruct (trim_start t) as [|c u] eqn:E; [reflexivity|].
  apply trim_start_keeps, (trim_start_head t u c E).
Qed.

Lemma trim_infix (t : jsstring) : exists a b, t = a ++ trim t ++ b.
Proof.
  unfold trim.
  destruct (trim_start_suffix t) as [a Ha].
  destruct (trim_start_suffix (List.rev (trim_start t))) as [b Hb].
  exists a, (List.rev b).
  rewrite <- List.rev_app_distr, <- Hb, List.rev_involutive.
  exact Ha.
Qed.

Lemma trim_is_trimmed (t : jsstring) : trimmed (trim t).
Proof.
  unfold trimmed, trim.
  rewrite List.rev_involutive, trim_start_twice.
  split; [|reflexivity].
  destruct (trim_start_suffix (List.rev (trim_start t))) as [a Ha].
  destruct (List.rev (trim_start (List.rev (trim_start t)))) as [|d w] eqn:Ev;
    [reflexivity|].
  apply trim_start_keeps.
  apply (f_equal (@List.rev char16)) in Ha.
  rewrite List.rev_involutive, List.rev_app_distr, Ev in Ha.
  simpl in Ha.
  exact (trim_start_head t _ d Ha).
Qed.

Lemma trim_of_trimmed (t : jsstring) : trimmed t -> trim t = t.
Proof.
  intros [H1 H2]; unfold trim.
  now rewrite H1, H2, List.rev_involutive.
Qed.

(** A white space at the end goes with the rest of them. *)
Lemma trim_start_app_space (t : jsstring) (w : char16) :
  is_space w = true ->
  trim_start (List.rev (t ++ [w])) = trim_start (List.rev t).
Proof.
  intros Hw; rewrite List.rev_app_distr; cbn [List.rev List.app trim_start].
  now rewrite Hw.
Qed.

Lemma trim_start_app (t u : jsstring) :
  trim_start t <> [] -> trim_start (t ++ u) = trim_start t ++ u.
Proof.
  induction t as [|c t IH]; [intros H; now elim H|].
  cbn [trim_start List.app]; destruct (is_space c); [exact IH | reflexivity].
Qed.

Lemma trim_start_all_space (t u : jsstring) :
  trim_start t = [] -> trim_start (t ++ u) = trim_start u.
Proof.
  induction t as [|c t IH]; [reflexivity|].
  cbn [trim_start List.app]; destruct (is_space c); [exact IH | discriminate].
Qed.

Lemma trim_app_space (t : jsstring) (w : char16) :
  is_space w = true -> trim (t ++ [w]) = trim t.
Proof.
  intros Hw; unfold trim.
  destruct (trim_start t) as [|c u] eqn:E.
  - rewrite (trim_start_all_space t [w] E).
    cbn [trim_start]; now rewrite Hw.
  - rewrite trim_start_app by (rewrite E; discriminate).
    rewrite E.
    now rewrite (trim_start_app_space (c :: u) w Hw).
Qed.

(** *** Text with no backtick *)

Lemma remove_matches_plain (p body rest : jsstring) :
  (exists q, p = 96%N :: q) ->
  no_backtick body ->
  remove_matches p 0 (body ++ rest) = body ++ remove_matches p 0 rest.
Proof.
  intros [q ->] Hbody; induction Hbody as [|c body Hc _ IH]; [reflexivity|].
  cbn [List.app].
  rewrite remove_matches_step by discriminate.
  cbn [starts_with].
  destruct (N.eqb_spec 96 c) as [<-|_]; [now elim Hc|].
  now rewrite IH.
Qed.

Lemma no_backtick_fence_free (t : jsstring) : no_backtick t -> fence_free t = true.
Proof.
  induction 1 as [|c t Hc _ IH]; [reflexivity|].
  cbn [fence_free]; change fence with [96; 96; 96]%N; cbn [starts_with].
  destruct (N.eqb_spec 96 c) as [<-|_]; [now elim Hc | exact IH].
Qed.

End CleanFacts.

Lemma cleaned_text_has_no_fence_aux (s : jsstring) :
  fence_free (clean_response s) = true /\ trimmed (clean_response s).
Proof.
  split; [|apply CleanFacts.trim_is_trimmed].
  apply CleanFacts.fence_free_no_occurrence.
  unfold clean_response.
  destruct (CleanFacts.trim_infix
              (JsString.replace_fence (js "```")
                 (JsString.replace_fence (js "```json") s))) as (a & b & E).
  intros (x & y & Hocc).
  assert (occurs fence
            (JsString.replace_fence (js "```")
               (JsString.replace_fence (js "```json") s))) as C.
  { exists (a ++ x), (y ++ b).
    rewrite E, Hocc, !List.app_assoc; reflexivity. }
  revert C; apply CleanFacts.fence_free_no_occurrence.
  apply CleanFacts.remove_fence_free.
Qed.

(** X1. Whatever the service wrote, the cleaned text holds no code fence
    and has no white space at either end. *)
Theorem cleaned_text_has_no_fence (s : jsstring) :
  ~ occurs fence (clean_response s) /\ trimmed (clean_response s).
Proof.
  destruct (cleaned_text_has_no_fence_aux s) as [Hfree Htrim].
  split; [|exact Htrim].
  now apply CleanFacts.fence_free_no_occurrence.
Qed.

(** X2. Cleaning twice is cleaning once. *)
Theorem cleaning_is_idempotent (s : jsstring) :
  clean_response (clean_response s) = clean_response s.
Proof.
  destruct (cleaned_text_has_no_fence_aux s) as [Hfree Htrim].
  unfold clean_response at 1.
  change (JsString.replace_fence (js "```json") (clean_response s))
    with (JsString.remove_matches json_fence 0 (clean_response s)).
  rewrite (CleanFacts.remove_matches_nothing json_fence (clean_response s)
             CleanFacts.json_fence_not_nil CleanFacts.starts_with_json_fence Hfree).
  change (JsString.replace_fence (js "```") (clean_response s))
    with (JsString.remove_matches fence 0 (clean_response s)).
  rewrite (CleanFacts.remove_matches_nothing fence (clean_response s)
             CleanFacts.fence_not_nil (fun u H => H) Hfree).
  now apply CleanFacts.trim_of_trimmed.
Qed.

Lemma remove_whole_match (p r : jsstring) :
  p <> [] ->
  JsString.remove_matches p 0 (p ++ r)
  = JsString.remove_matches p 0 (after_match r).
Proof.
  intros Hp.
  destruct p as [|a p]; [now elim Hp|].
  cbn [List.app].
  rewrite CleanFacts.remove_matches_step by discriminate.
  assert (JsString.starts_with (a :: p) (a :: p ++ r) = Some r) as ->
    by (apply CleanFacts.starts_with_app; reflexivity).
  reflexivity.
Qed.

(** X3. A reply wrapped in a json fence, or in a bare one, cleans to what
    its body alone cleans to, which is the body without the white space at
    its ends (for a body that holds no backtick). *)
Theorem fenced_reply_cleans_to_its_body (body : jsstring) :
  no_backtick body ->
  clean_response (js "```json" ++ nl ++ body ++ nl ++ js "```") = JsString.trim body
  /\ clean_response (js "```" ++ nl ++ body ++ nl ++ js "```") = JsString.trim body
  /\ clean_response body = JsString.trim body.
Proof.
  intros Hbody.
  assert (forall p, (exists q, p = 96%N :: q) ->
            JsString.remove_matches p 0 (body ++ nl ++ fence)
            = body ++ JsString.remove_matches p 0 (nl ++ fence)) as Hplain
    by (intros p Hp; now apply CleanFacts.remove_matches_plain).
  assert (is_lf : JsString.is_space 10%N = true) by reflexivity.
  unfold clean_response.
  change (JsString.replace_fence (js "```json"))
    with (JsString.remove_matches json_fence 0).
  change (JsString.replace_fence (js "```")) with (JsString.remove_matches fence 0).
  change (js "```json") with json_fence; change (js "```") with fence.
  split; [|split].
  - change (json_fence ++ nl ++ body ++ nl ++ fence)
      with (json_fence ++ 10%N :: (body ++ nl ++ fence)).
    rewrite (remove_whole_match json_fence _ CleanFacts.json_fence_not_nil).
    cbn [after_match N.eqb Pos.eqb].
    rewrite (Hplain json_fence) by (now eexists).
    change (JsString.remove_matches json_fence 0 (nl ++ fence)) with (nl ++ fence).
    rewrite (Hplain fence) by (now eexists).
    change (JsString.remove_matches fence 0 (nl ++ fence)) with nl.
    now apply CleanFacts.trim_app_space.
  - change (fence ++ nl ++ body ++ nl ++ fence)
      with ([96; 96; 96; 10]%N ++ (body ++ nl ++ fence)).
    assert (JsString.remove_matches json_fence 0
              ([96; 96; 96; 10]%N ++ body ++ nl ++ fence)
            = [96; 96; 96; 10]%N ++ body ++ nl ++ fence) as ->.
    { change (JsString.remove_matches json_fence 0
                ([96; 96; 96; 10]%N ++ body ++ nl ++ fence))
        with ([96; 96; 96; 10]%N
              ++ JsString.remove_matches json_fence 0 (body ++ nl ++ fence)).
      rewrite (Hplain json_fence) by (now eexists).
      reflexivity. }
    change ([96; 96; 96; 10]%N ++ body ++ nl ++ fence)
      with (fence ++ 10%N :: (body ++ nl ++ fence)).
    rewrite (remove_whole_match fence _ CleanFacts.fence_not_nil).
    cbn [after_match N.eqb Pos.eqb].
    rewrite (Hplain fence) by (now eexists).
    change (JsString.remove_matches fence 0 (nl ++ fence)) with nl.
    now apply CleanFacts.trim_app_space.
  - pose proof (CleanFacts.no_backtick_fence_free body Hbody) as Hfree.
    rewrite (CleanFacts.remove_matches_nothing json_fence body
               CleanFacts.json_fence_not_nil CleanFacts.starts_with_json_fence Hfree).
    now rewrite (CleanFacts.remove_matches_nothing fence body
                   CleanFacts.fence_not_nil (fun u H => H) Hfree).
Qed.

Lemma fenced_reply_cleans_to_its_body_witness :
  clean_response (Scenario.fenced (Scenario.text_of Scenario.stain_reply))
  = Scenario.text_of Scenario.stain_reply.
Proof.
  destruct (fenced_reply_cleans_to_its_body (Scenario.text_of Scenario.stain_reply))
    as (H & _).
  - vm_compute; repeat constructor; discriminate.
  - exact H.
Defined.

(** ** Further runs of the pipeline *)

Lemma response_text_without_candidates (data : jsval) :
  opt_named data (js "candidates") = None
  \/ opt_named data (js "candidates") = Some (JArr [])
  \/ opt_named data (js "candidates") = Some JNull ->
  response_text data = None.
Proof.
  unfold response_text; intros [-> | [-> | ->]]; reflexivity.
Qed.

(** X4. When the service answers without a text to read (no candidates,
    an empty list of them, or a text that is falsy), the image is passed
    through after the one request, and the renderer is not entered. *)
Theorem answer_without_text_passes_through
  (h : Host) (env : Env) (buf : buffer) (end1 end2 : option number) (data : jsval) :
  buf <> [] ->
  key_absent env = false ->
  axios_post h (build_request h env (Base64.encode buf) end1 end2) = Some data ->
  opt_named data (js "candidates") = None
  \/ opt_named data (js "candidates") = Some (JArr [])
  \/ opt_named data (js "candidates") = Some JNull
  \/ truthy (response_text data) = false ->
  analyzeWithGemini h env (Some buf) end1 end2
  = ([EvPost (build_request h env (Base64.encode buf) end1 end2)],
     Return (Base64.encode buf)).
Proof.
  intros Hbuf Hkey Hpost Hdata.
  assert (truthy (response_text data) = false) as Htext.
  { destruct Hdata as [H | [H | [H | H]]]; [| | |exact H];
      rewrite response_text_without_candidates; auto. }
  apply M_eq.
  - rewrite analyze_trace by assumption.
    now rewrite (analyze_try_no_text h env buf end1 end2 data Hpost Htext).
  - rewrite analyze_outcome_absorbs by assumption.
    now rewrite (analyze_try_no_text h env buf end1 end2 data Hpost Htext).
Qed.

Lemma answer_without_text_passes_through_witness :
  analyzeWithGemini
    (Scenario.host Scenario.table (Some (Some (JObj [(js "candidates", JArr [])]))) true)
    Scenario.env (Some Scenario.picture) None None
  = ([EvPost (build_request
                (Scenario.host Scenario.table
                   (Some (Some (JObj [(js "candidates", JArr [])]))) true)
                Scenario.env (js "iVBO") None None)],
     Return (js "iVBO")).
Proof.
  apply (answer_without_text_passes_through
           (Scenario.host Scenario.table
              (Some (Some (JObj [(js "candidates", JArr [])]))) true)
           Scenario.env Scenario.picture None None
           (Some (JObj [(js "candidates", JArr [])]))).
  - discriminate.
  - reflexivity.
  - reflexivity.
  - right; left; reflexivity.
Defined.

(** X5. One [null] among the entries of [leaks] is enough for the image to
    be passed through unannotated, whatever the other entries are: the
    callback of the filter raises on it and the handler absorbs that. *)
Theorem null_entry_discards_every_detection
  (h : Host) (env : Env) (buf : buffer) (end1 end2 : option number)
  (data : jsval) (t : jsstring) (leakData : json) (items : list json) :
  buf <> [] ->
  key_absent env = false ->
  axios_post h (build_request h env (Base64.encode buf) end1 end2) = Some data ->
  response_text data = Some (JStr t) ->
  JSON_parse h (clean_response t) = Some leakData ->
  get_named leakData (js "leaks") = Some (JArr items) ->
  List.In JNull items ->
  highConfidenceLeaks leakData = Throw TypeError
  /\ analyzeWithGemini h env (Some buf) end1 end2
     = ([EvPost (build_request h env (Base64.encode buf) end1 end2)],
        Return (Base64.encode buf)).
Proof.
  intros Hbuf Hkey Hpost Htext Hparse Hleaks Hnull.
  assert (highConfidenceLeaks leakData = Throw TypeError) as Hhigh.
  { unfold highConfidenceLeaks, prop.
    destruct leakData; try discriminate Hleaks.
    cbn [Res.bind]; rewrite Hleaks.
    now apply array_filter_with_null. }
  split; [exact Hhigh|].
  destruct t as [|c t'].
  - apply M_eq.
    + rewrite analyze_trace by assumption.
      rewrite (analyze_try_no_text h env buf end1 end2 data Hpost)
        by (rewrite Htext; reflexivity).
      reflexivity.
    + rewrite analyze_outcome_absorbs by assumption.
      rewrite (analyze_try_no_text h env buf end1 end2 data Hpost)
        by (rewrite Htext; reflexivity).
      reflexivity.
  - apply M_eq.
    + rewrite analyze_trace by assumption.
      rewrite (analyze_try_parsed h env buf end1 end2 data (c :: t') leakData)
        by (assumption || discriminate).
      rewrite Hhigh; reflexivity.
    + rewrite analyze_outcome_absorbs by assumption.
      rewrite (analyze_try_parsed h env buf end1 end2 data (c :: t') leakData)
        by (assumption || discriminate).
      rewrite Hhigh; reflexivity.
Qed.

Lemma null_entry_discards_every_detection_witness :
  analyzeWithGemini (host_knowing stain_and_null true) Scenario.env
    (Some Scenario.picture) None None
  = ([EvPost (build_request (host_knowing stain_and_null true) Scenario.env
                (js "iVBO") None None)],
     Return (js "iVBO")).
Proof.
  destruct (null_entry_discards_every_detection
              (host_knowing stain_and_null true) Scenario.env Scenario.picture
              None None
              (Scenario.reply_with
                 (JStr (Scenario.fenced (Scenario.text_of stain_and_null))))
              (Scenario.fenced (Scenario.text_of stain_and_null))
              stain_and_null [Scenario.stain; JNull])
    as (_ & Hrun).
  - discriminate.
  - reflexivity.
  - reflexivity.
  - reflexivity.
  - reflexivity.
  - reflexivity.
  - right; left; reflexivity.
  - exact Hrun.
Defined.

(** The host calls of the renderer: it is entered, and composites at most
    once. *)
Lemma drawLeakAnnotations_trace (h : Host) (image : buffer) (leaks : list json) :
  trace (drawLeakAnnotations h image leaks) = [EvRender image leaks]
  \/ exists metadata marks,
       sharp_metadata h image = Some metadata
       /\ leak_marks h leaks = Return marks
       /\ trace (drawLeakAnnotations h image leaks)
          = [EvRender image leaks; EvComposite image (Svg.overlay metadata marks)].
Proof.
  unfold drawLeakAnnotations; run_step.
  destruct (sharp_metadata h image) as [metadata|]; run_step; [|now left].
  destruct (leak_marks h leaks) as [marks|]; run_step; [|now left].
  right; exists metadata, marks.
  repeat split.
  destruct (sharp_composite_jpeg h image (Svg.overlay metadata marks)); reflexivity.
Qed.

(** X6. A call makes its host calls in one fixed order and never twice:
    nothing at all, or one request, then possibly one entry into the
    renderer with a list that is not empty, then possibly one composite.
    In particular the request is never retried. *)
Theorem host_calls_in_order
  (h : Host) (env : Env) (image : option buffer) (end1 end2 : option number) :
  trace (analyzeWithGemini h env image end1 end2) = []
  \/ exists buf : buffer,
       image = Some buf
       /\ let request := build_request h env (Base64.encode buf) end1 end2 in
          trace (analyzeWithGemini h env image end1 end2) = [EvPost request]
          \/ exists high : list json,
               high <> []
               /\ (trace (analyzeWithGemini h env image end1 end2)
                   = [EvPost request; EvRender buf high]
                   \/ exists svg : jsstring,
                        trace (analyzeWithGemini h env image end1 end2)
                        = [EvPost request; EvRender buf high; EvComposite buf svg]).
Proof.
  destruct image as [buf|]; [|now left].
  destruct (list_eq_dec Byte.byte_eq_dec buf []) as [->|Hbuf]; [now left|].
  destruct (key_absent env) eqn:Hkey.
  { left; now rewrite (analyze_no_key h env buf end1 end2 Hbuf Hkey). }
  right; exists buf; split; [reflexivity|]; cbv zeta.
  rewrite analyze_trace by assumption.
  unfold analyze_try; run_step.
  destruct (axios_post h _) as [data|]; run_step; [|now left].
  destruct (truthy (response_text data)); run_step; [|now left].
  destruct (cleaned (response_text data)) as [clean|]; run_step; [|now left].
  destruct (JSON_parse h clean) as [leakData|]; run_step; [|now left].
  destruct (highConfidenceLeaks leakData) as [[|leak high]|]; run_step;
    [now left | | now left].
  destruct (log_leaks h (leak :: high)); run_step; [|now left].
  right; exists (leak :: high); split; [discriminate|].
  rewrite drawLeakAnnotations_outcome; run_step.
  destruct (drawLeakAnnotations_trace h buf (leak :: high))
    as [-> | (metadata & marks & _ & _ & ->)].
  - now left.
  - right; eexists; reflexivity.
Qed.

(** X7. The readings reach the result through the request alone, and the
    request through its instruction text alone. Two calls on the same
    picture send requests with the same address, the same image and the
    same declared type; their instruction texts are the same words around
    the two pressure contexts, so the requests are equal exactly when the
    contexts are. When the service answers the two requests alike, the
    calls go on alike and end alike, whatever the readings were. *)
Theorem readings_act_through_the_request_only
  (h : Host) (env : Env) (image : option buffer)
  (end1 end2 end1' end2' : option number) :
  (forall buf, image = Some buf ->
     axios_post h (build_request h env (Base64.encode buf) end1 end2)
     = axios_post h (build_request h env (Base64.encode buf) end1' end2')) ->
  outcome (analyzeWithGemini h env image end1 end2)
  = outcome (analyzeWithGemini h env image end1' end2')
  /\ forall buf : buffer,
       image = Some buf -> buf <> [] -> key_absent env = false ->
       let request := build_request h env (Base64.encode buf) end1 end2 in
       let request' := build_request h env (Base64.encode buf) end1' end2' in
       (exists rest : list event,
           trace (analyzeWithGemini h env image end1 end2) = EvPost request :: rest
           /\ trace (analyzeWithGemini h env image end1' end2')
              = EvPost request' :: rest)
       /\ req_url request = req_url request'
       /\ req_mime_type request = req_mime_type request'
       /\ req_data request = Base64.encode buf
       /\ req_data request' = Base64.encode buf
       /\ req_text request = prompt_head ++ pressureContext h end1 end2 ++ prompt_tail
       /\ req_text request'
          = prompt_head ++ pressureContext h end1' end2' ++ prompt_tail
       /\ (request = request'
           <-> pressureContext h end1 end2 = pressureContext h end1' end2').
Proof.
  intros Hsame; split.
  - destruct image as [buf|]; [|reflexivity].
    specialize (Hsame buf eq_refl).
    destruct (list_eq_dec Byte.byte_eq_dec buf []) as [->|Hbuf]; [reflexivity|].
    destruct (key_absent env) eqn:Hkey.
    { now rewrite !(analyze_no_key h env buf _ _ Hbuf Hkey). }
    rewrite !analyze_outcome_absorbs by assumption.
    unfold analyze_try; run_step.
    now rewrite Hsame.
  - intros buf -> Hbuf Hkey; cbv zeta.
    specialize (Hsame buf eq_refl).
    split; [|repeat split].
    + rewrite !analyze_trace by assumption.
      unfold analyze_try; run_step.
      rewrite Hsame; eexists; split; reflexivity.
    + unfold build_request, prompt; intros E.
      assert (prompt_head ++ pressureContext h end1 end2 ++ prompt_tail
              = prompt_head ++ pressureContext h end1' end2' ++ prompt_tail) as E'
        by congruence.
      now apply app_inv_head, app_inv_tail in E'.
    + unfold build_request; now intros ->.
Qed.

Lemma readings_act_through_the_request_only_witness :
  outcome (analyzeWithGemini (Scenario.serving Scenario.stain_reply true) Scenario.env
             (Some Scenario.picture) (Some Scenario.psi_20) (Some Scenario.psi_16_5))
  = outcome (analyzeWithGemini (Scenario.serving Scenario.stain_reply true) Scenario.env
               (Some Scenario.picture) None None)
  /\ req_text (build_request (Scenario.serving Scenario.stain_reply true) Scenario.env
                 (Base64.encode Scenario.picture)
                 (Some Scenario.psi_20) (Some Scenario.psi_16_5))
     = prompt_head
       ++ pressureContext (Scenario.serving Scenario.stain_reply true)
            (Some Scenario.psi_20) (Some Scenario.psi_16_5)
       ++ prompt_tail.
Proof.
  destruct (readings_act_through_the_request_only
              (Scenario.serving Scenario.stain_reply true) Scenario.env
              (Some Scenario.picture)
              (Some Scenario.psi_20) (Some Scenario.psi_16_5) None None
              (fun buf _ => eq_refl))
    as (Hout & Hrequests).
  split; [exact Hout|].
  destruct (Hrequests Scenario.picture eq_refl) as (_ & _ & _ & _ & _ & Htext & _).
  - discriminate.
  - reflexivity.
  - exact Htext.
Defined.

(** X8. An address that is not configured is not checked for: with a key
    and a picture the request is still made, to the text [undefined]
    followed by [?key=] and the key. *)
Theorem missing_address_is_still_requested
  (h : Host) (env : Env) (buf : buffer) (end1 end2 : option number) (key : jsstring) :
  buf <> [] ->
  GEMINI_API_KEY env = Some key ->
  key <> [] ->
  GEMINI_API_URL env = None ->
  exists (request : Request) (rest : list event),
    trace (analyzeWithGemini h env (Some buf) end1 end2) = EvPost request :: rest
    /\ req_url request = js "undefined?key=" ++ key.
Proof.
  intros Hbuf Hk Hkey Hurl.
  assert (key_absent env = false) as Habsent.
  { unfold key_absent; rewrite Hk; destruct key; [now elim Hkey | reflexivity]. }
  rewrite analyze_trace by assumption.
  unfold analyze_try; run_step.
  eexists; eexists; split; [reflexivity|].
  cbn [build_request req_url]; unfold request_url.
  now rewrite Hurl, Hk.
Qed.

Lemma missing_address_is_still_requested_witness :
  exists (request : Request) (rest : list event),
    trace (analyzeWithGemini (Scenario.serving Scenario.faint_reply true) no_address
             (Some Scenario.picture) None None)
    = EvPost request :: rest
    /\ req_url request = js "undefined?key=k3y".
Proof.
  apply (missing_address_is_still_requested
           (Scenario.serving Scenario.faint_reply true) no_address Scenario.picture
           None None (js "k3y")).
  - discriminate.
  - reflexivity.
  - discriminate.
  - reflexivity.
Defined.

(** ** The difference of the readings *)

Module DiffFacts.

(** The sign a rounding is given is the only place it shows. *)
Lemma abs_binary_round (s : bool) (m : positive) (e : Z) :
  SFabs (binary_round Num.prec Num.emax s m e)
  = SFabs (binary_round Num.prec Num.emax false m e).
Proof.
  unfold binary_round.
  destruct (shl_align m e _) as [mz ez].
  unfold binary_round_aux.
  destruct (shr_fexp Num.prec Num.emax (Z.pos mz) ez loc_Exact) as [mrs' e'].
  destruct (shr_fexp Num.prec Num.emax _ e' loc_Exact) as [mrs'' e''].
  destruct (shr_m mrs''); try reflexivity.
  destruct (Z.leb e'' _); reflexivity.
Qed.

Lemma abs_binary_normalize_opp (m e : Z) :
  SFabs (binary_normalize Num.prec Num.emax (- m) e false)
  = SFabs (binary_normalize Num.prec Num.emax m e false).
Proof.
  destruct m as [|p|p]; [reflexivity| |]; cbn [Z.opp binary_normalize];
    now rewrite (abs_binary_round true).
Qed.

Lemma abs_sub_comm (a b : number) :
  Num.abs (Num.sub a b) = Num.abs (Num.sub b a).
Proof.
  unfold Num.abs, Num.sub.
  destruct a as [sa|sa| |sa ma ea], b as [sb|sb| |sb mb eb];
    try reflexivity;
    try (destruct sa, sb; reflexivity);
    try (destruct sa; reflexivity); try (destruct sb; reflexivity).
  cbn [SFsub].
  rewrite (Z.min_comm eb ea).
  rewrite <- abs_binary_normalize_opp.
  f_equal; f_equal; lia.
Qed.

Lemma sub_diag_abs (x : number) :
  Num.abs (Num.sub x x) = Num.zero \/ Num.abs (Num.sub x x) = Num.nan.
Proof.
  unfold Num.abs, Num.sub.
  destruct x as [s|s| |s m e].
  - left; destruct s; reflexivity.
  - right; destruct s; reflexivity.
  - right; reflexivity.
  - left; cbn [SFsub].
    rewrite Z.sub_diag; reflexivity.
Qed.

End DiffFacts.

(** X9. The tier does not depend on which end is which: the difference of
    the readings is the same in either order. It is never below zero, and
    two readings that are the same are always normal. *)
Theorem tier_ignores_the_order_of_the_ends (end1 end2 : number) :
  pressureDiff end1 end2 = pressureDiff end2 end1
  /\ pressure_tier (pressureDiff end1 end2) = pressure_tier (pressureDiff end2 end1)
  /\ Num.ltb (pressureDiff end1 end2) Num.zero = false
  /\ pressure_tier (pressureDiff end1 end1) = Normal.
Proof.
  pose proof (DiffFacts.abs_sub_comm end1 end2) as Hcomm.
  unfold pressureDiff.
  split; [exact Hcomm|]. split; [now rewrite Hcomm|]. split.
  - unfold Num.abs, Num.ltb, SFltb.
    destruct (Num.sub end1 end2); reflexivity.
  - destruct (DiffFacts.sub_diag_abs end1) as [-> | ->]; reflexivity.
Qed.

(** ** Labels *)

Module LabelFacts.

Lemma js_inj (s t : string) : js s = js t -> s = t.
Proof.
  unfold js; intros H.
  rewrite <- (string_of_list_ascii_of_string s), <- (string_of_list_ascii_of_string t).
  f_equal.
  revert H; generalize (list_ascii_of_string s) (list_ascii_of_string t).
  induction l as [|a l IH]; intros [|b l'] H; try discriminate H; [reflexivity|].
  injection H as Hab Hl.
  f_equal; [|now apply IH].
  now rewrite <- (ascii_N_embedding a), <- (ascii_N_embedding b), Hab.
Qed.

Lemma to_uint_not_nil (n : N) : N.to_uint n <> Decimal.Nil.
Proof.
  destruct n; [discriminate | apply DecimalPos.Unsigned.to_uint_nonnil].
Qed.

Lemma dec_of_N_inj (n m : N) : dec_of_N n = dec_of_N m -> n = m.
Proof.
  unfold dec_of_N; intros H.
  apply js_inj in H.
  apply DecimalN.Unsigned.to_uint_inj.
  assert (Some (N.to_uint n) = Some (N.to_uint m)) as E.
  { rewrite <- (DecimalString.NilZero.usu (N.to_uint n) (to_uint_not_nil n)),
            <- (DecimalString.NilZero.usu (N.to_uint m) (to_uint_not_nil m)).
    now rewrite H. }
  now injection E.
Qed.

End LabelFacts.

(** X10. No two detections get the same label: the label texts of two
    positions are the same only when the positions are. *)
Theorem labels_are_pairwise_distinct (i j : nat) :
  labelText i = labelText j <-> i = j.
Proof.
  split; [|intros ->; reflexivity].
  unfold labelText, dec_of_nat; intros H.
  apply List.app_inv_head, LabelFacts.dec_of_N_inj in H.
  lia.
Qed.

(** X11. A detection is not checked for a box. One that has no [x], [y],
    [width] and [height] still gets its mark: the rectangle is printed
    with [undefined] for each of the four, and the label is placed from
    [NaN]. *)
Theorem detection_without_a_box_is_still_marked
  (h : Host) (leak : json) (index : nat) :
  leak <> JNull ->
  get_named leak (js "x") = None ->
  get_named leak (js "y") = None ->
  get_named leak (js "width") = None ->
  get_named leak (js "height") = None ->
  is_text_or_missing (get_named leak (js "confidence")) = true ->
  is_text_or_missing (get_named leak (js "description")) = true ->
  leak_mark h leak index
  = Return (assembled (js "undefined") (js "undefined") (js "undefined") (js "undefined")
              (NumberToString h Num.nan) (NumberToString h Num.nan)
              (NumberToString h Num.nan) index).
Proof.
  intros Hleak Hx Hy Hw Hh Hc Hd.
  assert (leak_mark h leak index
          = mark_of_fields h
              (get_named leak (js "x")) (get_named leak (js "y"))
              (get_named leak (js "width")) (get_named leak (js "height"))
              (get_named leak (js "confidence")) (get_named leak (js "description"))
              index) as ->
    by (destruct leak; try reflexivity; now elim Hleak).
  rewrite Hx, Hy, Hw, Hh.
  unfold mark_of_fields.
  destruct (get_named leak (js "confidence")) as [[| | | c | |]|]; try discriminate Hc;
    destruct (get_named leak (js "description")) as [[| | | [|d ds] | |]|];
    try discriminate Hd; reflexivity.
Qed.

Lemma detection_without_a_box_is_still_marked_witness :
  leak_mark (host_knowing boxless_reply true) boxless 0
  = Return (assembled (js "undefined") (js "undefined") (js "undefined") (js "undefined")
              (js "NaN") (js "NaN") (js "NaN") 0)
  /\ outcome (analyzeWithGemini (host_knowing boxless_reply true) Scenario.env
                (Some Scenario.picture) None None)
     = Return (Base64.encode Scenario.annotated_jpeg).
Proof.
  split; [|reflexivity].
  apply (detection_without_a_box_is_still_marked
           (host_knowing boxless_reply true) boxless 0); try reflexivity.
  discriminate.
Defined.

(* ===================================================================== *)
(** * The server                                                          *)
(* ===================================================================== *)

(** ** Readings of any type *)

Lemma analyze_try_from_context (h : Host) (env : Env) (buf : buffer)
  (end1 end2 : option number) :
  analyze_try h env buf end1 end2
  = analyze_from_context h env buf (pressureContext h end1 end2).
Proof. reflexivity. Qed.

Lemma untyped_context_of_readings (h : Host) (end1 end2 : option number) :
  Untyped.pressureContext h (or_null (reading end1)) (or_null (reading end2))
  = Return (pressureContext h end1 end2).
Proof. destruct end1 as [a|], end2 as [b|]; reflexivity. Qed.

Lemma untyped_context_null_l (h : Host) (v : json) :
  Untyped.pressureContext h JNull v = Return [].
Proof. reflexivity. Qed.

Lemma untyped_context_null_r (h : Host) (v : json) :
  Untyped.pressureContext h v JNull = Return [].
Proof. unfold Untyped.pressureContext; now rewrite orb_true_r. Qed.

(** X12. On readings that are numbers or [null] the pipeline on values of
    any type is the pipeline on numbers. A reading left [undefined] acts as
    [null]; and beside a [null] reading the other one, whatever it is, is
    not looked at. *)
Theorem typed_readings_agree (h : Host) (env : Env) (image : option buffer) :
  (forall end1 end2 : option number,
     Untyped.analyzeWithGemini h env image (reading end1) (reading end2)
     = analyzeWithGemini h env image end1 end2)
  /\ (forall a b : jsval,
        Untyped.analyzeWithGemini h env image None b
        = Untyped.analyzeWithGemini h env image (Some JNull) b
        /\ Untyped.analyzeWithGemini h env image a None
           = Untyped.analyzeWithGemini h env image a (Some JNull))
  /\ (forall a : jsval,
        Untyped.analyzeWithGemini h env image (Some JNull) a
        = analyzeWithGemini h env image None None
        /\ Untyped.analyzeWithGemini h env image a (Some JNull)
           = analyzeWithGemini h env image None None).
Proof.
  split; [|split].
  - intros end1 end2.
    unfold Untyped.analyzeWithGemini, analyzeWithGemini.
    destruct image as [[|b buf]|]; try reflexivity.
    destruct (key_absent env); [reflexivity|].
    rewrite untyped_context_of_readings.
    change (Run.lift (Return ?x)) with (Run.ret x).
    now rewrite bind_ret_l, analyze_try_from_context.
  - intros a b; split; reflexivity.
  - intros a; split;
      unfold Untyped.analyzeWithGemini, analyzeWithGemini;
      destruct image as [[|b buf]|]; try reflexivity;
      destruct (key_absent env); try reflexivity;
      cbn [or_null];
      rewrite ?untyped_context_null_l, ?untyped_context_null_r;
      change (Run.lift (Return ?x)) with (Run.ret x);
      now rewrite bind_ret_l, analyze_try_from_context.
Qed.

(** With a picture to work on, the pipeline returns the base64 text of the
    picture or of what the renderer made of it, whatever the readings. *)
Lemma untyped_outcome_cases (h : Host) (env : Env) (buf : buffer)
  (end1 end2 : jsval) :
  buf <> [] ->
  exists picture : buffer,
    outcome (Untyped.analyzeWithGemini h env (Some buf) end1 end2)
    = Return (Base64.encode picture)
    /\ (picture = buf
        \/ exists high : list json, high <> [] /\ picture = drawn h buf high).
Proof.
  intros Hbuf.
  unfold Untyped.analyzeWithGemini.
  destruct buf as [|b0 buf0] eqn:Ebuf; [now elim Hbuf|]; rewrite <- Ebuf.
  destruct (key_absent env); [exists buf; split; [reflexivity | now left]|].
  rewrite outcome_try_catch; run_step.
  destruct (Untyped.pressureContext h (or_null end1) (or_null end2)) as [context|];
    run_step; [|exists buf; split; [reflexivity | now left]].
  unfold analyze_from_context; run_step.
  destruct (axios_post h _) as [data|]; run_step;
    [|exists buf; split; [reflexivity | now left]].
  destruct (truthy (response_text data)); run_step;
    [|exists buf; split; [reflexivity | now left]].
  destruct (cleaned (response_text data)) as [clean|]; run_step;
    [|exists buf; split; [reflexivity | now left]].
  destruct (JSON_parse h clean) as [leakData|]; run_step;
    [|exists buf; split; [reflexivity | now left]].
  destruct (highConfidenceLeaks leakData) as [[|leak high]|]; run_step;
    try (exists buf; split; [reflexivity | now left]).
  destruct (log_leaks h (leak :: high)); run_step;
    [|exists buf; split; [reflexivity | now left]].
  rewrite drawLeakAnnotations_outcome.
  exists (drawn h buf (leak :: high)); split; [reflexivity|].
  right; exists (leak :: high); split; [discriminate | reflexivity].
Qed.

Lemma untyped_without_picture (h : Host) (env : Env) (end1 end2 : jsval) :
  Untyped.analyzeWithGemini h env (Some []) end1 end2 = ([], Throw InputError).
Proof. reflexivity. Qed.

(** ** Handler bodies *)

Lemma answer_bind {A B} (m : Served A) (f : A -> Served B) :
  answer (Srv.bind m f)
  = match answer m with
    | inl a => answer (f a)
    | inr e => inr e
    end.
Proof.
  destruct m as [t [a|e]]; [|reflexivity].
  unfold Srv.bind, answer; simpl. now destruct (f a).
Qed.

Lemma done_bind {A B} (m : Served A) (f : A -> Served B) :
  done (Srv.bind m f)
  = done m ++ match answer m with
              | inl a => done (f a)
              | inr _ => []
              end.
Proof.
  destruct m as [t [a|e]]; unfold Srv.bind, done, answer; simpl.
  - now destruct (f a).
  - now rewrite app_nil_r.
Qed.

Lemma answer_try_catch {A} (m : Served A) (handler : error -> Served A) :
  answer (Srv.try_catch m handler)
  = match answer m with
    | inl a => inl a
    | inr e => answer (handler e)
    end.
Proof.
  destruct m as [t [a|e]]; [reflexivity|].
  unfold Srv.try_catch, answer; simpl. now destruct (handler e).
Qed.

Lemma done_try_catch {A} (m : Served A) (handler : error -> Served A) :
  done (Srv.try_catch m handler)
  = done m ++ match answer m with
              | inl _ => []
              | inr e => done (handler e)
              end.
Proof.
  destruct m as [t [a|e]]; unfold Srv.try_catch, done, answer; simpl.
  - now rewrite app_nil_r.
  - now destruct (handler e).
Qed.

Lemma Served_eq {A} (m : Served A) (t : list action) (r : A + error) :
  done m = t -> answer m = r -> m = (t, r).
Proof. destruct m; unfold done, answer; simpl; congruence. Qed.

Lemma answer_lift {A} (r : result A) :
  answer (Srv.lift r)
  = match r with Return a => inl a | Throw e => inr (Raised e) end.
Proof. now destruct r. Qed.

Lemma done_lift {A} (r : result A) : done (Srv.lift r) = [].
Proof. now destruct r. Qed.

Lemma answer_run {A} (m : M A) :
  answer (Srv.run m)
  = match outcome m with Return a => inl a | Throw e => inr (Raised e) end.
Proof. reflexivity. Qed.

Lemma done_run {A} (m : M A) : done (Srv.run m) = List.map Pipeline (trace m).
Proof. reflexivity. Qed.

Lemma answer_ret {A} (a : A) : answer (Srv.ret a) = inl a.
Proof. reflexivity. Qed.

Lemma done_ret {A} (a : A) : done (Srv.ret a) = [].
Proof. reflexivity. Qed.

Lemma answer_throw {A} (e : error) : answer (@Srv.throw A e) = inr e.
Proof. reflexivity. Qed.

Lemma done_throw {A} (e : error) : done (@Srv.throw A e) = [].
Proof. reflexivity. Qed.

Lemma answer_emit (a : action) : answer (Srv.emit a) = inl tt.
Proof. reflexivity. Qed.

Lemma done_emit (a : action) : done (Srv.emit a) = [a].
Proof. reflexivity. Qed.

Lemma answer_broadcast (srv : Server) (clients : list N) (data : json) :
  answer (broadcast srv clients data) = inl tt.
Proof. reflexivity. Qed.

Lemma done_broadcast (srv : Server) (clients : list N) (data : json) :
  done (broadcast srv clients data)
  = send_each srv (JSON_stringify srv data) clients.
Proof. reflexivity. Qed.

Lemma answer_pair {A} (t : list action) (r : A + error) : answer (t, r) = r.
Proof. reflexivity. Qed.

Lemma done_pair {A} (t : list action) (r : A + error) : done (t, r) = t.
Proof. reflexivity. Qed.

(** One step of a handler. *)
Ltac srv_step :=
  repeat
    (rewrite ?answer_bind, ?done_bind, ?answer_try_catch, ?done_try_catch,
       ?answer_lift, ?done_lift, ?answer_run, ?done_run,
       ?answer_ret, ?done_ret, ?answer_throw, ?done_throw,
       ?answer_emit, ?done_emit, ?answer_broadcast, ?done_broadcast,
       ?answer_pair, ?done_pair, ?app_nil_r;
     cbv beta iota zeta; cbn [negb orb andb app]).

Lemma prop_of_body (req : Req) (name : string) :
  is_nullish (body req) = false ->
  prop (body req) (js name) = Return (asked req name).
Proof.
  unfold asked; destruct (body req) as [[| | | | |]|]; try discriminate; reflexivity.
Qed.

Lemma prop_without_body (req : Req) (name : jsstring) :
  is_nullish (body req) = true -> prop (body req) name = Throw TypeError.
Proof.
  destruct (body req) as [[| | | | |]|]; try discriminate; reflexivity.
Qed.

Lemma send_each_open (srv : Server) (message : jsstring) (clients : list N) :
  send_each srv message clients
  = List.map (fun ws => Send ws message) (open_clients srv clients).
Proof.
  induction clients as [|ws clients IH]; [reflexivity|].
  unfold open_clients in *; simpl.
  destruct (N.eqb (readyState srv ws) OPEN); simpl; now rewrite IH.
Qed.

Lemma analyze_leak_image_run (srv : Server) (req : Req) :
  analyze_leak_image srv req
  = (reads req,
     match image_of srv req with
     | Some image => inl image
     | None => inr ReadFailed
     end).
Proof.
  unfold analyze_leak_image, reads, image_of.
  destruct (file req); [reflexivity|].
  now destruct (fs_readFileSync srv test_image).
Qed.

(** The [try] of the analysis endpoint, once the three names are read. *)
Lemma analyze_leak_try_run (srv : Server) (h : Host) (env : Env)
  (clients : list N) (req : Req) :
  is_nullish (body req) = false ->
  analyze_leak_try srv h env clients req
  = match image_of srv req with
    | None => (reads req, inr ReadFailed)
    | Some image =>
        if complete req then
          (reads req
           ++ done (analyze_leak_deliver srv h env clients image
                      (asked req "end1Pressure") (asked req "end2Pressure")
                      (asked req "userEmail")),
           answer (analyze_leak_deliver srv h env clients image
                     (asked req "end1Pressure") (asked req "end2Pressure")
                     (asked req "userEmail")))
        else (reads req, inl refused)
    end.
Proof.
  intros Hbody; unfold analyze_leak_try.
  rewrite !(prop_of_body req _ Hbody), analyze_leak_image_run.
  unfold complete.
  destruct (image_of srv req) as [image|];
    [|apply Served_eq; srv_step; reflexivity].
  destruct (truthy (asked req "end1Pressure")) eqn:E1,
           (truthy (asked req "end2Pressure")) eqn:E2,
           (truthy (asked req "userEmail")) eqn:E3;
    cbn [andb]; apply Served_eq; srv_step; rewrite ?E1, ?E2, ?E3; srv_step;
    reflexivity.
Qed.

Lemma analyze_leak_deliver_no_picture (srv : Server) (h : Host) (env : Env)
  (clients : list N) (end1 end2 email : jsval) :
  analyze_leak_deliver srv h env clients [] end1 end2 email
  = ([], inr (Raised InputError)).
Proof. reflexivity. Qed.

(** What follows the check of line 57, for a picture that is not empty. *)
Lemma analyze_leak_deliver_run (srv : Server) (h : Host) (env : Env)
  (clients : list N) (image : buffer) (end1 end2 email : jsval)
  (text : jsstring) :
  outcome (Untyped.analyzeWithGemini h env (Some image) end1 end2) = Return text ->
  analyze_leak_deliver srv h env clients image end1 end2 email
  = (List.map Pipeline (trace (Untyped.analyzeWithGemini h env (Some image) end1 end2))
     ++ told srv clients (gemini_update srv text end1 end2)
     ++ match interpolate h end1, interpolate h end2 with
        | Return s1, Return s2 => [SendMail (analysis_mail srv text s1 s2 email)]
        | _, _ => []
        end,
     match interpolate h end1, interpolate h end2 with
     | Return s1, Return s2 =>
         if transporter_sendMail srv (analysis_mail srv text s1 s2 email)
         then inl accepted
         else inr MailFailed
     | Throw e, _ => inr (Raised e)
     | Return _, Throw e => inr (Raised e)
     end).
Proof.
  intros Hrun; unfold analyze_leak_deliver, told.
  apply Served_eq; srv_step; rewrite Hrun; srv_step;
    rewrite <- ?send_each_open;
    destruct (interpolate h end1) as [s1|e1]; srv_step; try reflexivity;
    destruct (interpolate h end2) as [s2|e2]; srv_step; try reflexivity;
    destruct (transporter_sendMail srv _); reflexivity.
Qed.

Lemma analyze_leak_run (srv : Server) (h : Host) (env : Env)
  (clients : list N) (req : Req) :
  analyze_leak srv h env clients req
  = (done (analyze_leak_try srv h env clients req),
     match answer (analyze_leak_try srv h env clients req) with
     | inl r => inl r
     | inr err => inl (failed (message_of srv err))
     end).
Proof.
  unfold analyze_leak; apply Served_eq; srv_step;
    destruct (answer (analyze_leak_try srv h env clients req));
    srv_step; reflexivity.
Qed.

(** X13. A request that lacks a reading or the address, or holds a falsy
    one (the number zero, the empty text), is answered 400; nothing is
    analysed, told or mailed. The picture has been fetched all the same:
    without an upload the test image is read before the check. *)
Theorem incomplete_request_is_refused
  (srv : Server) (h : Host) (env : Env) (clients : list N) (req : Req)
  (image : buffer) :
  is_nullish (body req) = false ->
  complete req = false ->
  image_of srv req = Some image ->
  analyze_leak srv h env clients req = (reads req, inl refused).
Proof.
  intros Hbody Hcomplete Himage.
  rewrite analyze_leak_run, (analyze_leak_try_run srv h env clients req Hbody).
  now rewrite Himage, Hcomplete.
Qed.

Lemma incomplete_request_is_refused_witness :
  analyze_leak (Office.server true true)
    (Scenario.serving Scenario.stain_reply true) Scenario.env Office.sockets
    Office.zero_reading
  = ([Read test_image], inl refused).
Proof.
  exact (incomplete_request_is_refused (Office.server true true)
           (Scenario.serving Scenario.stain_reply true) Scenario.env
           Office.sockets Office.zero_reading Scenario.picture
           eq_refl eq_refl eq_refl).
Defined.

(** X14. Without an upload and with a test image that cannot be read, no
    request is looked at: complete or not, it is answered 500 with the
    text of the read error. *)
Theorem unreadable_test_image_fails_every_request
  (srv : Server) (h : Host) (env : Env) (clients : list N) (req : Req) :
  is_nullish (body req) = false ->
  file req = None ->
  fs_readFileSync srv test_image = None ->
  analyze_leak srv h env clients req
  = ([Read test_image], inl (failed (host_message srv ReadFailed))).
Proof.
  intros Hbody Hfile Hread.
  rewrite analyze_leak_run, (analyze_leak_try_run srv h env clients req Hbody).
  unfold image_of, reads; now rewrite Hfile, Hread.
Qed.

Lemma unreadable_test_image_fails_every_request_witness :
  analyze_leak (Office.server false true)
    (Scenario.serving Scenario.stain_reply true) Scenario.env Office.sockets
    (Office.filled None)
  = ([Read test_image], inl (failed (js "ENOENT: no such file or directory"))).
Proof.
  exact (unreadable_test_image_fails_every_request (Office.server false true)
           (Scenario.serving Scenario.stain_reply true) Scenario.env
           Office.sockets (Office.filled None) eq_refl eq_refl eq_refl).
Defined.

(** X15. An upload of no bytes is not replaced by the test image: the
    pipeline refuses it and the answer is 500 with the text of line 13 of
    the pipeline; no request leaves, nothing is told or mailed. *)
Theorem empty_upload_is_reported
  (srv : Server) (h : Host) (env : Env) (clients : list N) (req : Req) :
  is_nullish (body req) = false ->
  complete req = true ->
  image_of srv req = Some [] ->
  analyze_leak srv h env clients req
  = (reads req, inl (failed (js "No image buffer provided!"))).
Proof.
  intros Hbody Hcomplete Himage.
  rewrite analyze_leak_run, (analyze_leak_try_run srv h env clients req Hbody).
  rewrite Himage, Hcomplete, analyze_leak_deliver_no_picture.
  srv_step; reflexivity.
Qed.

Lemma empty_upload_is_reported_witness :
  analyze_leak (Office.server true true)
    (Scenario.serving Scenario.stain_reply true) Scenario.env Office.sockets
    (Office.filled (Some []))
  = ([], inl (failed (js "No image buffer provided!"))).
Proof.
  exact (empty_upload_is_reported (Office.server true true)
           (Scenario.serving Scenario.stain_reply true) Scenario.env
           Office.sockets (Office.filled (Some [])) eq_refl eq_refl eq_refl).
Defined.

(** X16. A complete request with a picture is served in this order: the
    pipeline runs, every open socket is told the result, then the mail is
    handed over, its attachment being byte for byte the picture the
    pipeline returned (the original, or what the renderer made of it). The
    answer is 200 when the mail is taken and 500 when it is not, by which
    time the sockets have been told. *)
Theorem complete_request_is_served
  (srv : Server) (h : Host) (env : Env) (clients : list N) (req : Req)
  (image : buffer) (end1 end2 : jsstring) :
  is_nullish (body req) = false ->
  complete req = true ->
  image_of srv req = Some image ->
  image <> [] ->
  interpolate h (asked req "end1Pressure") = Return end1 ->
  interpolate h (asked req "end2Pressure") = Return end2 ->
  exists picture : buffer,
    let run := Untyped.analyzeWithGemini h env (Some image)
                 (asked req "end1Pressure") (asked req "end2Pressure") in
    let text := Base64.encode picture in
    let mail := analysis_mail srv text end1 end2 (asked req "userEmail") in
    outcome run = Return text
    /\ (picture = image
        \/ exists high : list json, high <> [] /\ picture = drawn h image high)
    /\ done (analyze_leak srv h env clients req)
       = reads req
         ++ List.map Pipeline (trace run)
         ++ told srv clients
              (gemini_update srv text (asked req "end1Pressure")
                 (asked req "end2Pressure"))
         ++ [SendMail mail]
    /\ attachment_content mail = picture
    /\ answer (analyze_leak srv h env clients req)
       = inl (if transporter_sendMail srv mail then accepted
              else failed (host_message srv MailFailed)).
Proof.
  intros Hbody Hcomplete Himage Hpicture He1 He2.
  destruct (untyped_outcome_cases h env image
              (asked req "end1Pressure") (asked req "end2Pressure") Hpicture)
    as (picture & Hrun & Hwhich).
  exists picture; cbv zeta.
  rewrite analyze_leak_run, (analyze_leak_try_run srv h env clients req Hbody).
  rewrite Himage, Hcomplete.
  rewrite (analyze_leak_deliver_run srv h env clients image _ _ _ _ Hrun).
  rewrite He1, He2; srv_step.
  repeat split; try assumption.
  - unfold analysis_mail; cbn [attachment_content].
    now apply Base64Facts.decode_encode_bounded with (List.length picture).
  - now destruct (transporter_sendMail srv _).
Qed.

Lemma filter_send_pipeline (t : list event) :
  List.filter is_send (List.map Pipeline t) = [].
Proof. induction t as [|ev t IH]; [reflexivity | exact IH]. Qed.

Lemma complete_request_is_served_witness :
  answer (analyze_leak (Office.server true false)
            (Scenario.serving Scenario.stain_reply true) Scenario.env
            Office.sockets (Office.filled (Some Scenario.picture)))
  = inl (failed (js "Invalid login"))
  /\ exists message : jsstring,
       List.filter is_send
         (done (analyze_leak (Office.server true false)
                  (Scenario.serving Scenario.stain_reply true) Scenario.env
                  Office.sockets (Office.filled (Some Scenario.picture))))
       = [Send 7 message; Send 9 message].
Proof.
  destruct (complete_request_is_served (Office.server true false)
              (Scenario.serving Scenario.stain_reply true) Scenario.env
              Office.sockets (Office.filled (Some Scenario.picture))
              Scenario.picture (js "20") (js "16")
              eq_refl eq_refl eq_refl ltac:(discriminate) eq_refl eq_refl)
    as (picture & _ & _ & Hdone & _ & Hanswer).
  split; [exact Hanswer|].
  exists (JSON_stringify (Office.server true false)
            (gemini_update (Office.server true false) (Base64.encode picture)
               (asked (Office.filled (Some Scenario.picture)) "end1Pressure")
               (asked (Office.filled (Some Scenario.picture)) "end2Pressure"))).
  rewrite Hdone, !filter_app, filter_send_pipeline.
  reflexivity.
Defined.

Lemma analyze_leak_try_no_body (srv : Server) (h : Host) (env : Env)
  (clients : list N) (req : Req) :
  is_nullish (body req) = true ->
  analyze_leak_try srv h env clients req = ([], inr (Raised TypeError)).
Proof.
  intros Hbody; unfold analyze_leak_try.
  now rewrite !(prop_without_body req _ Hbody).
Qed.

(** A mail is handed over last or not at all. *)
Lemma mail_in_done (req : Req) (t : list event) (srv : Server)
  (clients : list N) (data : json) (rest : list action) (mail : Mail) :
  In (SendMail mail)
    (reads req ++ List.map Pipeline t ++ told srv clients data ++ rest) ->
  In (SendMail mail) rest.
Proof.
  intros Hin.
  apply in_app_or in Hin as [Hin | Hin].
  { unfold reads in Hin; destruct (file req); simpl in Hin;
      [contradiction | destruct Hin as [Hin | []]; discriminate Hin]. }
  apply in_app_or in Hin as [Hin | Hin].
  { apply in_map_iff in Hin as (ev & Hev & _); discriminate Hev. }
  apply in_app_or in Hin as [Hin | Hin]; [|exact Hin].
  unfold told in Hin; apply in_map_iff in Hin as (ws & Hws & _); discriminate Hws.
Qed.

Lemma no_mail_in_reads (req : Req) (mail : Mail) :
  ~ In (SendMail mail) (reads req).
Proof.
  intros Hin.
  apply (mail_in_done req [] {| fs_readFileSync := fun _ => None;
                                toISOString_now := [];
                                JSON_stringify := fun _ => [];
                                transporter_sendMail := fun _ => false;
                                EMAIL_USER := None;
                                readyState := fun _ => 0%N;
                                host_message := fun _ => [] |} [] JNull [] mail).
  now rewrite !app_nil_r.
Qed.

(** X17. The analysis endpoint answers every request, and with 200, 400 or
    500: nothing escapes its handler. The answer is 200 exactly when a mail
    was handed over and taken; and a request answered 400 has caused
    nothing but, at most, the reading of the test image. *)
Theorem analysis_endpoint_always_answers
  (srv : Server) (h : Host) (env : Env) (clients : list N) (req : Req) :
  exists r : Response,
    answer (analyze_leak srv h env clients req) = inl r
    /\ (status r = 200 \/ status r = 400 \/ status r = 500)%N
    /\ (status r = 200%N
        <-> exists mail : Mail,
              In (SendMail mail) (done (analyze_leak srv h env clients req))
              /\ transporter_sendMail srv mail = true)
    /\ (status r = 400%N
        -> done (analyze_leak srv h env clients req) = reads req).
Proof.
  rewrite analyze_leak_run; srv_step.
  assert (forall (t : list action) (text : jsstring),
             (forall mail, ~ In (SendMail mail) t) ->
             (status (failed text) = 200 \/ status (failed text) = 400
              \/ status (failed text) = 500)%N
             /\ (status (failed text) = 200%N
                 <-> exists mail : Mail,
                       In (SendMail mail) t /\ transporter_sendMail srv mail = true)
             /\ (status (failed text) = 400%N -> t = reads req)) as Hfailed.
  { intros t text Hno; split; [now right; right|split; [split|]].
    - discriminate.
    - intros (mail & Hin & _); now elim (Hno mail).
    - discriminate. }
  destruct (is_nullish (body req)) eqn:Hbody.
  { rewrite (analyze_leak_try_no_body srv h env clients req Hbody); srv_step.
    eexists; split; [reflexivity|]; apply Hfailed; intros mail []. }
  rewrite (analyze_leak_try_run srv h env clients req Hbody).
  destruct (image_of srv req) as [image|]; srv_step;
    [|eexists; split; [reflexivity|]; apply Hfailed, no_mail_in_reads].
  destruct (complete req); srv_step.
  2:{ exists refused; split; [reflexivity|].
      split; [now right; left|split; [split|reflexivity]].
      - discriminate.
      - intros (mail & Hin & _); now elim (no_mail_in_reads req mail). }
  destruct image as [|b0 image0] eqn:Eimage.
  { rewrite analyze_leak_deliver_no_picture; srv_step.
    eexists; split; [reflexivity|]; apply Hfailed, no_mail_in_reads. }
  rewrite <- Eimage.
  destruct (untyped_outcome_cases h env image
              (asked req "end1Pressure") (asked req "end2Pressure"))
    as (picture & Hrun & _); [rewrite Eimage; discriminate|].
  rewrite (analyze_leak_deliver_run srv h env clients image _ _ _ _ Hrun); srv_step.
  destruct (interpolate h (asked req "end1Pressure")) as [s1|e1].
  2:{ eexists; split; [reflexivity|]; apply Hfailed.
      intros mail Hin; now apply mail_in_done in Hin. }
  destruct (interpolate h (asked req "end2Pressure")) as [s2|e2].
  2:{ eexists; split; [reflexivity|]; apply Hfailed.
      intros mail Hin; now apply mail_in_done in Hin. }
  destruct (transporter_sendMail srv _) eqn:Hmail.
  - exists accepted; split; [reflexivity|].
    split; [now left|split; [split|discriminate]].
    + intros _; eexists; split; [|exact Hmail].
      rewrite !in_app_iff; right; right; right; now left.
    + reflexivity.
  - eexists; split; [reflexivity|].
    split; [now right; right|split; [split|discriminate]].
    + discriminate.
    + intros (mail & Hin & Htaken).
      apply mail_in_done in Hin as [Hin | []].
      injection Hin as <-; congruence.
Qed.

(** X18. A request without a body (nothing parsed it) is answered 500 by
    the analysis endpoint, nothing having been read or sent; the pressure
    endpoint, which has no handler of its own, raises. *)
Theorem request_without_body
  (srv : Server) (h : Host) (env : Env) (clients : list N) (req : Req) :
  is_nullish (body req) = true ->
  analyze_leak srv h env clients req
  = ([], inl (failed (host_message srv (Raised TypeError))))
  /\ pressure srv h clients req = ([], inr (Raised TypeError)).
Proof.
  intros Hbody; split.
  - rewrite analyze_leak_run, (analyze_leak_try_no_body srv h env clients req Hbody).
    reflexivity.
  - unfold pressure; now rewrite !(prop_without_body req _ Hbody).
Qed.

Lemma request_without_body_witness :
  analyze_leak (Office.server true true)
    (Scenario.serving Scenario.stain_reply true) Scenario.env Office.sockets
    Office.no_body
  = ([], inl (failed (js "Cannot destructure")))
  /\ pressure (Office.server true true)
       (Scenario.serving Scenario.stain_reply true) Office.sockets Office.no_body
     = ([], inr (Raised TypeError)).
Proof.
  exact (request_without_body (Office.server true true)
           (Scenario.serving Scenario.stain_reply true) Scenario.env
           Office.sockets Office.no_body eq_refl).
Defined.

Lemma truthy_not_nullish (a : jsval) : truthy a = true -> is_nullish a = false.
Proof. destruct a as [[| | | | |]|]; simpl; congruence. Qed.

(** X19. The pressure endpoint refuses a reading only when it is [null] or
    [undefined]; what the analysis endpoint accepts it accepts too, and
    the number zero besides. On two numbers it tells the open sockets the
    readings and answers with the difference the pipeline would compute,
    which the sockets are not told. *)
Theorem pressure_endpoint_refuses_only_missing_readings
  (srv : Server) (h : Host) (clients : list N) (req : Req) :
  is_nullish (body req) = false ->
  (is_nullish (asked req "end1Pressure") || is_nullish (asked req "end2Pressure")
   = true ->
   pressure srv h clients req = ([], inl pressure_refused))
  /\ (forall a b : number,
        asked req "end1Pressure" = Some (JNum a) ->
        asked req "end2Pressure" = Some (JNum b) ->
        pressure srv h clients req
        = (told srv clients
             (pressure_update srv (Some (JNum a)) (Some (JNum b))),
           inl (pressure_received (pressureDiff a b))))
  /\ (complete req = true ->
      is_nullish (asked req "end1Pressure") || is_nullish (asked req "end2Pressure")
      = false).
Proof.
  intros Hbody; split; [|split].
  - intros Hmissing; unfold pressure.
    rewrite !(prop_of_body req _ Hbody).
    apply Served_eq; srv_step; rewrite Hmissing; reflexivity.
  - intros a b Ha Hb; unfold pressure.
    rewrite !(prop_of_body req _ Hbody), Ha, Hb.
    apply Served_eq; srv_step; cbn [is_nullish orb];
      change (js_minus h (Some (JNum a)) (Some (JNum b))) with (Return (Num.sub a b));
      srv_step; unfold told; rewrite <- ?send_each_open; reflexivity.
  - unfold complete; intros Hcomplete.
    apply andb_true_iff in Hcomplete as [Hcomplete _].
    apply andb_true_iff in Hcomplete as [H1 H2].
    now rewrite (truthy_not_nullish _ H1), (truthy_not_nullish _ H2).
Qed.

Lemma pressure_endpoint_refuses_only_missing_readings_witness :
  pressure (Office.server true true)
    (Scenario.serving Scenario.stain_reply true) Office.sockets
    Office.zero_reading
  = (told (Office.server true true) Office.sockets
       (pressure_update (Office.server true true)
          (Some (Scenario.num 0)) (Some (Scenario.num 12))),
     inl (pressure_received (Num.of_Z 12)))
  /\ complete Office.zero_reading = false.
Proof.
  destruct (pressure_endpoint_refuses_only_missing_readings
              (Office.server true true)
              (Scenario.serving Scenario.stain_reply true) Office.sockets
              Office.zero_reading eq_refl)
    as (_ & Hnumbers & _).
  split; [|reflexivity].
  exact (Hnumbers (Num.of_Z 0) (Num.of_Z 12) eq_refl eq_refl).
Defined.

(** ** The registry and the broadcast *)

Module RegistryFacts.

Lemma existsb_eqb (w : N) (cs : list N) :
  List.existsb (N.eqb w) cs = true <-> In w cs.
Proof.
  rewrite existsb_exists; split.
  - intros (x & Hin & Heq); apply N.eqb_eq in Heq; now subst.
  - intros Hin; exists w; split; [exact Hin | apply N.eqb_refl].
Qed.

Lemma clients_add_in (ws w : N) (cs : list N) :
  In ws (clients_add w cs) <-> ws = w \/ In ws cs.
Proof.
  unfold clients_add.
  destruct (List.existsb (N.eqb w) cs) eqn:E.
  - apply existsb_eqb in E; split; [now right | intros [-> | H]; assumption].
  - rewrite in_app_iff; simpl; intuition.
Qed.

Lemma clients_delete_in (ws w : N) (cs : list N) :
  In ws (clients_delete w cs) <-> In ws cs /\ ws <> w.
Proof.
  unfold clients_delete; rewrite filter_In, negb_true_iff, N.eqb_neq; tauto.
Qed.

Lemma clients_add_NoDup (w : N) (cs : list N) :
  NoDup cs -> NoDup (clients_add w cs).
Proof.
  intros Hcs; unfold clients_add.
  destruct (List.existsb (N.eqb w) cs) eqn:E; [exact Hcs|].
  assert (~ In w cs) as Hw by (rewrite <- existsb_eqb; congruence).
  clear E; induction Hcs as [|c cs Hc Hcs IH]; simpl.
  - constructor; [intros [] | constructor].
  - constructor.
    + rewrite in_app_iff; simpl; intros [H | [H | []]]; [now elim Hc|].
      subst; apply Hw; now left.
    + apply IH; intros H; apply Hw; now right.
Qed.

Lemma clients_delete_NoDup (w : N) (cs : list N) :
  NoDup cs -> NoDup (clients_delete w cs).
Proof. intros Hcs; now apply NoDup_filter. Qed.

Lemma after_events (ws : N) (events : list socket_event) :
  forall (cs : list N) (known : bool),
    NoDup cs ->
    (In ws cs <-> known = true) ->
    NoDup (List.fold_left on_socket_event events cs)
    /\ (In ws (List.fold_left on_socket_event events cs)
        <-> List.fold_left
              (fun known e =>
                 match e with
                 | Connection w => if N.eqb w ws then true else known
                 | Close w => if N.eqb w ws then false else known
                 | SocketError _ => known
                 end)
              events known = true).
Proof.
  induction events as [|e events IH]; intros cs known Hcs Hknown; [now split|].
  cbn [List.fold_left]; apply IH.
  - destruct e as [w | w | w]; cbn [on_socket_event];
      [now apply clients_add_NoDup | now apply clients_delete_NoDup | exact Hcs].
  - destruct e as [w | w | w]; cbn [on_socket_event]; [| |exact Hknown].
    + rewrite clients_add_in.
      destruct (N.eqb_spec w ws) as [-> | Hne]; [tauto|].
      rewrite <- Hknown; split; [intros [H | H]; [now elim Hne | exact H] | now right].
    + rewrite clients_delete_in.
      destruct (N.eqb_spec w ws) as [-> | Hne]; [split; [tauto | discriminate]|].
      rewrite <- Hknown; split; [tauto | intros H; split; [exact H | congruence]].
Qed.

Lemma sends_NoDup (message : jsstring) (cs : list N) :
  NoDup cs -> NoDup (List.map (fun ws => Send ws message) cs).
Proof.
  induction 1 as [|c cs Hc Hcs IH]; simpl; constructor; [|exact IH].
  rewrite in_map_iff; intros (w & Hw & Hin); injection Hw as ->; now elim Hc.
Qed.

End RegistryFacts.

(** X20. After any sequence of connections, closings and socket errors, a
    broadcast puts its message on exactly the sockets that are registered
    (their last connection was not followed by a closing) and open at that
    moment; each gets it once, all get the same text, and nothing else is
    done. An error on a socket does not remove it. *)
Theorem broadcast_reaches_the_open_registered_sockets
  (srv : Server) (events : list socket_event) (data : json) :
  (forall (ws : N) (message : jsstring),
     In (Send ws message) (done (broadcast srv (clients_after events) data))
     <-> message = JSON_stringify srv data
         /\ readyState srv ws = OPEN
         /\ registered ws events = true)
  /\ NoDup (done (broadcast srv (clients_after events) data))
  /\ Forall (fun a => is_send a = true)
       (done (broadcast srv (clients_after events) data))
  /\ (forall ws : N,
        clients_after (events ++ [SocketError ws]) = clients_after events).
Proof.
  rewrite done_broadcast, send_each_open.
  assert (forall ws, NoDup (clients_after events)
                     /\ (In ws (clients_after events) <-> registered ws events = true))
    as Hreg.
  { intros ws; apply RegistryFacts.after_events; [constructor|].
    split; [intros [] | discriminate]. }
  split; [|split; [|split]].
  - intros ws message; rewrite in_map_iff; unfold open_clients; split.
    + intros (w & Hw & Hin); injection Hw as -> ->.
      apply filter_In in Hin as [Hin Hopen].
      split; [reflexivity|split; [now apply N.eqb_eq | now apply Hreg]].
    + intros (-> & Hopen & Hknown); exists ws; split; [reflexivity|].
      apply filter_In; split; [now apply Hreg | now apply N.eqb_eq].
  - apply RegistryFacts.sends_NoDup, NoDup_filter, (Hreg 0%N).
  - apply Forall_forall; intros a Hin.
    apply in_map_iff in Hin as (w & <- & _); reflexivity.
  - intros ws; unfold clients_after; now rewrite fold_left_app.
Qed.
